(** * TRAIT3D / iscat_lib.analysis: a shallow embedding and its properties

    The development follows [src/iscat_lib/analysis.py] (class [Track], the
    module functions [MSD_loop], [BIC], [classicalMSDAnalysis],
    [adc_analysis], [smartAveraging]) and [src/iscat_lib/analysis/_sd.py]
    ([_calculate_sd_at]).

    Conventions of the embedding.
    - A Python/NumPy [float64] is a value of [float64] below: an exact real
      number or one of the IEEE special values [+inf], [-inf], [nan].
      Arithmetic on finite values is exact (rounding, overflow and the sign
      of zero are not represented); division by zero, [log 0], [inf - inf]
      and the like produce the special values NumPy produces.
    - A Python [int] is a [Z]; a one-dimensional [ndarray] is a [list]; a
      dictionary with string keys is a [gmap string].
    - A Python exception is a constructor of [exn]; code that may raise
      lives in the [result] monad.  [warnings.warn], [print] and the calls
      into matplotlib are recorded as [event]s in the [io] monad.
    - [scipy.optimize.curve_fit], [os.cpu_count], the order in which the
      process pool completes its tasks, and the module functions
      [normalize] and [MSD] that [adc_analysis] calls but [analysis.py]
      does not define, are parameters of the sections that use them.
    - [Module Heap] gives the object-level reading of the [Track] methods
      (references, copies, in-place updates) for the frame properties.

    The file has three parts: the embedding, the vocabulary of the
    statements, and the properties. *)

From Stdlib Require Import Reals Lra Lia ZArith List Sorted Permutation.
From stdpp Require Import base option list strings gmap.

Local Open Scope Z_scope.

(** ** Exceptions and the [result] monad *)

Inductive exn : Set :=
  | IndexError | ValueError | AssertionError | RuntimeError | AttributeError
  | ZeroDivisionError | TypeError | KeyError | OverflowError.

Inductive result (A : Type) : Type :=
  | Ok (a : A)
  | Raise (e : exn).
Arguments Ok {A} a.
Arguments Raise {A} e.

#[global] Instance result_ret : MRet result := fun A a => Ok a.
#[global] Instance result_bind : MBind result :=
  fun A B f m => match m with Ok a => f a | Raise e => Raise e end.
#[global] Instance result_fmap : FMap result :=
  fun A B f m => match m with Ok a => Ok (f a) | Raise e => Raise e end.

(** [traverse f l] runs [f] on the elements of [l] from left to right and
    stops at the first exception. *)
Fixpoint traverse {A B} (f : A -> result B) (l : list A) : result (list B) :=
  match l with
  | [] => Ok []
  | a :: l' => b ← f a; bs ← traverse f l'; Ok (b :: bs)
  end.

(** A Python [for] loop over [l] threading the loop-carried variables [s]. *)
Fixpoint for_each {A S} (l : list A) (s : S) (body : A -> S -> result S)
  : result S :=
  match l with
  | [] => Ok s
  | a :: l' => s' ← body a s; for_each l' s' body
  end.

(** ** Floating-point values *)

Inductive float64 : Type :=
  | Fin (r : R)
  | PInf
  | NInf
  | NaN.

Definition is_finite (x : float64) : Prop :=
  match x with Fin _ => True | _ => False end.

Module F.
Local Open Scope R_scope.

(** The infinity with the sign of [r]; [nan] for zero (as in [0 * inf]). *)
Definition signed_inf (r : R) : float64 :=
  if Rlt_dec 0 r then PInf else if Rlt_dec r 0 then NInf else NaN.

Definition neg (x : float64) : float64 :=
  match x with
  | Fin r => Fin (- r)
  | PInf => NInf
  | NInf => PInf
  | NaN => NaN
  end.

Definition add (x y : float64) : float64 :=
  match x, y with
  | NaN, _ | _, NaN => NaN
  | Fin a, Fin b => Fin (a + b)
  | PInf, NInf | NInf, PInf => NaN
  | PInf, _ | _, PInf => PInf
  | NInf, _ | _, NInf => NInf
  end.

Definition sub (x y : float64) : float64 := add x (neg y).

Definition mul (x y : float64) : float64 :=
  match x, y with
  | NaN, _ | _, NaN => NaN
  | Fin a, Fin b => Fin (a * b)
  | Fin a, PInf | PInf, Fin a => signed_inf a
  | Fin a, NInf | NInf, Fin a => neg (signed_inf a)
  | PInf, PInf | NInf, NInf => PInf
  | PInf, NInf | NInf, PInf => NInf
  end.

(** NumPy true division: [x/0] is [±inf], [0/0] and [inf/inf] are [nan]. *)
Definition div (x y : float64) : float64 :=
  match x, y with
  | NaN, _ | _, NaN => NaN
  | Fin a, Fin b => if Req_dec_T b 0 then signed_inf a else Fin (a / b)
  | Fin _, (PInf | NInf) => Fin 0
  | PInf, Fin b => if Rlt_dec b 0 then NInf else PInf
  | NInf, Fin b => if Rlt_dec b 0 then PInf else NInf
  | (PInf | NInf), (PInf | NInf) => NaN
  end.

(** [x ** 2], which NumPy evaluates as [x * x]. *)
Definition square (x : float64) : float64 := mul x x.

Definition sqrt (x : float64) : float64 :=
  match x with
  | Fin a => if Rlt_dec a 0 then NaN else Fin (R_sqrt.sqrt a)
  | PInf => PInf
  | NInf | NaN => NaN
  end.

(** [np.log]: [-inf] at zero, [nan] below. *)
Definition log (x : float64) : float64 :=
  match x with
  | Fin a => if Rlt_dec 0 a then Fin (ln a)
             else if Rlt_dec a 0 then NaN else NInf
  | PInf => PInf
  | NInf | NaN => NaN
  end.

Definition exp (x : float64) : float64 :=
  match x with
  | Fin a => Fin (Rtrigo_def.exp a)
  | PInf => PInf
  | NInf => Fin 0
  | NaN => NaN
  end.

(** Comparisons; every comparison with [nan] is false. *)
Definition ltb (x y : float64) : bool :=
  match x, y with
  | NaN, _ | _, NaN => false
  | Fin a, Fin b => if Rlt_dec a b then true else false
  | NInf, (Fin _ | PInf) => true
  | Fin _, PInf => true
  | _, _ => false
  end.

Definition eqb (x y : float64) : bool :=
  match x, y with
  | Fin a, Fin b => if Req_dec_T a b then true else false
  | PInf, PInf | NInf, NInf => true
  | _, _ => false
  end.

Definition of_Z (z : Z) : float64 := Fin (IZR z).
Definition of_nat (n : nat) : float64 := Fin (INR n).

End F.

(** ** Python and NumPy primitives *)

(** [range(start, stop)] and [np.arange(start, stop, 1)]. *)
Definition py_range (start stop : Z) : list Z :=
  map (fun k => start + Z.of_nat k) (seq 0 (Z.to_nat (stop - start))).

Definition np_arange (start stop : Z) : list Z := py_range start stop.

(** [a[i]] for an integer [i]: negative indices count from the end, an index
    outside [-len, len) raises [IndexError]. *)
Definition np_getitem {A} (a : list A) (i : Z) : result A :=
  let n := Z.of_nat (length a) in
  let k := if i <? 0 then n + i else i in
  if (0 <=? k) && (k <? n) then
    match a !! Z.to_nat k with
    | Some v => Ok v
    | None => Raise IndexError
    end
  else Raise IndexError.

(** [a[idx]] for an integer index array [idx]. *)
Definition np_take {A} (a : list A) (idx : list Z) : result (list A) :=
  traverse (np_getitem a) idx.

(** [a[i] = v]. *)
Definition np_setitem {A} (a : list A) (i : Z) (v : A) : result (list A) :=
  let n := Z.of_nat (length a) in
  let k := if i <? 0 then n + i else i in
  if (0 <=? k) && (k <? n) then Ok (<[Z.to_nat k := v]> a)
  else Raise IndexError.

(** [a[0:n]]: the slice is clipped to the array. *)
Definition py_slice_to {A} (a : list A) (n : Z) : list A :=
  if n <? 0 then take (Z.to_nat (Z.of_nat (length a) + n)) a
  else take (Z.to_nat n) a.

(** [np.zeros((n,))]. *)
Definition np_zeros (n : Z) : result (list float64) :=
  if n <? 0 then Raise ValueError else Ok (replicate (Z.to_nat n) (Fin 0)).

(** An elementwise binary operation on one-dimensional arrays with NumPy's
    broadcasting: equal lengths, or one operand of length one. *)
Definition np_broadcast (f : float64 -> float64 -> float64)
    (a b : list float64) : result (list float64) :=
  if decide (length a = length b) then Ok (zip_with f a b)
  else match a, b with
       | [x], _ => Ok (map (f x) b)
       | _, [y] => Ok (map (fun x => f x y) a)
       | _, _ => Raise ValueError
       end.

Definition np_sum (a : list float64) : float64 := fold_left F.add a (Fin 0).

Definition np_mean (a : list float64) : float64 :=
  F.div (np_sum a) (F.of_nat (length a)).

(** [np.std]: the square root of the mean squared deviation (ddof = 0). *)
Definition np_std (a : list float64) : float64 :=
  let m := np_mean a in
  F.sqrt (np_mean (map (fun x => F.square (F.sub x m)) a)).

(** The order [ndarray.sort] sorts by: the usual order, [nan] last. *)
Definition np_leb (x y : float64) : bool :=
  match x, y with
  | _, NaN => true
  | NaN, _ => false
  | NInf, _ => true
  | _, NInf => false
  | _, PInf => true
  | PInf, _ => false
  | Fin a, Fin b => if Rle_dec a b then true else false
  end.

Definition np_le (x y : float64) : Prop := np_leb x y = true.

Fixpoint sort_insert (x : float64) (l : list float64) : list float64 :=
  match l with
  | [] => [x]
  | y :: l' => if np_leb x y then x :: y :: l' else y :: sort_insert x l'
  end.

(** [a.sort()]: the sorted array is determined by the order alone, so the
    algorithm NumPy picks does not matter; insertion sort stands for it. *)
Fixpoint np_sort (l : list float64) : list float64 :=
  match l with
  | [] => []
  | x :: l' => sort_insert x (np_sort l')
  end.

(** ** class Track *)

Record Track : Type := mkTrack {
  _x : list float64;
  _y : list float64;
  _t : list float64;
  _MSD : option (list float64);
  _MSD_error : option (list float64)
}.

(** [Track.__init__]. *)
Definition Track_init (x y t : list float64) : Track :=
  {| _x := x; _y := y; _t := t; _MSD := None; _MSD_error := None |}.

(** The expression
    [(pos_x[idx_t] - pos_x[idx_0])**2 + (pos_y[idx_t] - pos_y[idx_0])**2]
    shared by [SD], [calculateMSD], [MSD_loop] and [_calculate_sd_at]. *)
Definition squared_displacements (pos_x pos_y : list float64)
    (idx_0 idx_t : list Z) : result (list float64) :=
  xt ← np_take pos_x idx_t;
  x0 ← np_take pos_x idx_0;
  dx ← np_broadcast F.sub xt x0;
  yt ← np_take pos_y idx_t;
  y0 ← np_take pos_y idx_0;
  dy ← np_broadcast F.sub yt y0;
  np_broadcast F.add (map F.square dx) (map F.square dy).

(** [Track.SD] (analysis.py, lines 33-62). *)
Definition SD (self : Track) (j : Z) : result (list float64) :=
  let length_array := Z.of_nat (length (_x self)) in
  let pos_x := _x self in
  let pos_y := _y self in
  let idx_0 := np_arange 0 (length_array - j - 1) in
  let idx_t := map (fun i => i + j) idx_0 in
  sd ← squared_displacements pos_x pos_y idx_0 idx_t;
  Ok (np_sort sd).

(** [_calculate_sd_at] (analysis/_sd.py, lines 149-175). *)
Definition _calculate_sd_at (self : Track) (j : Z) : result (list float64) :=
  let length_array := Z.of_nat (length (_x self)) in
  let pos_x := _x self in
  let pos_y := _y self in
  let idx_0 := np_arange 0 (length_array - j - 1) in
  let idx_t := map (fun i => i + j) idx_0 in
  sd ← squared_displacements pos_x pos_y idx_0 idx_t;
  Ok (np_sort sd).

(** [MSD_loop] (analysis.py, lines 215-223). *)
Definition MSD_loop (i : Z) (pos_x pos_y : list float64) (N : Z)
  : result (float64 * float64) :=
  let idx_0 := np_arange 1 (N - i - 1) in
  let idx_t := map (fun k => k + i) idx_0 in
  this_msd ← squared_displacements pos_x pos_y idx_0 idx_t;
  let MSD := np_mean this_msd in
  let MSD_error :=
    F.div (np_std this_msd) (F.sqrt (F.of_nat (length this_msd))) in
  Ok (MSD, MSD_error).

Section ProcessPool.

(** What [os.cpu_count()] reports. *)
Variable os_cpu_count : Z.

(** The order in which the process pool completes the tasks of a map over
    [n] items, as positions in the input. *)
Variable pool_order : nat -> list nat.

(** One task of the pool: the outcome of [f] on the input at position [k]
    goes into slot [k]. *)
Definition pool_run {A B} (f : A -> result B) (inputs : list A)
    (slots : list (option (result B))) (k : nat)
  : list (option (result B)) :=
  match inputs !! k with
  | Some a => <[k := Some (f a)]> slots
  | None => slots
  end.

(** [list(executor.map(f, inputs))]: every task writes its outcome into
    the slot of its input position, in the order the pool runs them; the
    outcomes are then collected in input order, re-raising the first
    exception met.  A slot that no task filled stands for a broken pool. *)
Definition executor_map {A B} (f : A -> result B) (inputs : list A)
  : result (list B) :=
  let slots :=
    fold_left (pool_run f inputs) (pool_order (length inputs))
              (replicate (length inputs) None) in
  traverse (fun s => match s with
                     | Some r => r
                     | None => Raise RuntimeError
                     end) slots.

(** [Track.calculateMSD] (analysis.py, lines 87-144); the method stores
    its two arrays in the track, which is returned. *)
Definition calculateMSD (self : Track) (N : option Z)
    (numWorkers : option Z) : result Track :=
  let N := match N with
           | None => Z.of_nat (length (_x self))
           | Some n => n
           end in
  MSD ← np_zeros (N - 3);
  MSD_error ← np_zeros (N - 3);
  let pos_x := _x self in
  let pos_y := _y self in
  let workers := match numWorkers with
                 | None => os_cpu_count
                 | Some w => w
                 end in
  '(MSD, MSD_error) ←
    (if 1 <? workers then
       let i := py_range 1 (N - 2) in
       results ← executor_map (fun i => MSD_loop i pos_y pos_x N) i;
       '(MSD, MSD_error, _) ←
         for_each results (MSD, MSD_error, 0)
           (fun '(MSD_i, MSD_error_i) '(MSD, MSD_error, i) =>
              MSD ← np_setitem MSD i MSD_i;
              MSD_error ← np_setitem MSD_error i MSD_error_i;
              Ok (MSD, MSD_error, i + 1));
       Ok (MSD, MSD_error)
     else
       for_each (py_range 1 (N - 2)) (MSD, MSD_error)
         (fun i '(MSD, MSD_error) =>
            let idx_0 := np_arange 1 (N - i - 1) in
            let idx_t := map (fun k => k + i) idx_0 in
            this_msd ← squared_displacements pos_x pos_y idx_0 idx_t;
            MSD ← np_setitem MSD (i - 1) (np_mean this_msd);
            MSD_error ←
              np_setitem MSD_error (i - 1)
                (F.div (np_std this_msd)
                       (F.sqrt (F.of_nat (length this_msd))));
            Ok (MSD, MSD_error)));
  Ok {| _x := _x self; _y := _y self; _t := _t self;
        _MSD := Some MSD; _MSD_error := Some MSD_error |}.

End ProcessPool.

(** ** Output events and the [io] monad *)

Inductive event : Type :=
  | Warn (msg : string)
  | Print (text : string) (values : list float64)
  | PlotData (linear : bool) (xs ys : list float64)
  | PlotFit (label : string) (rel_likelihood : float64)
            (xs ys : list float64)
  | Axvspan (xmin xmax : float64)
  | Show.

Record io (A : Type) : Type := IO {
  events : list event;
  outcome : result A
}.
Arguments IO {A} events outcome.
Arguments events {A} i.
Arguments outcome {A} i.

#[global] Instance io_ret : MRet io := fun A a => IO [] (Ok a).
#[global] Instance io_bind : MBind io :=
  fun A B f m =>
    match outcome m with
    | Ok a => IO (events m ++ events (f a)) (outcome (f a))
    | Raise e => IO (events m) (Raise e)
    end.

Definition lift {A} (r : result A) : io A := IO [] r.
Definition emit (e : event) : io unit := IO [e] (Ok tt).
Definition py_assert (b : bool) : io unit :=
  if b then mret tt else lift (Raise AssertionError).

(** A [for] loop in the [io] monad that appends one result per item. *)
Fixpoint io_for {A B} (l : list A) (body : A -> io B) : io (list B) :=
  match l with
  | [] => mret []
  | a :: l' => b ← body a; bs ← io_for l' body; mret (b :: bs)
  end.

Definition too_many_points : string :=
  "Using too many points for the fit means including points which have higher measurment errors.".

(** ** Scalar helpers *)

(** [int(x)]: truncation toward zero. *)
Definition py_int (x : float64) : result Z :=
  match x with
  | Fin r => Ok (if Rle_dec 0 r then Int_part r else - Int_part (- r))
  | NaN => Raise ValueError
  | PInf | NInf => Raise OverflowError
  end.

(** The builtin [min] on a non-empty list literal [[x, *rest]]: the first
    smallest element under [<]. *)
Definition py_min (x : float64) (rest : list float64) : float64 :=
  fold_left (fun m v => if F.ltb v m then v else m) rest x.

(** [a / b] on Python integers. *)
Definition py_truediv (a b : Z) : result float64 :=
  if b =? 0 then Raise ZeroDivisionError else Ok (Fin (IZR a / IZR b)).

(** [d[key]] on a dictionary. *)
Definition dict_getitem {V} (d : gmap string V) (key : string) : result V :=
  match d !! key with
  | Some v => Ok v
  | None => Raise KeyError
  end.

Module Pow.
Local Open Scope R_scope.

Definition is_integer (b : R) : bool :=
  if Req_dec_T (IZR (Int_part b)) b then true else false.

Definition is_odd_integer (b : R) : bool :=
  is_integer b && Z.odd (Int_part b).

(** [x ** y] on floats (the C library's [pow]). *)
Definition pow (x y : float64) : float64 :=
  match x, y with
  | _, Fin b =>
      if Req_dec_T b 0 then Fin 1
      else match x with
           | NaN => NaN
           | Fin a =>
               if Rlt_dec 0 a then Fin (Rpower a b)
               else if Req_dec_T a 0 then
                      (if Rlt_dec 0 b then Fin 0 else PInf)
               else if is_integer b then
                      (if Z.odd (Int_part b) then Fin (- Rpower (- a) b)
                       else Fin (Rpower (- a) b))
               else NaN
           | PInf => if Rlt_dec 0 b then PInf else Fin 0
           | NInf => if Rlt_dec 0 b
                     then (if is_odd_integer b then NInf else PInf)
                     else Fin 0
           end
  | Fin a, PInf =>
      if Req_dec_T (Rabs a) 1 then Fin 1
      else if Rlt_dec (Rabs a) 1 then Fin 0 else PInf
  | Fin a, NInf =>
      if Req_dec_T (Rabs a) 1 then Fin 1
      else if Rlt_dec (Rabs a) 1 then PInf else Fin 0
  | (PInf | NInf), PInf => PInf
  | (PInf | NInf), NInf => Fin 0
  | NaN, (PInf | NInf) => NaN
  | Fin a, NaN => if Req_dec_T a 1 then Fin 1 else NaN
  | (PInf | NInf | NaN), NaN => NaN
  end.

End Pow.

(** [np.linspace(start, stop, num, endpoint=True)]. *)
Definition np_linspace (start stop : float64) (num : Z)
  : result (list float64) :=
  if num <? 0 then Raise ValueError
  else
    let delta := F.sub stop start in
    let div := num - 1 in
    let y := map (fun i =>
                    if 0 <? div
                    then F.add (F.mul (F.of_Z i) (F.div delta (F.of_Z div)))
                               start
                    else F.add (F.mul (F.of_Z i) delta) start)
                 (np_arange 0 num) in
    Ok (if 1 <? num then <[Z.to_nat (num - 1) := stop]> y else y).

(** ** Models and the information criterion *)

(** A model function [lambda t, *params: ...]: the number of parameters
    after [t], and its value at one time point. *)
Record model : Type := {
  arity : nat;
  eval : list float64 -> float64 -> float64
}.

(** [m(T, *params)] on a time array: [TypeError] when the number of
    unpacked parameters differs from the signature. *)
Definition call_model (m : model) (T params : list float64)
  : result (list float64) :=
  if decide (length params = arity m) then Ok (map (eval m params) T)
  else Raise TypeError.

Definition two := Fin 2.
Definition four := Fin 4.
Definition one := Fin 1.

(** [model1 = lambda t, D, delta2: 4 * D * t + 2 * delta2]. *)
Definition model1 : model := {|
  arity := 2;
  eval := fun p t =>
    match p with
    | [D; delta2] => F.add (F.mul (F.mul four D) t) (F.mul two delta2)
    | _ => NaN
    end |}.

(** [model2 = lambda t, D, delta2, alpha: 4 * D * t**alpha + 2 * delta2]. *)
Definition model2 : model := {|
  arity := 3;
  eval := fun p t =>
    match p with
    | [D; delta2; alpha] =>
        F.add (F.mul (F.mul four D) (Pow.pow t alpha)) (F.mul two delta2)
    | _ => NaN
    end |}.

(** The term [delta**2 / (2 * t * (1 - 2*R*dt/t))] of the Dapp models. *)
Definition localization_term (R dt delta t : float64) : float64 :=
  F.div (F.square delta)
        (F.mul (F.mul two t)
               (F.sub one (F.div (F.mul (F.mul two R) dt) t))).

(** The term [D_micro * (tau/t) * (1 - np.exp(-tau/t))] as [adc_analysis]
    writes it. *)
Definition confinement_term (D_micro tau t : float64) : float64 :=
  F.mul (F.mul D_micro (F.div tau t))
        (F.sub one (F.exp (F.div (F.neg tau) t))).

Definition model_brownian (R dt : float64) : model := {|
  arity := 2;
  eval := fun p t =>
    match p with
    | [D; delta] => F.add D (localization_term R dt delta t)
    | _ => NaN
    end |}.

Definition model_confined (R dt : float64) : model := {|
  arity := 3;
  eval := fun p t =>
    match p with
    | [D_micro; delta; tau] =>
        F.add (confinement_term D_micro tau t)
              (localization_term R dt delta t)
    | _ => NaN
    end |}.

Definition model_hop (R dt : float64) : model := {|
  arity := 4;
  eval := fun p t =>
    match p with
    | [D_macro; D_micro; delta; tau] =>
        F.add (F.add D_macro (confinement_term D_micro tau t))
              (localization_term R dt delta t)
    | _ => NaN
    end |}.

(** The residual sum of squares [np.sum((pred - target) ** 2)]. *)
Definition RSS (pred target : list float64) : result float64 :=
  d ← np_broadcast F.sub pred target;
  Ok (np_sum (map F.square d)).

(** [BIC] (analysis.py, lines 225-246). *)
Definition BIC (pred target : list float64) (k n : Z) : result float64 :=
  RSS ← RSS pred target;
  let bic := F.add (F.mul (F.of_Z k) (F.log (F.of_Z n)))
                   (F.mul (F.of_Z n) (F.log (F.div RSS (F.of_Z n)))) in
  Ok bic.

(** The expression [np.exp((bic - bic_min) * 0.5)] of lines 190-191 and
    391-393. *)
Definition relative_likelihood (bic bic_min : float64) : float64 :=
  F.exp (F.mul (F.sub bic bic_min) (Fin (1 / 2))).

(** ** The analyses *)

Section Analyses.

Variable os_cpu_count : Z.
Variable pool_order : nat -> list nat.

(** [scipy.optimize.curve_fit(f, xdata, ydata, p0, sigma=, maxfev=)]
    returning the optimal parameters, or raising: [RuntimeError] is what
    SciPy raises when [maxfev] evaluations did not converge. *)
Variable curve_fit :
  model -> list float64 -> list float64 -> option (list float64) ->
  list float64 -> option Z -> result (list float64).

(** The module functions [normalize(track)] and [MSD(x, y)] which
    [adc_analysis] calls; [analysis.py] does not define them. *)
Variable normalize :
  gmap string (list float64) -> result (gmap string (list float64)).
Variable MSD :
  list float64 -> list float64 -> result (list float64 * list float64).

(** [Track.classicalMSDAnalysis], lines 156-168: the number of fit points,
    its check, the warning and the time array, for a curve of [N] points. *)
Definition msd_fit_range (fractionFitPoints : float64)
    (nFitPoints : option Z) (N : Z) : io (Z * list float64) :=
  n_points ← lift (match nFitPoints with
                   | None => py_int (F.mul fractionFitPoints (F.of_Z N))
                   | Some n => Ok n
                   end);
  _ ← py_assert (2 <=? n_points);
  quarter ← lift (py_int (F.mul (Fin (1 / 4)) (F.of_Z N)));
  _ ← (if quarter <? n_points then emit (Warn too_many_points)
       else mret tt);
  T ← lift (np_linspace (F.of_Z 1) (F.of_Z N) N);
  mret (n_points, T).

(** [Track.classicalMSDAnalysis], lines 170-204: the two fits, the
    criterion, the relative likelihoods and the plot. *)
Definition msd_fit_and_report (MSD_ : list float64)
    (MSD_error : option (list float64)) (n_points : Z) (T : list float64)
    (linearPlot : bool) : io unit :=
  MSD_error ← lift (match MSD_error with
                    | Some a => Ok a
                    | None => Raise TypeError
                    end);
  reg1 ← lift (curve_fit model1 (py_slice_to T n_points)
                 (py_slice_to MSD_ n_points) None
                 (py_slice_to MSD_error n_points) None);
  reg2 ← lift (curve_fit model2 (py_slice_to T n_points)
                 (py_slice_to MSD_ n_points)
                 (Some (py_slice_to reg1 2 ++ [Fin 1]))
                 (py_slice_to MSD_error n_points) None);
  m1 ← lift (call_model model1 T reg1);
  m2 ← lift (call_model model2 T reg2);
  bic1 ← lift (BIC (py_slice_to m1 n_points) (py_slice_to MSD_ n_points)
                   2 1);
  bic2 ← lift (BIC (py_slice_to m2 n_points) (py_slice_to MSD_ n_points)
                   2 1);
  _ ← emit (Print "bic1 bic2" [bic1; bic2]);
  let rel_likelihood_1 := relative_likelihood bic1 (py_min bic1 [bic2]) in
  let rel_likelihood_2 := relative_likelihood bic2 (py_min bic1 [bic2]) in
  _ ← emit (PlotData linearPlot T MSD_);
  _ ← emit (PlotFit "Model1" rel_likelihood_1 (py_slice_to T n_points)
                    (py_slice_to m1 n_points));
  _ ← emit (PlotFit "Model2" rel_likelihood_2 (py_slice_to T n_points)
                    (py_slice_to m2 n_points));
  T_first ← lift (np_getitem T 0);
  T_last ← lift (np_getitem T n_points);
  _ ← emit (Axvspan T_first T_last);
  emit Show.

(** [Track.classicalMSDAnalysis] (analysis.py, lines 146-204).  The
    arguments [dt], [numWorkers] and [chunksize] are not used by the
    method and are left out. *)
Definition classicalMSDAnalysis (self : Track)
    (fractionFitPoints : float64) (nFitPoints : option Z)
    (linearPlot : bool) : io Track :=
  self ← match _MSD self with
         | None => lift (calculateMSD os_cpu_count pool_order self None None)
         | Some _ => mret self
         end;
  MSD_ ← lift (match _MSD self with
               | Some a => Ok a
               | None => Raise AttributeError
               end);
  let N := Z.of_nat (length MSD_) in
  '(n_points, T) ← msd_fit_range fractionFitPoints nFitPoints N;
  _ ← msd_fit_and_report MSD_ (_MSD_error self) n_points T linearPlot;
  mret self.

(** The module function [classicalMSDAnalysis(tracks, ...)] (analysis.py,
    lines 248-311), named apart from the method: it computes the curve of
    every track with [MSD], then runs on each curve the statements of the
    method (lines 260-311 repeat lines 153-204). *)
Definition classicalMSDAnalysis_of_tracks
    (tracks : list (gmap string (list float64)))
    (fractionFitPoints : float64) (nFitPoints : option Z)
    (useNormalization linearPlot : bool) : io unit :=
  msd_list ← lift (traverse
                     (fun track =>
                        track ← (if useNormalization then normalize track
                                 else Ok track);
                        x ← dict_getitem track "x";
                        y ← dict_getitem track "y";
                        MSD x y)
                     tracks);
  _ ← io_for msd_list
        (fun '(this_msd, this_msd_error) =>
           '(n_points, T) ← msd_fit_range fractionFitPoints nFitPoints
                              (Z.of_nat (length this_msd));
           msd_fit_and_report this_msd (Some this_msd_error) n_points T
                              linearPlot);
  mret tt.

(** The category chosen by the chain of comparisons of lines 374-382. *)
Definition category_of (bic_brownian bic_confined bic_hop : float64)
  : string :=
  let bic_min := py_min bic_brownian [bic_confined; bic_hop] in
  if F.eqb bic_min bic_brownian then "brownian"
  else if F.eqb bic_min bic_confined then "confined"
  else if F.eqb bic_min bic_hop then "hop"
  else "unknown".

(** The body of the first loop of [adc_analysis] (lines 327-331). *)
Definition adc_msd_entry (useNormalization : bool)
    (track : gmap string (list float64))
  : result (list float64 * list float64 * float64) :=
  track ← (if useNormalization then normalize track else Ok track);
  x ← dict_getitem track "x";
  y ← dict_getitem track "y";
  '(msd, msd_error) ← MSD x y;
  t ← dict_getitem track "t";
  t1 ← np_getitem t 1;
  t ← dict_getitem track "t";
  t0 ← np_getitem t 0;
  Ok (msd, msd_error, F.sub t1 t0).

(** The second loop of [adc_analysis], lines 334-355: the number of fit
    points, the time array and the apparent diffusion coefficient. *)
Definition adc_fit_range (R : float64) (nFitPoints : option float64)
    (this_msd : list float64) (dt : float64)
  : io (Z * list float64 * list float64) :=
  let N := Z.of_nat (length this_msd) in
  n_points ← lift (match nFitPoints with
                   | None => py_int (F.mul (Fin (1 / 4)) (F.of_Z N))
                   | Some f => py_int (F.mul f (F.of_Z N))
                   end);
  _ ← py_assert (2 <=? n_points);
  quarter ← lift (py_int (F.mul (Fin (1 / 4)) (F.of_Z N)));
  _ ← (if quarter <? n_points then emit (Warn too_many_points)
       else mret tt);
  T ← lift (np_linspace dt (F.mul dt (F.of_Z N)) N);
  let denom :=
    map (fun t => F.mul (F.mul four t)
                        (F.sub one (F.div (F.mul (F.mul two R) dt) t)))
        T in
  Dapp ← lift (np_broadcast F.div this_msd denom);
  mret (n_points, T, Dapp).

(** The call [optimize.curve_fit(m, T[0:n_points], Dapp[0:n_points],
    sigma=this_msd_error[0:n_points], maxfev=maxfev)] of lines 363-365. *)
Definition adc_fit (maxfev : Z) (this_msd_error : list float64)
    (n_points : Z) (T Dapp : list float64) (m : model)
  : result (list float64) :=
  curve_fit m (py_slice_to T n_points) (py_slice_to Dapp n_points) None
            (py_slice_to this_msd_error n_points) (Some maxfev).

(** The second loop of [adc_analysis], lines 357-405: the three fits, the
    criterion, the category and the output. *)
Definition adc_select (R dt : float64) (maxfev : Z)
    (this_msd_error : list float64) (n_points : Z) (T Dapp : list float64)
  : io string :=
  let fit := adc_fit maxfev this_msd_error n_points T Dapp in
  r_brownian ← lift (fit (model_brownian R dt));
  r_confined ← lift (fit (model_confined R dt));
  r_hop ← lift (fit (model_hop R dt));
  pred_brownian ← lift (call_model (model_brownian R dt) T r_brownian);
  pred_confined ← lift (call_model (model_confined R dt) T r_confined);
  pred_hop ← lift (call_model (model_hop R dt) T r_hop);
  bic_brownian ← lift (BIC (py_slice_to pred_brownian n_points)
                           (py_slice_to Dapp n_points)
                           (Z.of_nat (length r_brownian)) 1);
  bic_confined ← lift (BIC (py_slice_to pred_confined n_points)
                           (py_slice_to Dapp n_points)
                           (Z.of_nat (length r_confined)) 1);
  bic_hop ← lift (BIC (py_slice_to pred_hop n_points)
                      (py_slice_to Dapp n_points)
                      (Z.of_nat (length r_hop)) 1);
  let bic_min := py_min bic_brownian [bic_confined; bic_hop] in
  let category := category_of bic_brownian bic_confined bic_hop in
  _ ← emit (Print "Brownian diffusion parameters"
                  (r_brownian ++ [bic_brownian]));
  _ ← emit (Print "Confined diffusion parameters"
                  (r_confined ++ [bic_confined]));
  _ ← emit (Print "Hop diffusion parameters" (r_hop ++ [bic_hop]));
  _ ← emit (Print ("Diffusion category: " +:+ category) []);
  let rel_likelihood_brownian := relative_likelihood bic_brownian bic_min in
  let rel_likelihood_confined := relative_likelihood bic_confined bic_min in
  let rel_likelihood_hop := relative_likelihood bic_hop bic_min in
  _ ← emit (PlotData false T Dapp);
  _ ← emit (PlotFit "Brownian" rel_likelihood_brownian
                    (py_slice_to T n_points)
                    (py_slice_to pred_brownian n_points));
  _ ← emit (PlotFit "Confined" rel_likelihood_confined
                    (py_slice_to T n_points)
                    (py_slice_to pred_confined n_points));
  _ ← emit (PlotFit "Hop" rel_likelihood_hop (py_slice_to T n_points)
                    (py_slice_to pred_hop n_points));
  T_first ← lift (np_getitem T 0);
  T_last ← lift (np_getitem T n_points);
  _ ← emit (Axvspan T_first T_last);
  _ ← emit Show;
  mret category.

(** The body of the second loop of [adc_analysis] (lines 333-405). *)
Definition adc_classify (R : float64) (nFitPoints : option float64)
    (maxfev : Z) (entry : list float64 * list float64 * float64)
  : io (list float64 * string) :=
  let '(this_msd, this_msd_error, dt) := entry in
  '(n_points, T, Dapp) ← adc_fit_range R nFitPoints this_msd dt;
  category ← adc_select R dt maxfev this_msd_error n_points T Dapp;
  mret (Dapp, category).

(** [adc_analysis] (analysis.py, lines 315-407). *)
Definition adc_analysis (tracks : list (gmap string (list float64)))
    (R : float64) (nFitPoints : option float64) (useNormalization : bool)
    (maxfev : Z)
  : io (list (list float64 * list float64 * float64)
        * list (list float64) * list string) :=
  msd_list ← lift (traverse (adc_msd_entry useNormalization) tracks);
  classified ← io_for msd_list (adc_classify R nFitPoints maxfev);
  let D_app_list := map fst classified in
  let model_list := map snd classified in
  mret (msd_list, D_app_list, model_list).

End Analyses.

(** ** Ensemble averaging *)

(** [a += b] on an array [a]: [b] must have the length of [a] or length
    one. *)
Definition np_iadd (a b : list float64) : result (list float64) :=
  if decide (length b = length a) then Ok (zip_with F.add a b)
  else match b with
       | [y] => Ok (map (fun x => F.add x y) a)
       | _ => Raise ValueError
       end.

(** [a /= c] for a Python integer [c]. *)
Definition np_idiv (a : list float64) (c : Z) : list float64 :=
  map (fun x => F.div x (F.of_Z c)) a.

(** The local variables of [smartAveraging] when it reaches its output
    statements. *)
Record Averages : Type := mkAverages {
  average_D_app_brownian : list float64;
  average_D_app_confined : list float64;
  average_D_app_hop : list float64;
  average_MSD_brownian : list float64;
  average_MSD_confined : list float64;
  average_MSD_hop : list float64;
  counter_brownian : Z;
  counter_confined : Z;
  counter_hop : Z
}.

Record Summary : Type := mkSummary {
  averages : Averages;
  sector_brownian_area : float64;
  sector_confined_area : float64;
  sector_hop_area : float64
}.

(** The checks of lines 435-441 for track [k]. *)
Definition check_lengths (tracks : list (gmap string (list float64)))
    (MSD : list (list float64 * list float64 * float64))
    (D_app : list (list float64)) (track_length : Z) (k : Z)
  : result unit :=
  track ← np_getitem tracks k;
  x ← dict_getitem track "x";
  if negb (Z.of_nat (length x) =? track_length) then Raise ValueError
  else
    msd_k ← np_getitem MSD k;
    if negb (Z.of_nat (length (msd_k.1.1)) =? track_length - 3)
    then Raise ValueError
    else
      d ← np_getitem D_app k;
      if negb (Z.of_nat (length d) =? track_length - 3)
      then Raise ValueError
      else Ok tt.

(** The body of the accumulation loop (lines 443-459). *)
Definition accumulate (MSD : list (list float64 * list float64 * float64))
    (D_app : list (list float64)) (models : list string) (k : Z)
    (a : Averages) : result Averages :=
  m ← np_getitem models k;
  if String.eqb m "brownian" then
    d ← np_getitem D_app k;
    avg_d ← np_iadd (average_D_app_brownian a) d;
    msd_k ← np_getitem MSD k;
    avg_m ← np_iadd (average_MSD_brownian a) (msd_k.1.1);
    Ok (mkAverages avg_d (average_D_app_confined a) (average_D_app_hop a)
          avg_m (average_MSD_confined a) (average_MSD_hop a)
          (counter_brownian a + 1) (counter_confined a) (counter_hop a))
  else if String.eqb m "confined" then
    d ← np_getitem D_app k;
    avg_d ← np_iadd (average_D_app_confined a) d;
    msd_k ← np_getitem MSD k;
    avg_m ← np_iadd (average_MSD_confined a) (msd_k.1.1);
    Ok (mkAverages (average_D_app_brownian a) avg_d (average_D_app_hop a)
          (average_MSD_brownian a) avg_m (average_MSD_hop a)
          (counter_brownian a) (counter_confined a + 1) (counter_hop a))
  else if String.eqb m "hop" then
    d ← np_getitem D_app k;
    avg_d ← np_iadd (average_D_app_hop a) d;
    msd_k ← np_getitem MSD k;
    avg_m ← np_iadd (average_MSD_hop a) (msd_k.1.1);
    Ok (mkAverages (average_D_app_brownian a) (average_D_app_confined a)
          avg_d (average_MSD_brownian a) (average_MSD_confined a) avg_m
          (counter_brownian a) (counter_confined a) (counter_hop a + 1))
  else if String.eqb m "unknown" then Ok a
  else Raise ValueError.

(** [smartAveraging] (analysis.py, lines 410-492), up to the values it
    prints and plots. *)
Definition smartAveraging (tracks : list (gmap string (list float64)))
    (MSD : list (list float64 * list float64 * float64))
    (D_app : list (list float64)) (models : list string)
  : result Summary :=
  track0 ← np_getitem tracks 0;
  x0 ← dict_getitem track0 "x";
  let track_length := Z.of_nat (length x0) in
  z1 ← np_zeros (track_length - 3);
  z2 ← np_zeros (track_length - 3);
  z3 ← np_zeros (track_length - 3);
  z4 ← np_zeros (track_length - 3);
  z5 ← np_zeros (track_length - 3);
  z6 ← np_zeros (track_length - 3);
  let a0 := mkAverages z1 z2 z3 z4 z5 z6 0 0 0 in
  if negb (length tracks =? length models)%nat then Raise ValueError
  else if negb (length tracks =? length MSD)%nat then Raise ValueError
  else if negb (length tracks =? length D_app)%nat then Raise ValueError
  else
    let ks := py_range 0 (Z.of_nat (length tracks)) in
    _ ← for_each ks tt
          (fun k _ => check_lengths tracks MSD D_app track_length k);
    a ← for_each ks a0 (accumulate MSD D_app models);
    let a :=
      mkAverages
        (np_idiv (average_D_app_brownian a) (counter_brownian a))
        (np_idiv (average_D_app_confined a) (counter_confined a))
        (np_idiv (average_D_app_hop a) (counter_hop a))
        (np_idiv (average_MSD_brownian a) (counter_brownian a))
        (np_idiv (average_MSD_confined a) (counter_confined a))
        (np_idiv (average_MSD_hop a) (counter_hop a))
        (counter_brownian a) (counter_confined a) (counter_hop a) in
    let counter_sum :=
      counter_brownian a + counter_confined a + counter_hop a in
    sb ← py_truediv (counter_brownian a) counter_sum;
    sc ← py_truediv (counter_confined a) counter_sum;
    sh ← py_truediv (counter_hop a) counter_sum;
    Ok (mkSummary a sb sc sh).

(** ** The object-level reading of the [Track] methods

    Arrays and objects live in a store and are passed by reference.
    [np.array(a)], fancy indexing and arithmetic allocate a new array;
    [a.sort()] and [a[i] = v] update an array in place; attribute assignment
    updates an object in place; assignment to a local name (such as
    [self = ...] in [normalize]) changes nothing in the store. *)

Module Heap.

Definition loc := positive.

(** A Python value: [None], a reference into the store, or a float. *)
Inductive pyval : Type :=
  | VNone
  | VRef (l : loc)
  | VFloat (x : float64).

(** A one-dimensional float array, or the zero-dimensional array that
    [np.array(v)] builds from a value [v] that is not an array. *)
Inductive ndarray : Type :=
  | NdFloat (data : list float64)
  | NdScalar (v : pyval).

Inductive pyclass : Set := ClsTrack | ClsNormalizedTrack.

Record pyobj : Type := mkObj {
  cls : pyclass;
  attrs : gmap string pyval
}.

Inductive cell : Type :=
  | CArr (a : ndarray)
  | CObj (o : pyobj).

Record heapM (A : Type) : Type := HeapM {
  run : gmap loc cell -> result A * gmap loc cell
}.
Arguments HeapM {A} run.
Arguments run {A} h _.

#[global] Instance heapM_ret : MRet heapM := fun A a => HeapM (fun h => (Ok a, h)).
#[global] Instance heapM_bind : MBind heapM :=
  fun A B f m =>
    HeapM (fun h => match run m h with
                    | (Ok a, h') => run (f a) h'
                    | (Raise e, h') => (Raise e, h')
                    end).

Definition raise {A} (e : exn) : heapM A := HeapM (fun h => (Raise e, h)).

Definition lift_result {A} (r : result A) : heapM A :=
  HeapM (fun h => (r, h)).

(** Allocation at a location the store does not use. *)
Definition alloc (c : cell) : heapM pyval :=
  HeapM (fun h => let l := fresh (dom h) in (Ok (VRef l), <[l := c]> h)).

(** [o.name]. *)
Definition getattr (o : pyval) (name : string) : heapM pyval :=
  HeapM (fun h =>
    match o with
    | VRef l =>
        match h !! l with
        | Some (CObj ob) =>
            match attrs ob !! name with
            | Some v => (Ok v, h)
            | None => (Raise AttributeError, h)
            end
        | _ => (Raise AttributeError, h)
        end
    | _ => (Raise AttributeError, h)
    end).

(** [o.name = v]: only instances of the two classes take new attributes;
    an [ndarray], [None] and a float raise [AttributeError]. *)
Definition setattr (o : pyval) (name : string) (v : pyval) : heapM unit :=
  HeapM (fun h =>
    match o with
    | VRef l =>
        match h !! l with
        | Some (CObj ob) =>
            (Ok tt, <[l := CObj (mkObj (cls ob) (<[name := v]> (attrs ob)))]> h)
        | _ => (Raise AttributeError, h)
        end
    | _ => (Raise AttributeError, h)
    end).

(** [o.__class__] of an instance. *)
Definition class_of (o : pyval) : heapM pyclass :=
  HeapM (fun h =>
    match o with
    | VRef l =>
        match h !! l with
        | Some (CObj ob) => (Ok (cls ob), h)
        | _ => (Raise AttributeError, h)
        end
    | _ => (Raise AttributeError, h)
    end).

(** The array a value refers to. *)
Definition deref (v : pyval) : heapM ndarray :=
  HeapM (fun h =>
    match v with
    | VRef l =>
        match h !! l with
        | Some (CArr a) => (Ok a, h)
        | _ => (Raise TypeError, h)
        end
    | _ => (Raise TypeError, h)
    end).

(** The elements of a one-dimensional array; indexing into a
    zero-dimensional one raises [IndexError]. *)
Definition data_of (a : ndarray) : result (list float64) :=
  match a with
  | NdFloat d => Ok d
  | NdScalar _ => Raise IndexError
  end.

Definition arr_data (v : pyval) : heapM (list float64) :=
  a ← deref v; lift_result (data_of a).

(** [a.size]. *)
Definition arr_size (v : pyval) : heapM Z :=
  HeapM (fun h =>
    match v with
    | VRef l =>
        match h !! l with
        | Some (CArr (NdFloat d)) => (Ok (Z.of_nat (length d)), h)
        | Some (CArr (NdScalar _)) => (Ok 1, h)
        | _ => (Raise AttributeError, h)
        end
    | _ => (Raise AttributeError, h)
    end).

(** A new array holding [d]. *)
Definition arr_new (d : list float64) : heapM pyval := alloc (CArr (NdFloat d)).

(** [np.array(v)]: a copy of an array, a zero-dimensional array otherwise. *)
Definition np_array (v : pyval) : heapM pyval :=
  HeapM (fun h =>
    match v with
    | VRef l =>
        match h !! l with
        | Some (CArr a) => run (alloc (CArr a)) h
        | _ => run (alloc (CArr (NdScalar v))) h
        end
    | _ => run (alloc (CArr (NdScalar v))) h
    end).

(** [a[idx]] with an index array: a new array. *)
Definition arr_take (a : pyval) (idx : list Z) : heapM pyval :=
  d ← arr_data a; r ← lift_result (np_take d idx); arr_new r.

(** [a op b] elementwise: a new array. *)
Definition arr_binop (f : float64 -> float64 -> float64) (a b : pyval)
  : heapM pyval :=
  da ← arr_data a; db ← arr_data b;
  r ← lift_result (np_broadcast f da db); arr_new r.

(** [f(a)] elementwise (an operation with a scalar): a new array. *)
Definition arr_map (f : float64 -> float64) (a : pyval) : heapM pyval :=
  d ← arr_data a; arr_new (map f d).

(** [a.sort()]: in place. *)
Definition arr_sort (a : pyval) : heapM unit :=
  HeapM (fun h =>
    match a with
    | VRef l =>
        match h !! l with
        | Some (CArr (NdFloat d)) => (Ok tt, <[l := CArr (NdFloat (np_sort d))]> h)
        | Some (CArr (NdScalar _)) => (Raise ValueError, h)
        | _ => (Raise AttributeError, h)
        end
    | _ => (Raise AttributeError, h)
    end).

(** [a[i] = x]: in place. *)
Definition arr_setitem (a : pyval) (i : Z) (x : float64) : heapM unit :=
  HeapM (fun h =>
    match a with
    | VRef l =>
        match h !! l with
        | Some (CArr (NdFloat d)) =>
            match np_setitem d i x with
            | Ok d' => (Ok tt, <[l := CArr (NdFloat d')]> h)
            | Raise e => (Raise e, h)
            end
        | Some (CArr (NdScalar _)) => (Raise IndexError, h)
        | _ => (Raise TypeError, h)
        end
    | _ => (Raise TypeError, h)
    end).

Fixpoint for_each_h {A} (l : list A) (body : A -> heapM unit) : heapM unit :=
  match l with
  | [] => mret tt
  | a :: l' => _ ← body a; for_each_h l' body
  end.

(** [a.min()] and [a.max()]: [nan] propagates; an empty array raises. *)
Definition fmin (a b : float64) : float64 :=
  match a, b with
  | NaN, _ | _, NaN => NaN
  | _, _ => if F.ltb b a then b else a
  end.

Definition fmax (a b : float64) : float64 :=
  match a, b with
  | NaN, _ | _, NaN => NaN
  | _, _ => if F.ltb a b then b else a
  end.

Definition reduce (f : float64 -> float64 -> float64) (a : pyval)
  : heapM float64 :=
  d ← deref a;
  match d with
  | NdFloat [] => raise ValueError
  | NdFloat (x :: r) => mret (fold_left f r x)
  | NdScalar _ => raise TypeError
  end.

(** The displacement expression of [SD] and [calculateMSD]; every
    intermediate result is a new array. *)
Definition squared_displacements (pos_x pos_y : pyval) (idx_0 idx_t : list Z)
  : heapM pyval :=
  xt ← arr_take pos_x idx_t;
  x0 ← arr_take pos_x idx_0;
  dx ← arr_binop F.sub xt x0;
  dx2 ← arr_map F.square dx;
  yt ← arr_take pos_y idx_t;
  y0 ← arr_take pos_y idx_0;
  dy ← arr_binop F.sub yt y0;
  dy2 ← arr_map F.square dy;
  arr_binop F.add dx2 dy2.

(** [Track.SD]. *)
Definition SD (self : pyval) (j : Z) : heapM pyval :=
  x ← getattr self "_x";
  length_array ← arr_size x;
  x ← getattr self "_x";
  pos_x ← np_array x;
  y ← getattr self "_y";
  pos_y ← np_array y;
  let idx_0 := np_arange 0 (length_array - j - 1) in
  let idx_t := map (fun i => i + j) idx_0 in
  SD ← squared_displacements pos_x pos_y idx_0 idx_t;
  _ ← arr_sort SD;
  mret SD.

(** [Track.__init__(self, x, y, t)]. *)
Definition Track_init (self x y t : pyval) : heapM unit :=
  a ← np_array x;
  _ ← setattr self "_x" a;
  b ← np_array y;
  _ ← setattr self "_y" b;
  c ← np_array t;
  _ ← setattr self "_t" c;
  _ ← setattr self "_MSD" VNone;
  setattr self "_MSD_error" VNone.

(** [NormalizedTrack(x, y, t, xy_min, xy_max, tmin, tmax)]: a new instance,
    then [NormalizedTrack.__init__], whose first statement is the call
    [Track.__init__(x, y, t)] that binds [x] to [self] and leaves [t] at
    its default. *)
Definition NormalizedTrack_new (x y t : pyval)
    (xy_min xy_max tmin tmax : float64) : heapM pyval :=
  self ← alloc (CObj (mkObj ClsNormalizedTrack ∅));
  _ ← Track_init x y t VNone;
  _ ← setattr self "_xy_min" (VFloat xy_min);
  _ ← setattr self "_xy_max" (VFloat xy_max);
  _ ← setattr self "_tmin" (VFloat tmin);
  _ ← setattr self "_tmax" (VFloat tmax);
  mret self.

(** [Track.normalize] (analysis.py, lines 64-85); the warning is not
    recorded here. *)
Definition normalize (self : pyval) : heapM unit :=
  _ ← class_of self;
  x ← getattr self "_x";
  y ← getattr self "_y";
  t ← getattr self "_t";
  xmin ← reduce fmin x;
  xmax ← reduce fmax x;
  ymin ← reduce fmin y;
  ymax ← reduce fmax y;
  tmin ← reduce fmin t;
  tmax ← reduce fmax t;
  let xy_min := py_min xmin [ymin] in
  let xy_max := py_min xmax [ymax] in
  x1 ← arr_map (fun v => F.sub v xy_min) x;
  x ← arr_map (fun v => F.div v (F.sub xy_max xy_min)) x1;
  y1 ← arr_map (fun v => F.sub v xy_min) y;
  y ← arr_map (fun v => F.div v (F.sub xy_max xy_min)) y1;
  t1 ← arr_map (fun v => F.sub v tmin) t;
  t ← arr_map (fun v => F.div v (F.sub tmax tmin)) t1;
  _ ← NormalizedTrack_new x y t xy_min xy_max tmin tmax;
  mret tt.

Section Methods.

Variable os_cpu_count : Z.
Variable pool_order : nat -> list nat.
Variable curve_fit :
  model -> list float64 -> list float64 -> option (list float64) ->
  list float64 -> option Z -> result (list float64).

(** [Track.calculateMSD].  The workers of the pool receive pickled copies
    of their arguments and share nothing with the caller. *)
Definition calculateMSD (self : pyval) (N : option Z)
    (numWorkers : option Z) : heapM unit :=
  N ← match N with
      | None => x ← getattr self "_x"; arr_size x
      | Some n => mret n
      end;
  z ← lift_result (np_zeros (N - 3));
  MSD ← arr_new z;
  z ← lift_result (np_zeros (N - 3));
  MSD_error ← arr_new z;
  pos_x ← getattr self "_x";
  pos_y ← getattr self "_y";
  let workers := match numWorkers with
                 | None => os_cpu_count
                 | Some w => w
                 end in
  _ ← (if 1 <? workers then
         ax ← deref pos_x;
         ay ← deref pos_y;
         let task i :=
           xs ← data_of ay; ys ← data_of ax; MSD_loop i xs ys N in
         results ← lift_result
                     (executor_map pool_order task (py_range 1 (N - 2)));
         for_each_h (zip (py_range 0 (Z.of_nat (length results))) results)
           (fun '(i, (MSD_i, MSD_error_i)) =>
              _ ← arr_setitem MSD i MSD_i;
              arr_setitem MSD_error i MSD_error_i)
       else
         for_each_h (py_range 1 (N - 2))
           (fun i =>
              let idx_0 := np_arange 1 (N - i - 1) in
              let idx_t := map (fun k => k + i) idx_0 in
              this_msd ← squared_displacements pos_x pos_y idx_0 idx_t;
              d ← arr_data this_msd;
              _ ← arr_setitem MSD (i - 1) (np_mean d);
              arr_setitem MSD_error (i - 1)
                (F.div (np_std d) (F.sqrt (F.of_nat (length d))))));
  _ ← setattr self "_MSD" MSD;
  setattr self "_MSD_error" MSD_error.

(** [Track.classicalMSDAnalysis]: after the optional call of
    [calculateMSD] the method only reads [_MSD] and [_MSD_error]; the
    fits, events and exceptions are those of [msd_fit_range] and
    [msd_fit_and_report] above, run on the contents of the two arrays (the
    events are not recorded here). *)
Definition classicalMSDAnalysis (self : pyval)
    (fractionFitPoints : float64) (nFitPoints : option Z)
    (linearPlot : bool) : heapM unit :=
  m ← getattr self "_MSD";
  _ ← match m with
      | VNone => calculateMSD self None None
      | _ => mret tt
      end;
  m ← getattr self "_MSD";
  N ← arr_size m;
  '(n_points, T) ← lift_result
                     (outcome (msd_fit_range fractionFitPoints nFitPoints N));
  MSD_ ← arr_data m;
  e ← getattr self "_MSD_error";
  MSD_error ← arr_data e;
  lift_result
    (outcome (msd_fit_and_report curve_fit MSD_ (Some MSD_error) n_points T
                linearPlot)).

End Methods.

End Heap.

(** ** Vocabulary of the statements *)

(** The element at position [i] of an array that has one. *)
Definition at_index (a : list float64) (i : Z) : float64 :=
  nth (Z.to_nat i) a NaN.

(** The squared displacement between positions [i] and [i + j]. *)
Definition displacement (pos_x pos_y : list float64) (j i : Z) : float64 :=
  F.add (F.square (F.sub (at_index pos_x (i + j)) (at_index pos_x i)))
        (F.square (F.sub (at_index pos_y (i + j)) (at_index pos_y i))).

(** The lags [k+1 .. k+m]. *)
Definition lags (k m : nat) : list Z :=
  map (fun n => 1 + Z.of_nat n) (seq k m).

(** The value of [N] that [calculateMSD] works with. *)
Definition effective_N (self : Track) (N : option Z) : Z :=
  match N with
  | None => Z.of_nat (length (_x self))
  | Some n => n
  end.

(** What both branches of [calculateMSD] turn out to store: for the lags
    [1 .. N-3] in order, what [MSD_loop] computes for that lag. *)
Definition calculateMSD_spec (self : Track) (N : option Z) : result Track :=
  if effective_N self N - 3 <? 0 then Raise ValueError
  else
    rs ← traverse
           (fun i => MSD_loop i (_x self) (_y self) (effective_N self N))
           (py_range 1 (effective_N self N - 2));
    Ok {| _x := _x self; _y := _y self; _t := _t self;
          _MSD := Some (map fst rs); _MSD_error := Some (map snd rs) |}.

(** The squared displacements [calculateMSD] averages at lag [i]. *)
Definition lag_sample (pos_x pos_y : list float64) (N i : Z)
  : list float64 :=
  map (displacement pos_x pos_y i) (np_arange 1 (N - i - 1)).

(** [np.std(a) / np.sqrt(len(a))]. *)
Definition standard_error (a : list float64) : float64 :=
  F.div (np_std a) (F.sqrt (F.of_nat (length a))).

(** The example trajectory [x = [0, 1, 1, 1]], [y = [0, 0, 0, 0]],
    [t = [0, 1, 2, 3]]. *)
Definition track_0111 : Track :=
  Track_init [Fin 0; Fin 1; Fin 1; Fin 1] [Fin 0; Fin 0; Fin 0; Fin 0]
             [Fin 0; Fin 1; Fin 2; Fin 3].

(** A six-point trajectory, [x = [0, 1, 3, 6, 10, 15]], [y] constant. *)
Definition track_of_six : Track :=
  Track_init [Fin 0; Fin 1; Fin 3; Fin 6; Fin 10; Fin 15]
             [Fin 0; Fin 0; Fin 0; Fin 0; Fin 0; Fin 0]
             [Fin 0; Fin 1; Fin 2; Fin 3; Fin 4; Fin 5].

(** The values a sum of squares can take: a non-negative number, [+inf], or
    [nan]. *)
Definition sum_of_squares_value (x : float64) : Prop :=
  match x with
  | Fin r => (0 <= r)%R
  | PInf | NaN => True
  | NInf => False
  end.

(** One four-point track, its one-point curves, and nothing else. *)
Definition one_track : list (gmap string (list float64)) :=
  [{["x" := [Fin 0; Fin 0; Fin 0; Fin 0]]}].

Definition one_MSD : list (list float64 * list float64 * float64) :=
  [([Fin 1], [Fin 0], Fin 1)].

Definition one_D_app : list (list float64) := [[Fin 2]].

(** An eight-point track record for [adc_analysis], and collaborators for
    it: an [MSD] that reports a flat curve (the particle does not move) and
    a [curve_fit] that exhausts its evaluation budget on every call. *)
Definition still_track : gmap string (list float64) :=
  <["x" := replicate 8 (Fin 0)]>
    (<["y" := replicate 8 (Fin 0)]> {["t" := [Fin 0; Fin 1]]}).

Definition flat_MSD (x y : list float64)
  : result (list float64 * list float64) :=
  Ok (replicate 8 (Fin 0), replicate 8 (Fin 1)).

Definition diverging_fit (m : model) (xdata ydata : list float64)
    (p0 : option (list float64)) (sigma : list float64) (maxfev : option Z)
  : result (list float64) :=
  Raise RuntimeError.

(** A [curve_fit] that returns zeros for every parameter. *)
Definition zero_fit (m : model) (xdata ydata : list float64)
    (p0 : option (list float64)) (sigma : list float64) (maxfev : option Z)
  : result (list float64) :=
  Ok (replicate (arity m) (Fin 0)).

(** A track whose MSD curve of 40 points has been computed. *)
Definition track_with_40_point_curve : Track :=
  {| _x := []; _y := []; _t := [];
     _MSD := Some (replicate 40 (Fin 1));
     _MSD_error := Some (replicate 40 (Fin 1)) |}.

(** ** Vocabulary of the frame properties *)

Module HeapSpec.
Import Heap.

(** [preserved h0 h]: every array of the store [h0] is in [h] with the same
    contents, and every object of [h0] is in [h] with the same class and
    the same attributes, [_MSD] and [_MSD_error] excepted. *)
Definition preserved (h0 h : gmap loc cell) : Prop :=
  forall l c, h0 !! l = Some c ->
    match c with
    | CArr a => h !! l = Some (CArr a)
    | CObj o =>
        exists o', h !! l = Some (CObj o') /\ cls o' = cls o /\
          forall k, k <> "_MSD" -> k <> "_MSD_error" ->
            attrs o' !! k = attrs o !! k
    end.

(** A reference to a location that the store [h0] does not use. *)
Definition fresh_ref (h0 : gmap loc cell) (v : pyval) : Prop :=
  exists l, v = VRef l /\ h0 !! l = None.

(** [triple h0 m Q]: run from a store that preserves [h0], the program [m]
    ends in a store that preserves [h0], whether it returns or raises, and
    a returned value satisfies [Q]. *)
Definition triple {A} (h0 : gmap loc cell) (m : heapM A) (Q : A -> Prop)
  : Prop :=
  forall h, preserved h0 h ->
    preserved h0 (run m h).2 /\ forall a, (run m h).1 = Ok a -> Q a.

(** The value [v] refers to a one-dimensional array holding [d]. *)
Definition holds (h : gmap loc cell) (v : pyval) (d : list float64) : Prop :=
  exists l, v = VRef l /\ h !! l = Some (CArr (NdFloat d)).

(** Run from [h], the program [m] only adds cells to the store, and it ends
    as the outcome [r] says: it raises the same exception, or it returns a
    reference to an array holding the same elements. *)
Definition yields (m : heapM pyval) (h : gmap loc cell)
    (r : result (list float64)) : Prop :=
  exists h', h ⊆ h' /\
    match r with
    | Ok d => exists v, run m h = (Ok v, h') /\ holds h' v d
    | Raise e => run m h = (Raise e, h')
    end.

(** What a call leaves unchanged between the store [h] before it and the
    store [h'] after it: the object [self] is still there with its class
    and its attributes [_x], [_y] and [_t], and every array of [h] still
    has its contents. *)
Definition coordinates_unchanged (self : loc) (o : pyobj)
    (h h' : gmap loc cell) : Prop :=
  (exists o', h' !! self = Some (CObj o') /\ cls o' = cls o /\
     (attrs o' !! "_x" = attrs o !! "_x") /\
     (attrs o' !! "_y" = attrs o !! "_y") /\
     (attrs o' !! "_t" = attrs o !! "_t"))
  /\ forall l a, h !! l = Some (CArr a) -> h' !! l = Some (CArr a).

(** A store with one track: the object at location 1 and its three
    coordinate arrays at locations 2, 3 and 4. *)
Definition track_object : pyobj :=
  mkObj ClsTrack
    (<["_x" := VRef 2%positive]>
       (<["_y" := VRef 3%positive]>
          (<["_t" := VRef 4%positive]>
             (<["_MSD" := VNone]> {["_MSD_error" := VNone]})))).

Definition one_track_store : gmap loc cell :=
  <[1%positive := CObj track_object]>
    (<[2%positive := CArr (NdFloat [Fin 0; Fin 1; Fin 1; Fin 1])]>
       (<[3%positive := CArr (NdFloat [Fin 0; Fin 0; Fin 0; Fin 0])]>
          {[4%positive := CArr (NdFloat [Fin 0; Fin 1; Fin 2; Fin 3])]})).

End HeapSpec.

(** A pool that completes its tasks in reverse order. *)
Definition reverse_order (n : nat) : list nat := rev (seq 0 n).


(** ** Vocabulary of the further properties *)

(** A finite, non-negative float. *)
Definition nonneg_finite (x : float64) : Prop :=
  match x with
  | Fin r => (0 <= r)%R
  | _ => False
  end.

(** The trajectory with coordinate arrays [x] and [y] (time stamps [t]) and
    no curve computed yet. *)
Definition track_of (x y t : list float64) : Track := Track_init x y t.

(** The curves stored by a call of [calculateMSD], if it returned. *)
Definition curves_of (r : result Track)
  : result (option (list float64) * option (list float64)) :=
  s ← r; Ok (_MSD s, _MSD_error s).

(** ** Vocabulary of the ensemble averages *)

(** The curves of the tracks whose label is [label], in track order. *)
Fixpoint curves_labelled (label : string) (models : list string)
    (curves : list (list float64)) : list (list float64) :=
  match models, curves with
  | m :: models', c :: curves' =>
      if String.eqb m label then c :: curves_labelled label models' curves'
      else curves_labelled label models' curves'
  | _, _ => []
  end.

(** Entry [i] of every curve. *)
Definition column (i : nat) (curves : list (list float64)) : list float64 :=
  map (fun c => nth i c NaN) curves.

(** The elementwise mean of curves of [L] entries. *)
Definition mean_curve (L : nat) (curves : list (list float64))
  : list float64 :=
  map (fun i => np_mean (column i curves)) (seq 0 L).

(** The MSD curves of the list that [adc_analysis] returns. *)
Definition msd_curves (MSD : list (list float64 * list float64 * float64))
  : list (list float64) :=
  map (fun e => e.1.1) MSD.

(** Every running sum of [smartAveraging] has [L] entries. *)
Definition averages_have_length (L : nat) (a : Averages) : Prop :=
  length (average_D_app_brownian a) = L /\
  length (average_D_app_confined a) = L /\
  length (average_D_app_hop a) = L /\
  length (average_MSD_brownian a) = L /\
  length (average_MSD_confined a) = L /\
  length (average_MSD_hop a) = L.

(** The labels [smartAveraging] accepts. *)
Definition valid_label (v : string) : Prop :=
  In v ["brownian"; "confined"; "hop"; "unknown"].

(** ** Vocabulary of the store properties *)

(** The value [v] refers to an array of the store [h]. *)
Definition refers_to_array (h : gmap Heap.loc Heap.cell) (v : Heap.pyval)
  : Prop :=
  exists l a, v = Heap.VRef l /\ h !! l = Some (Heap.CArr a).

(** ** The model classes of [analysis/models.py] *)

Module Models.

(** An instance of a model class: its attributes [R] and [dt]. *)
Record instance : Type := mkInstance { R : float64; dt : float64 }.

(** [__init__] of the five classes with attributes. *)
Definition init : instance := {| R := Fin 0; dt := Fin 0 |}.

(** [D_micro * (tau/t) * (1 - np.exp(-t / tau))] (lines 45 and 67). *)
Definition confinement (D_micro tau t : float64) : float64 :=
  F.mul (F.mul D_micro (F.div tau t))
        (F.sub one (F.exp (F.div (F.neg t) tau))).

(** [ModelBrownian.__call__]. *)
Definition ModelBrownian (self : instance) (t D delta : float64) : float64 :=
  F.add D (localization_term (R self) (dt self) delta t).

(** [ModelConfined.__call__]. *)
Definition ModelConfined (self : instance) (t D_micro delta tau : float64)
  : float64 :=
  F.add (confinement D_micro tau t)
        (localization_term (R self) (dt self) delta t).

(** [ModelHop.__call__]. *)
Definition ModelHop (self : instance)
    (t D_macro D_micro delta tau : float64) : float64 :=
  F.add (F.add D_macro (confinement D_micro tau t))
        (localization_term (R self) (dt self) delta t).

(** [ModelImmobile.__call__]. *)
Definition ModelImmobile (self : instance) (t delta : float64) : float64 :=
  localization_term (R self) (dt self) delta t.

(** [ModelHopModified.__call__]. *)
Definition ModelHopModified (self : instance)
    (t D_macro D_micro alpha tau : float64) : float64 :=
  F.add (F.mul alpha D_macro)
        (F.mul (F.mul (F.sub (Fin 1) alpha) D_micro)
               (F.sub one (F.exp (F.div (F.neg t) tau)))).

(** [ModelLinear.__call__] and [ModelPower.__call__]. *)
Definition ModelLinear (t D delta2 : float64) : float64 :=
  F.add (F.mul (F.mul four D) t) (F.mul two delta2).

Definition ModelPower (t D delta2 alpha : float64) : float64 :=
  F.add (F.mul (F.mul four D) (Pow.pow t alpha)) (F.mul two delta2).

End Models.

(** ** The squared-displacement analysis of [analysis/_sd.py] *)

(** [np.ceil]. *)
Definition np_ceil (x : float64) : float64 :=
  match x with
  | Fin r => Fin (IZR (- Int_part (- r)))
  | _ => x
  end.

(** [np.diag] of a two-dimensional array given by its rows. *)
Fixpoint np_diag_from (i : nat) (rows : list (list float64))
  : list float64 :=
  match rows with
  | [] => []
  | row :: rows' =>
      match row !! i with
      | Some v => v :: np_diag_from (S i) rows'
      | None => []
      end
  end.

Definition np_diag (rows : list (list float64)) : list float64 :=
  np_diag_from 0 rows.

(** [rayleighPDF] (_sd.py, lines 177-178, and analysis.py, lines 494-495):
    [x / sigma**2 * np.exp(- x**2 / (2 * sigma**2))]. *)
Definition rayleighPDF (x sigma : float64) : float64 :=
  F.mul (F.div x (F.square sigma))
        (F.exp (F.div (F.neg (F.square x)) (F.mul two (F.square sigma)))).

(** The default value of the argument [J] of [sd_analysis]. *)
Definition default_J : list Z :=
  [1; 2; 3; 4; 5; 6; 7; 8; 9; 10; 15; 20; 25; 30; 35; 40; 45; 50; 60; 70;
   80; 90; 100].

Module Sd.

Section SdAnalysis.

(** What [self._categorize] returns as [results], and the keyword
    arguments that [sd_analysis] hands over to it unchanged ([R],
    [fraction_fit_points], [fit_max_time], [initial_guesses], [maxfev],
    [enable_log_sampling], [log_sampling_dist]). *)
Variable results_t : Type.
Variable options : Type.

(** [np.histogram(x, bins=num_bins, density=True)]: the histogram and the
    bin edges. *)
Variable np_histogram :
  list float64 -> Z -> result (list float64 * list float64).

(** [optimize.curve_fit(f, xdata, ydata, p0=p0)] for a model [f] of one
    parameter: the optimal parameters and their covariance matrix. *)
Variable curve_fit :
  (float64 -> float64 -> float64) -> list float64 -> list float64 ->
  float64 -> result (list float64 * list (list float64)).

(** The method [_categorize(Dapp, J, Dapp_err=..., ...)], which [_sd.py]
    calls and does not define. *)
Variable _categorize :
  Track -> list float64 -> list Z -> list float64 -> options ->
  result (string * results_t).

(** The values kept in the dictionary [_sd_analysis_results]. *)
Inductive value : Type :=
  | SBool (b : bool)
  | SStr (s : string)
  | SNone
  | SFloats (a : list float64)
  | SInts (a : list Z)
  | SResults (r : results_t).

(** Dictionaries live in a store, a map from references to dictionaries,
    and are passed by reference. *)
Definition ref := positive.

(** A track: its coordinates, and its attribute [_sd_analysis_results]
    if it is set. *)
Record track : Type := mkSdTrack {
  coords : Track;
  _sd_analysis_results : option ref
}.

(** [self._sd_analysis_results]. *)
Definition results_attr (self : track) : result ref :=
  match _sd_analysis_results self with
  | Some r => Ok r
  | None => Raise AttributeError
  end.

(** [get_sd_analysis_results] (lines 7-9): the dictionary itself, not a
    copy. *)
Definition get_sd_analysis_results (self : track) : result ref :=
  results_attr self.

(** [delete_sd_analysis_results] (lines 11-14): the attribute is bound to
    a new dictionary. *)
Definition delete_sd_analysis_results (self : track)
    (h : gmap ref (gmap string value))
  : track * gmap ref (gmap string value) :=
  let r := fresh (dom h) in
  (mkSdTrack (coords self) (Some r),
   <[r := <["analyzed" := SBool false]>
            (<["model" := SStr "unknown"]>
               (<["Dapp" := SNone]> {["results" := SNone]}))]> h).

(** [d[key] = v] on the dictionary that [r] refers to. *)
Definition dict_setitem (r : ref) (key : string) (v : value)
    (h : gmap ref (gmap string value))
  : result (gmap ref (gmap string value)) :=
  match h !! r with
  | Some d => Ok (<[r := <[key := v]> d]> h)
  | None => Raise TypeError
  end.

(** The body of the loop of [sd_analysis] (lines 56-91) for the lag [j],
    with [display_fit = False]: the apparent diffusion coefficient and
    its error. *)
Definition sd_point (self : Track) (binsize dt : float64) (j : Z)
  : result (float64 * float64) :=
  sd ← _calculate_sd_at self j;
  let t_lag := F.mul (F.of_Z j) dt in
  let x_fit := map F.sqrt sd in
  max_x ← np_getitem x_fit (-1);
  min_x ← np_getitem x_fit 0;
  num_bins ← py_int (np_ceil (F.div (F.sub max_x min_x) binsize));
  '(hist_SD, bins) ← np_histogram x_fit num_bins;
  edges ← np_broadcast F.add (drop 1 bins) (py_slice_to bins (-1));
  let bin_mids := map (fun v => F.div v (Fin 2)) edges in
  '(popt, pcov) ← curve_fit rayleighPDF bin_mids hist_SD
                     (F.sub max_x min_x);
  sigma ← np_getitem popt 0;
  error ← np_getitem (map F.sqrt (np_diag pcov)) 0;
  let error := F.div (F.square error) (F.mul two t_lag) in
  let dapp := F.div (F.square sigma) (F.mul two t_lag) in
  Ok (dapp, error).

(** [sd_analysis] (lines 16-102) with [display_fit = False]: the outcome
    and the store it leaves. *)
Definition sd_analysis (self : track) (binsize_nm : float64) (J : list Z)
    (opts : options) (h : gmap ref (gmap string value))
  : result ref * gmap ref (gmap string value) :=
  let binsize := F.mul binsize_nm (Fin (1 / 1000000000)) in
  match
    (t1 ← np_getitem (_t (coords self)) 1;
     t0 ← np_getitem (_t (coords self)) 0;
     let dt := F.sub t1 t0 in
     points ← traverse (sd_point (coords self) binsize dt) J;
     let dapp_list := map fst points in
     let err_list := map snd points in
     '(model, results) ← _categorize (coords self) dapp_list J err_list
                            opts;
     Ok (dapp_list, model, results))
  with
  | Raise e => (Raise e, h)
  | Ok (dapp_list, model, results) =>
      match results_attr self with
      | Raise e => (Raise e, h)
      | Ok r =>
          match
            (h ← dict_setitem r "analyzed" (SBool true) h;
             h ← dict_setitem r "Dapp" (SFloats dapp_list) h;
             h ← dict_setitem r "J" (SInts J) h;
             h ← dict_setitem r "model" (SStr model) h;
             dict_setitem r "results" (SResults results) h)
          with
          | Ok h' => (Ok r, h')
          | Raise e => (Raise e, h)
          end
      end
  end.

End SdAnalysis.

End Sd.

(** Collaborators for a run of [sd_analysis]: a histogram of one bin on
    [0, 1], a fit that answers [sigma = 1] with variance 0, and a
    categorization that always answers "brownian"; a six-point track
    whose results dictionary is at reference 1. *)
Definition one_bin_histogram (x : list float64) (num_bins : Z)
  : result (list float64 * list float64) :=
  Ok ([Fin 1], [Fin 0; Fin 1]).

Definition unit_sigma_fit (f : float64 -> float64 -> float64)
    (xdata ydata : list float64) (p0 : float64)
  : result (list float64 * list (list float64)) :=
  Ok ([Fin 1], [[Fin 0]]).

Definition always_brownian (self : Track) (Dapp : list float64)
    (J : list Z) (Dapp_err : list float64) (opts : unit)
  : result (string * unit) :=
  Ok ("brownian", tt).

Definition sd_track_of_six : Sd.track :=
  Sd.mkSdTrack track_of_six (Some 1%positive).

Definition sd_store : gmap Sd.ref (gmap string (Sd.value unit)) :=
  {[1%positive := {["analyzed" := Sd.SBool unit false]}]}.
(** * Properties *)

(** ** Floating-point arithmetic *)

Lemma F_add_comm (x y : float64) : F.add x y = F.add y x.
Proof.
  destruct x, y; simpl; try reflexivity.
  f_equal. apply Rplus_comm.
Qed.

Lemma np_leb_total (x y : float64) : np_leb x y = false -> np_leb y x = true.
Proof.
  destruct x, y; simpl; try congruence.
  destruct (Rle_dec r r0), (Rle_dec r0 r); try congruence.
  intros _. exfalso. lra.
Qed.

Lemma np_le_finite (a b : R) : np_le (Fin a) (Fin b) <-> (a <= b)%R.
Proof.
  unfold np_le. simpl. destruct (Rle_dec a b); split; intros; congruence.
Qed.

(** ** The [result] monad, [traverse] and loops *)

Lemma traverse_length {A B} (f : A -> result B) (l : list A) (bs : list B) :
  traverse f l = Ok bs -> length bs = length l.
Proof.
  revert bs. induction l as [|a l IH]; intros bs; simpl.
  - intros [= <-]. reflexivity.
  - destruct (f a) as [b|e]; simpl; [|discriminate].
    destruct (traverse f l) as [bs'|e]; simpl; [|discriminate].
    intros [= <-]. simpl. f_equal. apply IH. reflexivity.
Qed.

Lemma traverse_ext {A B} (f g : A -> result B) (l : list A) :
  (forall a, In a l -> f a = g a) -> traverse f l = traverse g l.
Proof.
  induction l as [|a l IH]; intros H; simpl; [reflexivity|].
  rewrite (H a) by (left; reflexivity).
  rewrite IH by (intros; apply H; right; assumption). reflexivity.
Qed.

Lemma traverse_Ok {A B} (f : A -> result B) (g : A -> B) (l : list A) :
  (forall a, In a l -> f a = Ok (g a)) -> traverse f l = Ok (map g l).
Proof.
  induction l as [|a l IH]; intros H; simpl; [reflexivity|].
  rewrite (H a) by (left; reflexivity). simpl.
  rewrite IH by (intros; apply H; right; assumption). reflexivity.
Qed.

Lemma traverse_map {A B C} (f : B -> result C) (g : A -> B) (l : list A) :
  traverse f (map g l) = traverse (fun a => f (g a)) l.
Proof.
  induction l as [|a l IH]; simpl; [reflexivity|]. rewrite IH. reflexivity.
Qed.

Lemma for_each_ext {A S} (l : list A) (s : S) (f g : A -> S -> result S) :
  (forall a s, In a l -> f a s = g a s) -> for_each l s f = for_each l s g.
Proof.
  revert s. induction l as [|a l IH]; intros s H; simpl; [reflexivity|].
  rewrite (H a s) by (left; reflexivity).
  destruct (g a s); simpl; [|reflexivity].
  apply IH. intros; apply H; right; assumption.
Qed.

(** ** Ranges and indexing *)

Lemma py_range_length (a b : Z) : length (py_range a b) = Z.to_nat (b - a).
Proof. unfold py_range. rewrite length_map, length_seq. reflexivity. Qed.

Lemma py_range_In (a b i : Z) : In i (py_range a b) <-> a <= i < b.
Proof.
  unfold py_range. rewrite in_map_iff. split.
  - intros (k & <- & Hk). apply in_seq in Hk. lia.
  - intros H. exists (Z.to_nat (i - a)). split; [lia|].
    apply in_seq. lia.
Qed.

Lemma np_getitem_inrange {A} (a : list A) (i : Z) :
  0 <= i < Z.of_nat (length a) ->
  exists v, np_getitem a i = Ok v /\ a !! Z.to_nat i = Some v.
Proof.
  intros H. unfold np_getitem.
  destruct (Z.ltb_spec i 0); [lia|].
  destruct (Z.leb_spec 0 i); [|lia].
  destruct (Z.ltb_spec i (Z.of_nat (length a))); [|lia]. simpl.
  destruct (a !! Z.to_nat i) as [v|] eqn:E.
  - exists v. split; reflexivity.
  - apply lookup_ge_None in E. lia.
Qed.

Lemma np_getitem_cases {A} (a : list A) (i : Z) :
  (exists v, np_getitem a i = Ok v) \/ np_getitem a i = Raise IndexError.
Proof.
  unfold np_getitem.
  destruct (_ && _); [|right; reflexivity].
  destruct (a !! _); [left; eexists; reflexivity|right; reflexivity].
Qed.

Lemma np_take_cases {A} (a : list A) (idx : list Z) :
  (exists vs, np_take a idx = Ok vs /\ length vs = length idx)
  \/ np_take a idx = Raise IndexError.
Proof.
  unfold np_take. induction idx as [|i idx IH]; simpl.
  - left. exists []. split; reflexivity.
  - destruct (np_getitem_cases a i) as [(v & ->)| ->]; simpl;
      [|right; reflexivity].
    destruct IH as [(vs & -> & Hl)| ->]; simpl; [|right; reflexivity].
    left. exists (v :: vs). split; [reflexivity|]. simpl. lia.
Qed.

Lemma np_broadcast_same (f : float64 -> float64 -> float64)
    (a b : list float64) :
  length a = length b -> np_broadcast f a b = Ok (zip_with f a b).
Proof.
  intros H. unfold np_broadcast. destruct (decide _); [reflexivity|].
  contradiction.
Qed.

Lemma np_setitem_inrange {A} (a : list A) (i : Z) (v : A) :
  0 <= i < Z.of_nat (length a) ->
  np_setitem a i v = Ok (<[Z.to_nat i := v]> a).
Proof.
  intros H. unfold np_setitem.
  destruct (Z.ltb_spec i 0); [lia|].
  destruct (Z.leb_spec 0 i); [|lia].
  destruct (Z.ltb_spec i (Z.of_nat (length a))); [|lia]. reflexivity.
Qed.

(** ** Sorting *)

Lemma sort_insert_length (x : float64) (l : list float64) :
  length (sort_insert x l) = S (length l).
Proof.
  induction l as [|y l IH]; simpl; [reflexivity|].
  destruct (np_leb x y); simpl; [reflexivity|]. rewrite IH. reflexivity.
Qed.

Lemma np_sort_length (l : list float64) : length (np_sort l) = length l.
Proof.
  induction l as [|x l IH]; simpl; [reflexivity|].
  rewrite sort_insert_length, IH. reflexivity.
Qed.

Lemma sort_insert_perm (x : float64) (l : list float64) :
  Permutation (x :: l) (sort_insert x l).
Proof.
  induction l as [|y l IH]; simpl; [reflexivity|].
  destruct (np_leb x y); [reflexivity|].
  rewrite perm_swap. apply perm_skip. exact IH.
Qed.

Lemma np_sort_perm (l : list float64) : Permutation l (np_sort l).
Proof.
  induction l as [|x l IH]; simpl; [reflexivity|].
  rewrite <- sort_insert_perm. apply perm_skip. exact IH.
Qed.

Lemma sort_insert_sorted (x : float64) (l : list float64) :
  Sorted np_le l -> Sorted np_le (sort_insert x l).
Proof.
  induction l as [|y l IH]; intros Hs; simpl.
  - repeat constructor.
  - destruct (np_leb x y) eqn:E.
    + constructor; [assumption|]. constructor. exact E.
    + inversion Hs as [|? ? Hs' Hhd]; subst.
      constructor; [apply IH; assumption|].
      destruct l as [|z l]; simpl.
      * constructor. apply np_leb_total. exact E.
      * destruct (np_leb x z).
        -- constructor. apply np_leb_total. exact E.
        -- inversion Hhd; subst. constructor. assumption.
Qed.

Lemma np_sort_sorted (l : list float64) : Sorted np_le (np_sort l).
Proof.
  induction l as [|x l IH]; simpl; [constructor|].
  apply sort_insert_sorted. exact IH.
Qed.

(** ** Squared displacements *)

Lemma np_getitem_at_index (a : list float64) (i : Z) :
  0 <= i < Z.of_nat (length a) -> np_getitem a i = Ok (at_index a i).
Proof.
  intros H. destruct (np_getitem_inrange a i H) as (v & -> & Hv).
  unfold at_index. f_equal. symmetry. apply nth_lookup_Some with (d := NaN).
  exact Hv.
Qed.

Lemma np_take_at_index (a : list float64) (idx : list Z) :
  (forall i, In i idx -> 0 <= i < Z.of_nat (length a)) ->
  np_take a idx = Ok (map (at_index a) idx).
Proof.
  intros H. apply traverse_Ok. intros i Hi. apply np_getitem_at_index.
  apply H. exact Hi.
Qed.

Lemma zip_with_map_same {A B C D} (f : B -> C -> D) (g : A -> B) (h : A -> C)
    (l : list A) :
  zip_with f (map g l) (map h l) = map (fun a => f (g a) (h a)) l.
Proof. induction l as [|a l IH]; simpl; [reflexivity|]. rewrite IH. reflexivity. Qed.

Lemma zip_with_comm {A B} (f : A -> A -> B) (l1 l2 : list A) :
  (forall a b, f a b = f b a) -> zip_with f l1 l2 = zip_with f l2 l1.
Proof.
  intros Hf. revert l2. induction l1 as [|a l1 IH]; intros [|b l2]; simpl;
    try reflexivity.
  rewrite Hf, IH. reflexivity.
Qed.

(** When every index pair is inside both arrays, the displacement
    expression yields one squared displacement per pair, in order. *)
Lemma squared_displacements_inrange (pos_x pos_y : list float64)
    (idx_0 : list Z) (j : Z) :
  (forall i, In i idx_0 ->
     0 <= i /\ 0 <= i + j /\
     i < Z.of_nat (length pos_x) /\ i + j < Z.of_nat (length pos_x) /\
     i < Z.of_nat (length pos_y) /\ i + j < Z.of_nat (length pos_y)) ->
  squared_displacements pos_x pos_y idx_0 (map (fun i => i + j) idx_0)
  = Ok (map (displacement pos_x pos_y j) idx_0).
Proof.
  intros H. unfold squared_displacements.
  rewrite (np_take_at_index pos_x (map _ idx_0)).
  2:{ intros i (k & <- & Hk)%in_map_iff. specialize (H k Hk). lia. }
  simpl. rewrite (np_take_at_index pos_x idx_0).
  2:{ intros i Hi. specialize (H i Hi). lia. }
  simpl. rewrite np_broadcast_same by (rewrite !length_map; reflexivity).
  simpl. rewrite (np_take_at_index pos_y (map _ idx_0)).
  2:{ intros i (k & <- & Hk)%in_map_iff. specialize (H k Hk). lia. }
  simpl. rewrite (np_take_at_index pos_y idx_0).
  2:{ intros i Hi. specialize (H i Hi). lia. }
  simpl. rewrite np_broadcast_same by (rewrite !length_map; reflexivity).
  simpl. rewrite np_broadcast_same by (rewrite !length_map, !length_zip_with, !length_map; reflexivity).
  f_equal. rewrite !map_map, !zip_with_map_same, !map_map.
  rewrite zip_with_map_same. reflexivity.
Qed.

(** Exchanging the two coordinate arrays does not change the displacement
    expression: its two summands trade places. *)
Lemma squared_displacements_swap (pos_x pos_y : list float64)
    (idx_0 idx_t : list Z) :
  length idx_t = length idx_0 ->
  squared_displacements pos_y pos_x idx_0 idx_t
  = squared_displacements pos_x pos_y idx_0 idx_t.
Proof.
  intros Hl. unfold squared_displacements.
  destruct (np_take_cases pos_x idx_t) as [(xt & -> & Hxt)| ->];
  destruct (np_take_cases pos_x idx_0) as [(x0 & -> & Hx0)| ->];
  destruct (np_take_cases pos_y idx_t) as [(yt & -> & Hyt)| ->];
  destruct (np_take_cases pos_y idx_0) as [(y0 & -> & Hy0)| ->];
  simpl;
  repeat (rewrite np_broadcast_same by congruence; simpl);
  try reflexivity.
  rewrite !np_broadcast_same
    by (rewrite !length_map, !length_zip_with; congruence).
  f_equal. apply zip_with_comm. apply F_add_comm.
Qed.

Lemma SD_inrange (self : Track) (j : Z) :
  length (_y self) = length (_x self) ->
  0 <= j ->
  SD self j
  = Ok (np_sort (map (displacement (_x self) (_y self) j)
                     (np_arange 0 (Z.of_nat (length (_x self)) - j - 1)))).
Proof.
  intros Hy Hj. unfold SD.
  rewrite squared_displacements_inrange; [reflexivity|].
  intros i Hi. apply py_range_In in Hi. lia.
Qed.

Lemma displacement_finite (pos_x pos_y : list float64) (j i : Z) :
  Forall is_finite pos_x -> Forall is_finite pos_y ->
  0 <= i -> 0 <= i + j ->
  i < Z.of_nat (length pos_x) -> i + j < Z.of_nat (length pos_x) ->
  i < Z.of_nat (length pos_y) -> i + j < Z.of_nat (length pos_y) ->
  is_finite (displacement pos_x pos_y j i).
Proof.
  intros Fx Fy H1 H2 H3 H4 H5 H6.
  assert (forall a k, Forall is_finite a -> 0 <= k < Z.of_nat (length a) ->
            exists r, at_index a k = Fin r) as Hat.
  { intros a k Fa Hk. unfold at_index.
    assert (is_finite (nth (Z.to_nat k) a NaN)) as Hf.
    { rewrite Forall_forall in Fa. apply Fa, list_elem_of_In, nth_In. lia. }
    destruct (nth (Z.to_nat k) a NaN) as [r| | |]; try contradiction.
    exists r. reflexivity. }
  unfold displacement.
  destruct (Hat pos_x (i + j) Fx) as [a ->]; [lia|].
  destruct (Hat pos_x i Fx) as [b ->]; [lia|].
  destruct (Hat pos_y (i + j) Fy) as [c ->]; [lia|].
  destruct (Hat pos_y i Fy) as [d ->]; [lia|].
  exact I.
Qed.

(** On finite coordinates every squared displacement is finite, so that
    the order of the result is the usual order of the reals
    ([np_le_finite]). *)
Lemma SD_finite (self : Track) (j : Z) (sd : list float64) :
  length (_y self) = length (_x self) -> 0 <= j ->
  Forall is_finite (_x self) -> Forall is_finite (_y self) ->
  SD self j = Ok sd -> Forall is_finite sd.
Proof.
  intros Hy Hj Fx Fy. rewrite SD_inrange by assumption. intros [= <-].
  rewrite <- np_sort_perm. apply Forall_forall.
  intros d (i & <- & Hi)%list_elem_of_In%in_map_iff.
  apply py_range_In in Hi.
  apply displacement_finite; try assumption; lia.
Qed.

(** C8.  On a trajectory of length [N] (both coordinate arrays have [N]
    entries) and for every lag [j] with [1 <= j < N], [Track.SD] and
    [_calculate_sd_at] return an array of exactly [N - j - 1] entries
    sorted in ascending order: the squared displacements of the index pairs
    [(i, i + j)] for [i = 0 .. N-j-2], rearranged. *)
Theorem SD_sorted_ascending_length (self : Track) (N j : Z) :
  Z.of_nat (length (_x self)) = N ->
  Z.of_nat (length (_y self)) = N ->
  1 <= j < N ->
  exists sd,
    SD self j = Ok sd /\ _calculate_sd_at self j = Ok sd /\
    Z.of_nat (length sd) = N - j - 1 /\ Sorted np_le sd /\
    Permutation (map (displacement (_x self) (_y self) j)
                     (np_arange 0 (N - j - 1))) sd.
Proof.
  intros Hx Hy Hj. eexists.
  change (_calculate_sd_at self j) with (SD self j).
  rewrite SD_inrange by lia. split; [reflexivity|]. split; [reflexivity|].
  split; [|split; [apply np_sort_sorted|]].
  - rewrite np_sort_length, length_map. unfold np_arange.
    rewrite py_range_length. lia.
  - rewrite Hx. apply np_sort_perm.
Qed.

(** ** The process pool *)

Section PoolFacts.

Context {A B : Type} (f : A -> result B) (inputs : list A).

Lemma pool_run_length (ks : list nat) (slots : list (option (result B))) :
  length (fold_left (pool_run f inputs) ks slots) = length slots.
Proof.
  revert slots. induction ks as [|k ks IH]; intros slots; simpl;
    [reflexivity|].
  rewrite IH. unfold pool_run. destruct (inputs !! k); [|reflexivity].
  apply length_insert.
Qed.

Lemma pool_run_lookup (ks : list nat) (slots : list (option (result B)))
    (k : nat) (a : A) :
  length slots = length inputs ->
  In k ks -> inputs !! k = Some a ->
  fold_left (pool_run f inputs) ks slots !! k = Some (Some (f a)).
Proof.
  intros Hl. induction ks as [|k0 ks IH] using rev_ind; [intros []|].
  intros Hin Ha. rewrite fold_left_app. simpl. unfold pool_run at 1.
  destruct (decide (k0 = k)) as [->|Hne].
  - rewrite Ha. apply list_lookup_insert_eq.
    rewrite pool_run_length, Hl. apply lookup_lt_Some in Ha. exact Ha.
  - apply in_app_or in Hin. destruct Hin as [Hin|[Hin|[]]]; [|congruence].
    destruct (inputs !! k0).
    + rewrite list_lookup_insert_ne by assumption. apply IH; assumption.
    + apply IH; assumption.
Qed.

(** Whatever order the pool runs the tasks in, provided it runs each one,
    the collected outcomes are those of running them in input order. *)
Lemma executor_map_traverse (pool_order : nat -> list nat) :
  Permutation (pool_order (length inputs)) (seq 0 (length inputs)) ->
  executor_map pool_order f inputs = traverse f inputs.
Proof.
  intros Hp. unfold executor_map.
  assert (fold_left (pool_run f inputs) (pool_order (length inputs))
            (replicate (length inputs) None)
          = map (fun a => Some (f a)) inputs) as ->.
  { apply list_eq. intros k.
    destruct (inputs !! k) as [a|] eqn:Ha.
    - rewrite (pool_run_lookup _ _ k a).
      + symmetry. change (map ?g inputs) with (g <$> inputs).
        rewrite list_lookup_fmap, Ha. reflexivity.
      + apply length_replicate.
      + apply (Permutation_in _ (Permutation_sym Hp)). apply in_seq.
        apply lookup_lt_Some in Ha. lia.
      + exact Ha.
    - apply lookup_ge_None in Ha.
      rewrite (proj2 (lookup_ge_None _ _)).
      + symmetry. apply lookup_ge_None. rewrite length_map. exact Ha.
      + rewrite pool_run_length, length_replicate. exact Ha. }
  rewrite traverse_map. reflexivity.
Qed.

End PoolFacts.

(** ** [calculateMSD] *)

Lemma MSD_loop_swap (i : Z) (pos_x pos_y : list float64) (N : Z) :
  MSD_loop i pos_y pos_x N = MSD_loop i pos_x pos_y N.
Proof.
  unfold MSD_loop. rewrite squared_displacements_swap; [reflexivity|].
  apply length_map.
Qed.

Lemma py_range_lags (N : Z) : py_range 1 (N - 2) = lags 0 (Z.to_nat (N - 3)).
Proof.
  unfold py_range, lags. replace (N - 2 - 1) with (N - 3) by lia.
  reflexivity.
Qed.

Lemma take_insert_snoc {A} (l : list A) (k : nat) (a : A) :
  (k < length l)%nat -> take (S k) (<[k := a]> l) = take k l ++ [a].
Proof.
  intros H. rewrite (take_S_r _ _ a).
  - rewrite take_insert_ge by lia. reflexivity.
  - apply list_lookup_insert_eq. exact H.
Qed.

(** The sequential loop: lag [i] writes slot [i - 1]. *)
Lemma write_loop_sequential (f : Z -> result (float64 * float64))
    (m k : nat) (M E : list float64) :
  length M = (k + m)%nat -> length E = (k + m)%nat ->
  for_each (lags k m) (M, E)
    (fun i '(M, E) =>
       '(a, b) ← f i;
       M ← np_setitem M (i - 1) a;
       E ← np_setitem E (i - 1) b;
       Ok (M, E))
  = rs ← traverse f (lags k m);
    Ok (take k M ++ map fst rs, take k E ++ map snd rs).
Proof.
  revert k M E. induction m as [|m IH]; intros k M E HM HE.
  - simpl. rewrite !app_nil_r, !take_ge by lia. reflexivity.
  - unfold lags in *. simpl.
    destruct (f (1 + Z.of_nat k)) as [[a b]|e]; simpl; [|reflexivity].
    rewrite !np_setitem_inrange by lia. simpl.
    replace (Z.to_nat (1 + Z.of_nat k - 1)) with k by lia.
    rewrite IH by (rewrite length_insert; lia).
    destruct (traverse f _) as [rs|e]; simpl; [|reflexivity].
    rewrite !take_insert_snoc by lia. rewrite <- !app_assoc. reflexivity.
Qed.

(** The loop after the parallel map: the [i]-th outcome goes to slot [i]. *)
Lemma write_loop_parallel (rs : list (float64 * float64)) (k : nat)
    (M E : list float64) :
  length M = (k + length rs)%nat -> length E = (k + length rs)%nat ->
  for_each rs (M, E, Z.of_nat k)
    (fun '(MSD_i, MSD_error_i) '(MSD, MSD_error, i) =>
       MSD ← np_setitem MSD i MSD_i;
       MSD_error ← np_setitem MSD_error i MSD_error_i;
       Ok (MSD, MSD_error, i + 1))
  = Ok (take k M ++ map fst rs, take k E ++ map snd rs,
        Z.of_nat (k + length rs)).
Proof.
  revert k M E. induction rs as [|[a b] rs IH]; intros k M E HM HE.
  - simpl in *. rewrite !app_nil_r, !take_ge by lia.
    replace (k + 0)%nat with k by lia. reflexivity.
  - simpl in *. rewrite !np_setitem_inrange by lia. simpl.
    rewrite Nat2Z.id.
    replace (Z.of_nat k + 1) with (Z.of_nat (S k)) by lia.
    rewrite IH by (rewrite length_insert; lia).
    rewrite !take_insert_snoc by lia. rewrite <- !app_assoc. simpl.
    repeat f_equal. lia.
Qed.

Lemma calculateMSD_sequential_closed_form (os_cpu_count : Z)
    (pool_order : nat -> list nat) (self : Track) (N : option Z) (w : Z) :
  w <= 1 ->
  calculateMSD os_cpu_count pool_order self N (Some w)
  = calculateMSD_spec self N.
Proof.
  intros Hw. unfold calculateMSD, calculateMSD_spec.
  fold (effective_N self N). set (n := effective_N self N).
  unfold np_zeros. destruct (Z.ltb_spec (n - 3) 0) as [|Hn]; [reflexivity|].
  simpl. destruct (Z.ltb_spec 1 w); [lia|].
  rewrite py_range_lags.
  rewrite (for_each_ext _ _ _
             (fun i '(M, E) =>
                '(a, b) ← MSD_loop i (_x self) (_y self) n;
                M ← np_setitem M (i - 1) a;
                E ← np_setitem E (i - 1) b;
                Ok (M, E))).
  2:{ intros i [M E] _. unfold MSD_loop.
      destruct (squared_displacements _ _ _ _); reflexivity. }
  rewrite write_loop_sequential by (rewrite length_replicate; lia).
  destruct (traverse _ _) as [rs|e]; reflexivity.
Qed.

Lemma calculateMSD_parallel_closed_form (os_cpu_count : Z)
    (pool_order : nat -> list nat) (self : Track) (N : option Z) (w : Z) :
  (forall n, Permutation (pool_order n) (seq 0 n)) ->
  1 < w ->
  calculateMSD os_cpu_count pool_order self N (Some w)
  = calculateMSD_spec self N.
Proof.
  intros Hpool Hw. unfold calculateMSD, calculateMSD_spec.
  fold (effective_N self N). set (n := effective_N self N).
  unfold np_zeros. destruct (Z.ltb_spec (n - 3) 0) as [|Hn]; [reflexivity|].
  simpl. destruct (Z.ltb_spec 1 w); [|lia].
  rewrite executor_map_traverse by apply Hpool.
  rewrite (traverse_ext _ (fun i => MSD_loop i (_x self) (_y self) n))
    by (intros; apply MSD_loop_swap).
  destruct (traverse _ _) as [rs|e] eqn:Ht; simpl; [|reflexivity].
  apply traverse_length in Ht. rewrite py_range_length in Ht.
  rewrite (write_loop_parallel rs 0) by (rewrite length_replicate; lia).
  reflexivity.
Qed.

Lemma calculateMSD_closed_form (os_cpu_count : Z)
    (pool_order : nat -> list nat) (self : Track) (N : option Z)
    (numWorkers : option Z) :
  (forall n, Permutation (pool_order n) (seq 0 n)) ->
  calculateMSD os_cpu_count pool_order self N numWorkers
  = calculateMSD_spec self N.
Proof.
  intros Hpool.
  assert (forall w, calculateMSD os_cpu_count pool_order self N (Some w)
                    = calculateMSD_spec self N) as Hw.
  { intros w. destruct (Z.le_gt_cases w 1).
    - apply calculateMSD_sequential_closed_form. assumption.
    - apply calculateMSD_parallel_closed_form; assumption. }
  destruct numWorkers as [w|]; [apply Hw|]. apply (Hw os_cpu_count).
Qed.

Lemma MSD_loop_inrange (i : Z) (pos_x pos_y : list float64) (N : Z) :
  length pos_y = length pos_x ->
  1 <= i -> N <= Z.of_nat (length pos_x) + 1 ->
  MSD_loop i pos_x pos_y N
  = Ok (np_mean (lag_sample pos_x pos_y N i),
        standard_error (lag_sample pos_x pos_y N i)).
Proof.
  intros Hy Hi HN. unfold MSD_loop.
  rewrite squared_displacements_inrange; [reflexivity|].
  intros k Hk. apply py_range_In in Hk. lia.
Qed.

Lemma lag_sample_length (pos_x pos_y : list float64) (N i : Z) :
  Z.of_nat (length (lag_sample pos_x pos_y N i)) = Z.max 0 (N - i - 2).
Proof.
  unfold lag_sample, np_arange. rewrite length_map, py_range_length. lia.
Qed.

Section CalculateMSDResults.

Variable os_cpu_count : Z.
Variable pool_order : nat -> list nat.
Hypothesis pool_runs_every_task :
  forall n, Permutation (pool_order n) (seq 0 n).

(** On a trajectory with at least three points the default call stores,
    for the lags [1 .. N-3] in order, the mean and the standard error of
    [lag_sample]. *)
Lemma calculateMSD_default (self : Track) (numWorkers : option Z) :
  length (_y self) = length (_x self) ->
  3 <= Z.of_nat (length (_x self)) ->
  calculateMSD os_cpu_count pool_order self None numWorkers
  = let N := Z.of_nat (length (_x self)) in
    Ok {| _x := _x self; _y := _y self; _t := _t self;
          _MSD := Some (map (fun i => np_mean (lag_sample (_x self) (_y self) N i))
                            (py_range 1 (N - 2)));
          _MSD_error :=
            Some (map (fun i => standard_error (lag_sample (_x self) (_y self) N i))
                      (py_range 1 (N - 2))) |}.
Proof.
  intros Hy HN. rewrite calculateMSD_closed_form by assumption.
  unfold calculateMSD_spec, effective_N. destruct (Z.ltb_spec (Z.of_nat (length (_x self)) - 3) 0);
    [lia|].
  rewrite (traverse_Ok _
             (fun i => (np_mean (lag_sample (_x self) (_y self)
                                   (Z.of_nat (length (_x self))) i),
                        standard_error (lag_sample (_x self) (_y self)
                                   (Z.of_nat (length (_x self))) i)))).
  - simpl. rewrite !map_map. reflexivity.
  - intros i Hi. apply py_range_In in Hi. apply MSD_loop_inrange; lia.
Qed.

(** C7.  On a trajectory of length [N >= 4], [calculateMSD] (with its
    default maximum lag, for any number of workers) succeeds and stores an
    MSD array and an MSD_error array of exactly [N - 3] entries each. *)
Theorem calculateMSD_curve_length (self : Track) (N : Z)
    (numWorkers : option Z) :
  Z.of_nat (length (_x self)) = N ->
  Z.of_nat (length (_y self)) = N ->
  4 <= N ->
  exists self' msd err,
    calculateMSD os_cpu_count pool_order self None numWorkers = Ok self' /\
    _MSD self' = Some msd /\ _MSD_error self' = Some err /\
    Z.of_nat (length msd) = N - 3 /\ Z.of_nat (length err) = N - 3.
Proof.
  intros Hx Hy HN. rewrite calculateMSD_default by lia.
  do 3 eexists. split; [reflexivity|]. simpl.
  split; [reflexivity|]. split; [reflexivity|].
  rewrite !length_map, !py_range_length. lia.
Qed.

(** C3.  For every trajectory and every maximum lag [N], the sequential
    branch of [calculateMSD] (at most one worker) and the parallel branch
    (more than one worker, the pool running the lags in any order) give the
    same outcome: the same exception, or the same MSD and MSD_error arrays,
    whose entry [i - 1] is what [MSD_loop] computes for lag [i]. *)
Theorem calculateMSD_sequential_parallel (self : Track) (N : option Z)
    (w_seq w_par : Z) :
  w_seq <= 1 -> 1 < w_par ->
  calculateMSD os_cpu_count pool_order self N (Some w_seq)
  = calculateMSD os_cpu_count pool_order self N (Some w_par)
  /\ forall self',
       calculateMSD os_cpu_count pool_order self N (Some w_par) = Ok self' ->
       exists msd err,
         _MSD self' = Some msd /\ _MSD_error self' = Some err /\
         forall i, 1 <= i <= effective_N self N - 3 ->
           exists m e,
             MSD_loop i (_x self) (_y self) (effective_N self N) = Ok (m, e) /\
             msd !! Z.to_nat (i - 1) = Some m /\
             err !! Z.to_nat (i - 1) = Some e.
Proof.
  intros Hseq Hpar. split.
  - rewrite calculateMSD_sequential_closed_form by assumption.
    rewrite calculateMSD_parallel_closed_form by assumption. reflexivity.
  - intros self'. rewrite calculateMSD_closed_form by assumption.
    unfold calculateMSD_spec. destruct (_ <? 0); [discriminate|].
    destruct (traverse _ _) as [rs|e] eqn:Ht; simpl; [|discriminate].
    intros [= <-]. simpl. exists (map fst rs), (map snd rs).
    split; [reflexivity|]. split; [reflexivity|].
    intros i Hi.
    assert (py_range 1 (effective_N self N - 2) !! Z.to_nat (i - 1) = Some i)
      as Hlk.
    { unfold py_range. change (map ?g ?l) with (g <$> l).
      rewrite list_lookup_fmap.
      rewrite (lookup_seq_lt 0 _ (Z.to_nat (i - 1))) by lia.
      simpl. f_equal. lia. }
    clear Hi. revert rs Ht Hlk.
    generalize (Z.to_nat (i - 1)) as k.
    generalize (py_range 1 (effective_N self N - 2)) as l.
    induction l as [|a l IH]; intros k rs Ht Hlk; [discriminate|].
    simpl in Ht.
    destruct (MSD_loop a _ _ _) as [[m e]|] eqn:Ha; simpl in Ht;
      [|discriminate].
    destruct (traverse _ l) as [rs'|] eqn:Hr; simpl in Ht; [|discriminate].
    injection Ht as <-. destruct k as [|k]; simpl in *.
    + injection Hlk as <-. exists m, e. rewrite Ha. repeat split.
    + apply (IH k rs' eq_refl Hlk).
Qed.

End CalculateMSDResults.

(** What the code computes on the example trajectory: the only entry of
    the MSD curve (lag 1) is the mean over the single pair (1, 2). *)
Lemma lag_sample_track_0111 :
  lag_sample (_x track_0111) (_y track_0111) 4 1 = [Fin 0].
Proof.
  unfold lag_sample, displacement, at_index. simpl.
  f_equal. f_equal. lra.
Qed.

Lemma mean_singleton_zero : np_mean [Fin 0] = Fin 0.
Proof.
  unfold np_mean, np_sum, F.div, F.of_nat. simpl.
  destruct (Req_dec_T 1 0) as [H|_]; [lra|]. f_equal. lra.
Qed.

Lemma standard_error_singleton_zero : standard_error [Fin 0] = Fin 0.
Proof.
  unfold standard_error, np_std. rewrite mean_singleton_zero.
  change (map _ [Fin 0]) with [F.square (F.sub (Fin 0) (Fin 0))].
  replace (F.square (F.sub (Fin 0) (Fin 0))) with (Fin 0)
    by (unfold F.square; simpl; f_equal; lra).
  rewrite mean_singleton_zero. unfold F.sqrt, F.of_nat. simpl.
  destruct (Rlt_dec 0 0) as [H|_]; [lra|].
  destruct (Rlt_dec 1 0) as [H|_]; [lra|].
  rewrite sqrt_0, sqrt_1. unfold F.div.
  destruct (Req_dec_T 1 0) as [H|_]; [lra|]. f_equal. lra.
Qed.

(** C2.  On [x = [0, 1, 1, 1]], [y = [0, 0, 0, 0]] the squared
    displacements at lag 1 are [[0, 1]] with mean 1/2, yet the entry of the
    MSD curve for lag 1 is 0: [calculateMSD] averages over the pairs
    starting at index 1 only and leaves the pair (0, 1) out. *)
Theorem calculateMSD_leaves_out_first_pair (os_cpu_count : Z)
    (pool_order : nat -> list nat) :
  SD track_0111 1 = Ok [Fin 0; Fin 1]
  /\ np_mean [Fin 0; Fin 1] = Fin (1 / 2)
  /\ calculateMSD os_cpu_count pool_order track_0111 None (Some 1)
     = Ok {| _x := _x track_0111; _y := _y track_0111; _t := _t track_0111;
             _MSD := Some [Fin 0]; _MSD_error := Some [Fin 0] |}.
Proof.
  split; [|split].
  - rewrite SD_inrange by (simpl; lia || reflexivity).
    unfold displacement, at_index. simpl.
    destruct (Rle_dec _ _) as [H|_]; [exfalso; lra|].
    f_equal. f_equal; [f_equal; lra|]. f_equal. f_equal. lra.
  - unfold np_mean, np_sum, F.div, F.of_nat. simpl.
    destruct (Req_dec_T (1 + 1) 0) as [H|_]; [lra|]. f_equal. lra.
  - rewrite calculateMSD_sequential_closed_form by lia.
    unfold calculateMSD_spec, effective_N.
    change (Z.of_nat (length (_x track_0111))) with 4.
    change (py_range 1 (4 - 2)) with [1].
    change (4 - 3 <? 0) with false. cbn [traverse].
    rewrite MSD_loop_inrange by (simpl; lia || reflexivity).
    rewrite lag_sample_track_0111.
    rewrite mean_singleton_zero, standard_error_singleton_zero.
    reflexivity.
Qed.

(** ** The information criterion *)

Lemma square_value (x : float64) : sum_of_squares_value (F.square x).
Proof.
  destruct x; simpl; try exact I. unfold F.square. simpl. nra.
Qed.

Lemma add_value (x y : float64) :
  sum_of_squares_value x -> sum_of_squares_value y ->
  sum_of_squares_value (F.add x y).
Proof. destruct x, y; simpl; try tauto. lra. Qed.

Lemma np_sum_squares_value (d : list float64) :
  sum_of_squares_value (np_sum (map F.square d)).
Proof.
  unfold np_sum.
  assert (forall acc, sum_of_squares_value acc ->
            sum_of_squares_value (fold_left F.add (map F.square d) acc)) as H.
  { induction d as [|x d IH]; intros acc Hacc; simpl; [exact Hacc|].
    apply IH. apply add_value; [exact Hacc|apply square_value]. }
  apply H. simpl. lra.
Qed.

Lemma RSS_value (pred target : list float64) (r : float64) :
  RSS pred target = Ok r -> sum_of_squares_value r.
Proof.
  unfold RSS. destruct (np_broadcast _ _ _) as [d|]; simpl; [|discriminate].
  intros [= <-]. apply np_sum_squares_value.
Qed.

Lemma log_one : F.log (F.of_Z 1) = Fin 0.
Proof.
  unfold F.log, F.of_Z. destruct (Rlt_dec 0 1) as [_|H]; [|lra].
  rewrite ln_1. reflexivity.
Qed.

Lemma div_by_one (x : float64) : F.div x (F.of_Z 1) = x.
Proof.
  unfold F.of_Z. destruct x; simpl; try reflexivity.
  - destruct (Req_dec_T 1 0) as [H|_]; [lra|]. f_equal. field.
  - destruct (Rlt_dec 1 0) as [H|_]; [lra|]. reflexivity.
  - destruct (Rlt_dec 1 0) as [H|_]; [lra|]. reflexivity.
Qed.

Lemma mul_one_l (x : float64) : F.mul (F.of_Z 1) x = x.
Proof.
  unfold F.of_Z, F.signed_inf. destruct x; simpl; try reflexivity.
  - f_equal. lra.
  - unfold F.signed_inf. destruct (Rlt_dec 0 1) as [_|H]; [reflexivity|lra].
  - unfold F.signed_inf. destruct (Rlt_dec 0 1) as [_|H]; [reflexivity|lra].
Qed.

Lemma add_zero_l (x : float64) : F.add (Fin 0) x = x.
Proof. destruct x; simpl; try reflexivity. f_equal. lra. Qed.

(** With [n = 1] the criterion is the logarithm of the residual sum of
    squares, whatever [k]. *)
Lemma BIC_n_1 (pred target : list float64) (k : Z) :
  BIC pred target k 1 = r ← RSS pred target; Ok (F.log r).
Proof.
  unfold BIC. destruct (RSS pred target) as [r|e]; [|reflexivity].
  unfold mbind, result_bind.
  rewrite log_one, div_by_one, mul_one_l. unfold F.of_Z, F.mul.
  rewrite Rmult_0_r, add_zero_l. reflexivity.
Qed.

Lemma log_ltb (a b : float64) :
  sum_of_squares_value a -> sum_of_squares_value b ->
  F.ltb (F.log a) (F.log b) = F.ltb a b.
Proof.
  destruct a as [a| | |], b as [b| | |]; simpl; try tauto; intros Ha Hb.
  1:{
  destruct (Rlt_dec 0 a) as [Pa|Na], (Rlt_dec 0 b) as [Pb|Nb]; simpl.
  - destruct (Rlt_dec (ln a) (ln b)) as [H|H], (Rlt_dec a b) as [H'|H'];
      try reflexivity; exfalso.
    + apply ln_lt_inv in H; try assumption. contradiction.
    + apply H. apply ln_increasing; assumption.
  - destruct (Rlt_dec b 0); [lra|]. simpl.
    destruct (Rlt_dec a b); [lra|reflexivity].
  - destruct (Rlt_dec a 0); [lra|]. simpl.
    destruct (Rlt_dec a b); [reflexivity|lra].
  - destruct (Rlt_dec a 0); [lra|]. destruct (Rlt_dec b 0); [lra|]. simpl.
    destruct (Rlt_dec a b); [lra|reflexivity].
  }
  all: repeat match goal with
              | |- context [Rlt_dec ?x ?y] => destruct (Rlt_dec x y)
              end; simpl; try reflexivity; lra.
Qed.

Lemma log_eqb (a b : float64) :
  sum_of_squares_value a -> sum_of_squares_value b ->
  F.eqb (F.log a) (F.log b) = F.eqb a b.
Proof.
  destruct a as [a| | |], b as [b| | |]; simpl; try tauto; intros Ha Hb.
  1:{
  destruct (Rlt_dec 0 a) as [Pa|Na], (Rlt_dec 0 b) as [Pb|Nb]; simpl.
  - destruct (Req_dec_T (ln a) (ln b)) as [H|H], (Req_dec_T a b) as [H'|H'];
      try reflexivity; exfalso.
    + apply ln_inv in H; try assumption. contradiction.
    + apply H. rewrite H'. reflexivity.
  - destruct (Rlt_dec b 0); [lra|]. simpl.
    destruct (Req_dec_T a b); [lra|reflexivity].
  - destruct (Rlt_dec a 0); [lra|]. simpl.
    destruct (Req_dec_T a b); [lra|reflexivity].
  - destruct (Rlt_dec a 0); [lra|]. destruct (Rlt_dec b 0); [lra|]. simpl.
    destruct (Req_dec_T a b); [reflexivity|lra].
  }
  all: repeat match goal with
              | |- context [Rlt_dec ?x ?y] => destruct (Rlt_dec x y)
              end; simpl; try reflexivity; lra.
Qed.

Lemma py_min_log (a : float64) (rest : list float64) :
  sum_of_squares_value a -> Forall sum_of_squares_value rest ->
  py_min (F.log a) (map F.log rest) = F.log (py_min a rest)
  /\ sum_of_squares_value (py_min a rest).
Proof.
  unfold py_min. revert a. induction rest as [|b rest IH]; intros a Ha Hr.
  - simpl. split; [reflexivity|exact Ha].
  - inversion Hr as [|? ? Hb Hr']; subst. simpl.
    rewrite log_ltb by assumption.
    destruct (F.ltb b a); apply IH; assumption.
Qed.


(** ** Relative likelihood *)

Lemma py_min_finite (b : float64) (rest : list float64) :
  Forall is_finite (b :: rest) ->
  In (py_min b rest) (b :: rest)
  /\ exists vm, py_min b rest = Fin vm
       /\ forall x, In x (b :: rest) -> exists vx, x = Fin vx /\ (vm <= vx)%R.
Proof.
  unfold py_min. revert b. induction rest as [|c rest IH]; intros b Hf.
  - inversion Hf as [|? ? Hb _]; subst. destruct b as [vb| | |]; try easy.
    simpl. split; [left; reflexivity|]. exists vb. split; [reflexivity|].
    intros x [<-|[]]. exists vb. split; [reflexivity|lra].
  - inversion Hf as [|? ? Hb Hf']; subst.
    inversion Hf' as [|? ? Hc Hr]; subst.
    destruct b as [vb| | |]; try easy. destruct c as [vc| | |]; try easy.
    simpl. destruct (Rlt_dec vc vb) as [Hlt|Hge].
    + destruct (IH (Fin vc)) as (Hin & vm & Hm & Hle);
        [constructor; assumption|].
      split; [right; exact Hin|]. exists vm. split; [exact Hm|].
      intros x [<-|Hx]; [|apply Hle; exact Hx].
      destruct (Hle (Fin vc)) as (v & [= <-] & Hv); [left; reflexivity|].
      exists vb. split; [reflexivity|lra].
    + destruct (IH (Fin vb)) as (Hin & vm & Hm & Hle);
        [constructor; assumption|].
      split; [destruct Hin as [Hin|Hin]; [left|right; right]; exact Hin|].
      exists vm. split; [exact Hm|].
      intros x [<-|[<-|Hx]].
      * apply Hle. left. reflexivity.
      * destruct (Hle (Fin vb)) as (v & [= <-] & Hv); [left; reflexivity|].
        exists vc. split; [reflexivity|lra].
      * apply Hle. right. exact Hx.
Qed.

Lemma relative_likelihood_finite (x m : R) :
  relative_likelihood (Fin x) (Fin m) = Fin (exp ((x - m) / 2)).
Proof.
  unfold relative_likelihood. simpl. f_equal. f_equal. lra.
Qed.

(** The criterion of a fit is finite exactly when its residual sum of
    squares is a positive number. *)
Lemma BIC_finite_iff (pred target : list float64) (k : Z) (b : float64) :
  BIC pred target k 1 = Ok b ->
  is_finite b <-> exists r, RSS pred target = Ok (Fin r) /\ (0 < r)%R.
Proof.
  rewrite BIC_n_1. destruct (RSS pred target) as [x|e] eqn:Hx;
    [|discriminate].
  cbn [mbind result_bind]. intros [= <-].
  apply RSS_value in Hx. destruct x as [r| | |]; simpl in *.
  - destruct (Rlt_dec 0 r) as [Hr|Hr].
    + split; [intros _; exists r; split; [reflexivity|exact Hr]|easy].
    + destruct (Rlt_dec r 0); [lra|]. split; [easy|].
      intros (r' & [= <-] & Hr'). contradiction.
  - split; [easy|]. intros (r' & [=] & _).
  - contradiction.
  - split; [easy|]. intros (r' & [=] & _).
Qed.

(** With a perfect fit the criterion is [-inf] and the relative likelihood
    of the best model is [nan], not 1. *)
Lemma relative_likelihood_perfect_fit :
  BIC [Fin 1] [Fin 1] 2 1 = Ok NInf
  /\ relative_likelihood NInf (py_min NInf [NInf]) = NaN.
Proof.
  split; [|reflexivity].
  rewrite BIC_n_1. unfold RSS. simpl. unfold F.log.
  destruct (Rlt_dec _ _) as [H|_]; [exfalso; lra|].
  destruct (Rlt_dec _ _) as [H|_]; [exfalso; lra|]. reflexivity.
Qed.



(** ** Ensemble averaging *)

Lemma dict_getitem_singleton {V} (k : string) (v : V) :
  dict_getitem {[k := v]} k = Ok v.
Proof. unfold dict_getitem. rewrite lookup_singleton_eq. reflexivity. Qed.

(** C5.  [smartAveraging] divides every group sum by its group count
    without looking at the count.  With a single track classified
    "brownian" the confined and hop groups are empty and their averages are
    [0 / 0 = nan]; when every track is "unknown" the population fractions
    are [0 / 0] on integers and the call raises [ZeroDivisionError]. *)
Theorem smartAveraging_divides_by_zero_count :
  (exists s,
     smartAveraging one_track one_MSD one_D_app ["brownian"] = Ok s /\
     counter_confined (averages s) = 0 /\
     counter_hop (averages s) = 0 /\
     average_D_app_brownian (averages s) = [Fin 2] /\
     average_MSD_brownian (averages s) = [Fin 1] /\
     average_D_app_confined (averages s) = [NaN] /\
     average_MSD_confined (averages s) = [NaN] /\
     average_D_app_hop (averages s) = [NaN] /\
     average_MSD_hop (averages s) = [NaN])
  /\ smartAveraging one_track one_MSD one_D_app ["unknown"]
     = Raise ZeroDivisionError.
Proof.
  split.
  - unfold smartAveraging, one_track.
    change (np_getitem [?d] 0) with (Ok d). cbn [mbind result_bind].
    rewrite dict_getitem_singleton. cbn [mbind result_bind].
    change (Z.of_nat (length [Fin 0; Fin 0; Fin 0; Fin 0]) - 3) with 1.
    change (np_zeros 1) with (Ok [Fin 0]). cbn [mbind result_bind].
    change (py_range 0 (Z.of_nat (length [?d]))) with [0].
    cbn [length Nat.eqb negb for_each mbind result_bind].
    unfold check_lengths. change (np_getitem [?d] 0) with (Ok d).
    cbn [mbind result_bind]. rewrite dict_getitem_singleton.
    cbn [mbind result_bind]. simpl.
    change (IZR (0 + 1)) with 1%R.
    destruct (Req_dec_T 0 0) as [_|H]; [|exfalso; lra].
    destruct (Req_dec_T 1 0) as [H|_]; [exfalso; lra|].
    unfold F.signed_inf. destruct (Rlt_dec 0 0) as [H|_]; [exfalso; lra|].
    eexists. split; [reflexivity|]. simpl.
    repeat split; repeat f_equal; lra.
  - unfold smartAveraging, one_track.
    change (np_getitem [?d] 0) with (Ok d). cbn [mbind result_bind].
    rewrite dict_getitem_singleton. cbn [mbind result_bind].
    change (Z.of_nat (length [Fin 0; Fin 0; Fin 0; Fin 0]) - 3) with 1.
    change (np_zeros 1) with (Ok [Fin 0]). cbn [mbind result_bind].
    change (py_range 0 (Z.of_nat (length [?d]))) with [0].
    cbn [length Nat.eqb negb for_each mbind result_bind].
    unfold check_lengths. change (np_getitem [?d] 0) with (Ok d).
    cbn [mbind result_bind]. rewrite dict_getitem_singleton.
    cbn [mbind result_bind]. reflexivity.
Qed.

(** ** The [io] monad *)

Lemma io_eta {A} (m : io A) : IO (events m) (outcome m) = m.
Proof. destruct m. reflexivity. Qed.

Lemma bind_ret_io {A B} (a : A) (f : A -> io B) : (mret a ≫= f) = f a.
Proof. unfold mbind, io_bind. simpl. apply io_eta. Qed.

Lemma bind_lift_Ok {A B} (a : A) (f : A -> io B) : (lift (Ok a) ≫= f) = f a.
Proof. unfold mbind, io_bind. simpl. apply io_eta. Qed.

Lemma bind_emit {B} (ev : event) (f : unit -> io B) :
  (emit ev ≫= f) = IO (ev :: events (f tt)) (outcome (f tt)).
Proof. reflexivity. Qed.

Lemma outcome_bind {A B} (m : io A) (f : A -> io B) :
  outcome (m ≫= f)
  = match outcome m with Ok a => outcome (f a) | Raise e => Raise e end.
Proof. unfold mbind, io_bind. destruct (outcome m); reflexivity. Qed.

Lemma events_bind {A B} (m : io A) (f : A -> io B) :
  events (m ≫= f)
  = events m ++ match outcome m with Ok a => events (f a) | Raise _ => [] end.
Proof.
  unfold mbind, io_bind. destruct (outcome m); simpl; [reflexivity|].
  rewrite app_nil_r. reflexivity.
Qed.

(** ** Truncation, slices and [linspace] *)

Lemma py_int_floor (r : R) (k : Z) :
  0 <= k -> (IZR k <= r < IZR k + 1)%R -> py_int (Fin r) = Ok k.
Proof.
  intros Hk Hr. unfold py_int. apply IZR_le in Hk.
  destruct (Rle_dec 0 r) as [_|H]; [|exfalso; lra].
  f_equal. symmetry. apply Int_part_spec. lra.
Qed.

Lemma py_int_quarter (N : Z) :
  0 <= N -> py_int (F.mul (Fin (1 / 4)) (F.of_Z N)) = Ok (N / 4).
Proof.
  intros HN. unfold F.of_Z, F.mul. apply py_int_floor.
  - apply Z.div_pos; lia.
  - pose proof (Z.div_mod N 4 ltac:(lia)) as Hd.
    pose proof (Z.mod_pos_bound N 4 ltac:(lia)) as Hm.
    assert (IZR N = 4 * IZR (N / 4) + IZR (N mod 4))%R as HR.
    { rewrite Hd at 1. rewrite plus_IZR, mult_IZR. reflexivity. }
    assert (0 <= IZR (N mod 4) <= 3)%R as HmR.
    { split; [apply IZR_le; lia|]. apply IZR_le. lia. }
    lra.
Qed.

Lemma py_slice_to_all {A} (a : list A) (n : Z) :
  Z.of_nat (length a) <= n -> py_slice_to a n = a.
Proof.
  intros H. unfold py_slice_to. destruct (Z.ltb_spec n 0); [lia|].
  apply take_ge. lia.
Qed.

Lemma np_getitem_beyond {A} (a : list A) (i : Z) :
  Z.of_nat (length a) <= i -> np_getitem a i = Raise IndexError.
Proof.
  intros H. unfold np_getitem. destruct (Z.ltb_spec i 0); [lia|].
  destruct (Z.ltb_spec i (Z.of_nat (length a))); [lia|].
  rewrite andb_false_r. reflexivity.
Qed.

Lemma np_linspace_length (start stop : float64) (num : Z) :
  0 <= num ->
  exists T, np_linspace start stop num = Ok T /\ Z.of_nat (length T) = num.
Proof.
  intros H. unfold np_linspace. destruct (Z.ltb_spec num 0); [lia|].
  eexists. split; [reflexivity|].
  destruct (1 <? num); rewrite ?length_insert, length_map;
    unfold np_arange; rewrite py_range_length; lia.
Qed.

(** ** [classicalMSDAnalysis] with more fit points than the curve has *)

Lemma msd_fit_range_40 :
  exists T,
    np_linspace (F.of_Z 1) (F.of_Z 40) 40 = Ok T /\
    Z.of_nat (length T) = 40 /\
    msd_fit_range (Fin (11 / 10)) None 40
    = IO [Warn too_many_points] (Ok (44, T)).
Proof.
  destruct (np_linspace_length (F.of_Z 1) (F.of_Z 40) 40) as (T & HT & Hl);
    [lia|].
  exists T. split; [exact HT|]. split; [exact Hl|].
  unfold msd_fit_range.
  assert (py_int (F.mul (Fin (11 / 10)) (F.of_Z 40)) = Ok 44) as ->.
  { apply py_int_floor; [lia|]. lra. }
  rewrite bind_lift_Ok. change (py_assert (2 <=? 44)) with (mret tt : io unit).
  rewrite bind_ret_io, py_int_quarter by lia.
  rewrite bind_lift_Ok. change (40 / 4 <? 44) with true. cbv iota.
  rewrite bind_emit, HT, bind_lift_Ok. reflexivity.
Qed.

Section FitBeyondTheCurve.

Variable curve_fit :
  model -> list float64 -> list float64 -> option (list float64) ->
  list float64 -> option Z -> result (list float64).

(** With [n_points] beyond the end of the time array the fits are run on
    the whole curve, and whatever they return the call ends in an
    exception: at the latest when [T[n_points]] is read for the shaded
    span. *)
Lemma msd_fit_and_report_beyond (MSD_ MSD_error T : list float64)
    (n_points : Z) (linearPlot : bool) :
  Z.of_nat (length T) <= n_points ->
  Z.of_nat (length MSD_) <= n_points ->
  Z.of_nat (length MSD_error) <= n_points ->
  let r := msd_fit_and_report curve_fit MSD_ (Some MSD_error) n_points T
             linearPlot in
  (exists e, outcome r = Raise e)
  /\ forall p1 p2,
       curve_fit model1 T MSD_ None MSD_error None = Ok p1 ->
       curve_fit model2 T MSD_ (Some (py_slice_to p1 2 ++ [Fin 1]))
                 MSD_error None = Ok p2 ->
       length p1 = 2%nat -> length p2 = 3%nat ->
       length MSD_ = length T ->
       0 < Z.of_nat (length T) ->
       outcome r = Raise IndexError /\
       exists bic1 bic2,
         BIC (map (eval model1 p1) T) MSD_ 2 1 = Ok bic1 /\
         BIC (map (eval model2 p2) T) MSD_ 2 1 = Ok bic2 /\
         events r
         = [Print "bic1 bic2" [bic1; bic2];
            PlotData linearPlot T MSD_;
            PlotFit "Model1" (relative_likelihood bic1 (py_min bic1 [bic2]))
                    T (map (eval model1 p1) T);
            PlotFit "Model2" (relative_likelihood bic2 (py_min bic1 [bic2]))
                    T (map (eval model2 p2) T)].
Proof.
  intros HT HM HE r. subst r. unfold msd_fit_and_report.
  rewrite bind_lift_Ok.
  rewrite (py_slice_to_all T), (py_slice_to_all MSD_),
    (py_slice_to_all MSD_error) by assumption.
  rewrite (np_getitem_beyond T n_points) by assumption.
  split.
  - repeat (rewrite outcome_bind; cbn [outcome lift emit];
            match goal with
            | |- exists e, match ?x with Ok _ => _ | Raise _ => _ end = _ =>
                destruct x; [|eexists; reflexivity]
            | |- _ => idtac
            end).
    eexists; reflexivity.
  - intros p1 p2 H1 H2 L1 L2 HL HT0. rewrite H1, bind_lift_Ok.
    rewrite H2, bind_lift_Ok. unfold call_model.
    rewrite L1, L2. cbn [arity model1 model2].
    destruct (decide (2%nat = 2%nat)) as [_|]; [|congruence].
    destruct (decide (3%nat = 3%nat)) as [_|]; [|congruence].
    rewrite !bind_lift_Ok.
    rewrite (py_slice_to_all (map _ T)) by (rewrite length_map; lia).
    rewrite (py_slice_to_all (map _ T)) by (rewrite length_map; lia).
    assert (exists b, BIC (map (eval model1 p1) T) MSD_ 2 1 = Ok b)
      as [b1 Hb1].
    { rewrite BIC_n_1. unfold RSS.
      rewrite np_broadcast_same by (rewrite length_map; congruence).
      eexists; reflexivity. }
    assert (exists b, BIC (map (eval model2 p2) T) MSD_ 2 1 = Ok b)
      as [b2 Hb2].
    { rewrite BIC_n_1. unfold RSS.
      rewrite np_broadcast_same by (rewrite length_map; congruence).
      eexists; reflexivity. }
    rewrite Hb1, bind_lift_Ok, Hb2, bind_lift_Ok.
    destruct (np_getitem_inrange T 0) as (t0 & Ht0 & _); [lia|].
    rewrite Ht0. split.
    + rewrite !outcome_bind. reflexivity.
    + exists b1, b2. split; [reflexivity|]. split; [reflexivity|].
      reflexivity.
Qed.

End FitBeyondTheCurve.

(** C9.  On a 40-point MSD curve, [classicalMSDAnalysis] with
    [fractionFitPoints = 1.1] computes [n_points = 44], emits the warning
    and runs both fits on the whole curve (all 40 points, no more); it then
    ends in an exception whatever the fits return, and in [IndexError] when
    they succeed: the shaded span reads [T[n_points]], which a time array
    of 40 entries does not have. *)
Theorem classicalMSDAnalysis_fraction_above_one (os_cpu_count : Z)
    (pool_order : nat -> list nat)
    (curve_fit : model -> list float64 -> list float64 ->
                 option (list float64) -> list float64 -> option Z ->
                 result (list float64))
    (self : Track) (msd err : list float64) (linearPlot : bool) :
  _MSD self = Some msd -> _MSD_error self = Some err ->
  length msd = 40%nat -> length err = 40%nat ->
  let r := classicalMSDAnalysis os_cpu_count pool_order curve_fit self
             (Fin (11 / 10)) None linearPlot in
  (exists e, outcome r = Raise e)
  /\ In (Warn too_many_points) (events r)
  /\ exists T,
       np_linspace (F.of_Z 1) (F.of_Z 40) 40 = Ok T /\
       length T = 40%nat /\
       forall p1 p2,
         curve_fit model1 T msd None err None = Ok p1 ->
         curve_fit model2 T msd (Some (py_slice_to p1 2 ++ [Fin 1]))
                   err None = Ok p2 ->
         length p1 = 2%nat -> length p2 = 3%nat ->
         outcome r = Raise IndexError.
Proof.
  intros HM HE Lm Le r. subst r. unfold classicalMSDAnalysis.
  rewrite HM, bind_ret_io, HM, bind_lift_Ok, HE, Lm.
  change (Z.of_nat 40) with 40.
  destruct msd_fit_range_40 as (T & HT & Hl & ->).
  destruct (msd_fit_and_report_beyond curve_fit msd err T 44 linearPlot)
    as [[e He] Hfit]; [lia..|].
  rewrite outcome_bind, events_bind. cbn [outcome events].
  rewrite outcome_bind, He. split; [exists e; reflexivity|].
  split; [left; reflexivity|].
  exists T. split; [exact HT|]. split; [lia|].
  intros p1 p2 H1 H2 L1 L2.
  destruct (Hfit p1 p2 H1 H2 L1 L2) as [Hr _]; [lia|lia|].
  rewrite Hr in He. injection He as <-. reflexivity.
Qed.

(** ** [adc_analysis] *)

Lemma outcome_io_for {A B} (l : list A) (body : A -> io B) (bs : list B) :
  outcome (io_for l body) = Ok bs ->
  Forall2 (fun a b => outcome (body a) = Ok b) l bs.
Proof.
  revert bs. induction l as [|a l IH]; intros bs; simpl.
  - intros [= <-]. constructor.
  - rewrite outcome_bind. destruct (outcome (body a)) as [b|] eqn:Hb;
      [|discriminate].
    rewrite outcome_bind. destruct (outcome (io_for l body)) as [bs'|];
      [|discriminate].
    simpl. intros [= <-]. constructor; [exact Hb|]. apply IH. reflexivity.
Qed.

Section AdcFacts.

Variable curve_fit :
  model -> list float64 -> list float64 -> option (list float64) ->
  list float64 -> option Z -> result (list float64).
Variable normalize :
  gmap string (list float64) -> result (gmap string (list float64)).
Variable MSD :
  list float64 -> list float64 -> result (list float64 * list float64).

(** [adc_select] returns only when each of its three fits returned. *)
Lemma adc_select_returns (R dt : float64) (maxfev : Z)
    (this_msd_error : list float64) (n_points : Z) (T Dapp : list float64)
    (category : string) :
  outcome (adc_select curve_fit R dt maxfev this_msd_error n_points T Dapp)
  = Ok category ->
  forall m, In m [model_brownian R dt; model_confined R dt; model_hop R dt] ->
    exists popt,
      adc_fit curve_fit maxfev this_msd_error n_points T Dapp m = Ok popt.
Proof.
  unfold adc_select. rewrite outcome_bind. cbn [outcome lift].
  destruct (adc_fit _ _ _ _ _ _ (model_brownian R dt)) as [pb|] eqn:Hb;
    [|discriminate].
  rewrite outcome_bind. cbn [outcome lift].
  destruct (adc_fit _ _ _ _ _ _ (model_confined R dt)) as [pc|] eqn:Hc;
    [|discriminate].
  rewrite outcome_bind. cbn [outcome lift].
  destruct (adc_fit _ _ _ _ _ _ (model_hop R dt)) as [ph|] eqn:Hh;
    [|discriminate].
  intros _ m [<-|[<-|[<-|[]]]]; eexists; eassumption.
Qed.


End AdcFacts.

Lemma still_track_x : dict_getitem still_track "x" = Ok (replicate 8 (Fin 0)).
Proof.
  unfold dict_getitem, still_track. rewrite lookup_insert_eq. reflexivity.
Qed.

Lemma still_track_y : dict_getitem still_track "y" = Ok (replicate 8 (Fin 0)).
Proof.
  unfold dict_getitem, still_track.
  rewrite lookup_insert_ne by discriminate.
  rewrite lookup_insert_eq. reflexivity.
Qed.

Lemma still_track_t : dict_getitem still_track "t" = Ok [Fin 0; Fin 1].
Proof.
  unfold dict_getitem, still_track.
  rewrite !lookup_insert_ne by discriminate.
  rewrite lookup_singleton_eq. reflexivity.
Qed.

Lemma adc_fit_range_default_lengths (R : float64) (this_msd : list float64)
    (dt : float64) :
  8 <= Z.of_nat (length this_msd) ->
  exists T Dapp,
    adc_fit_range R None this_msd dt
    = lift (Ok (Z.of_nat (length this_msd) / 4, T, Dapp))
    /\ length T = length this_msd /\ length Dapp = length this_msd.
Proof.
  intros HN. unfold adc_fit_range. set (N := Z.of_nat (length this_msd)) in *.
  rewrite py_int_quarter by lia. rewrite bind_lift_Ok.
  assert (2 <= N / 4) as Hq by (apply Z.div_le_lower_bound; lia).
  destruct (Z.leb_spec 2 (N / 4)); [|lia].
  cbn [py_assert]. rewrite bind_ret_io, bind_lift_Ok.
  rewrite Z.ltb_irrefl, bind_ret_io.
  destruct (np_linspace_length dt (F.mul dt (F.of_Z N)) N) as (T & -> & HT);
    [lia|].
  rewrite bind_lift_Ok.
  rewrite np_broadcast_same by (rewrite length_map; lia).
  rewrite bind_lift_Ok. exists T. eexists. split; [reflexivity|].
  split; [lia|]. rewrite length_zip_with, length_map. lia.
Qed.


(** ** Frame properties of the [Track] methods *)

Module HeapFacts.
Import Heap HeapSpec.

Lemma preserved_refl (h : gmap loc cell) : preserved h h.
Proof.
  intros l [a|o] H; [exact H|]. exists o. split; [exact H|].
  split; [reflexivity|]. intros; reflexivity.
Qed.

Lemma preserved_fresh (h0 h : gmap loc cell) (l : loc) :
  preserved h0 h -> h !! l = None -> h0 !! l = None.
Proof.
  intros Hp Hl. destruct (h0 !! l) as [c|] eqn:E; [|reflexivity].
  specialize (Hp l c E). destruct c as [a|o].
  - congruence.
  - destruct Hp as (o' & Ho & _). congruence.
Qed.

Lemma preserved_insert_fresh (h0 h : gmap loc cell) (l : loc) (c : cell) :
  preserved h0 h -> h0 !! l = None -> preserved h0 (<[l := c]> h).
Proof.
  intros Hp Hl l0 c0 H0.
  assert (l <> l0) as Hne by congruence.
  rewrite lookup_insert_ne by exact Hne. apply Hp. exact H0.
Qed.

Lemma run_bind {A B} (m : heapM A) (f : A -> heapM B) (h : gmap loc cell) :
  run (m ≫= f) h
  = match run m h with
    | (Ok a, h') => run (f a) h'
    | (Raise e, h') => (Raise e, h')
    end.
Proof. reflexivity. Qed.

Lemma triple_ret {A} (h0 : gmap loc cell) (a : A) (Q : A -> Prop) :
  Q a -> triple h0 (mret a) Q.
Proof.
  intros HQ h Hp. split; [exact Hp|]. simpl. intros a' [= <-]. exact HQ.
Qed.

Lemma triple_bind {A B} (h0 : gmap loc cell) (m : heapM A)
    (f : A -> heapM B) (P : A -> Prop) (Q : B -> Prop) :
  triple h0 m P -> (forall a, P a -> triple h0 (f a) Q) ->
  triple h0 (m ≫= f) Q.
Proof.
  intros Hm Hf h Hp. rewrite run_bind. destruct (Hm h Hp) as [Hp' HP].
  destruct (run m h) as [[a|e] h']; simpl in *.
  - apply (Hf a (HP a eq_refl) h' Hp').
  - split; [exact Hp'|]. intros a. discriminate.
Qed.

(** A program that leaves the store as it is. *)
Lemma triple_read {A} (h0 : gmap loc cell) (m : heapM A) :
  (forall h, (run m h).2 = h) -> triple h0 m (fun _ => True).
Proof.
  intros Hm h Hp. rewrite Hm. split; [exact Hp|]. intros; exact I.
Qed.

Lemma getattr_reads (o : pyval) (name : string) (h : gmap loc cell) :
  (run (getattr o name) h).2 = h.
Proof.
  unfold getattr. simpl. destruct o as [|l|]; try reflexivity.
  destruct (h !! l) as [[|ob]|]; try reflexivity.
  destruct (attrs ob !! name); reflexivity.
Qed.

Lemma class_of_reads (o : pyval) (h : gmap loc cell) :
  (run (class_of o) h).2 = h.
Proof.
  unfold class_of. simpl. destruct o as [|l|]; try reflexivity.
  destruct (h !! l) as [[|ob]|]; reflexivity.
Qed.

Lemma deref_reads (v : pyval) (h : gmap loc cell) : (run (deref v) h).2 = h.
Proof.
  unfold deref. simpl. destruct v as [|l|]; try reflexivity.
  destruct (h !! l) as [[|ob]|]; reflexivity.
Qed.

Lemma arr_size_reads (v : pyval) (h : gmap loc cell) :
  (run (arr_size v) h).2 = h.
Proof.
  unfold arr_size. simpl. destruct v as [|l|]; try reflexivity.
  destruct (h !! l) as [[[]|ob]|]; reflexivity.
Qed.

Lemma lift_result_reads {A} (r : result A) (h : gmap loc cell) :
  (run (lift_result r) h).2 = h.
Proof. reflexivity. Qed.

Lemma arr_data_reads (v : pyval) (h : gmap loc cell) :
  (run (arr_data v) h).2 = h.
Proof.
  unfold arr_data. rewrite run_bind.
  pose proof (deref_reads v h) as H.
  destruct (run (deref v) h) as [[a|e] h']; simpl in *; subst; reflexivity.
Qed.

Lemma reduce_reads (f : float64 -> float64 -> float64) (v : pyval)
    (h : gmap loc cell) :
  (run (reduce f v) h).2 = h.
Proof.
  unfold reduce. rewrite run_bind.
  pose proof (deref_reads v h) as H.
  destruct (run (deref v) h) as [[a|e] h']; simpl in *; subst;
    [|reflexivity].
  destruct a as [[|x r]|]; reflexivity.
Qed.

Lemma triple_alloc (h0 : gmap loc cell) (c : cell) :
  triple h0 (alloc c) (fresh_ref h0).
Proof.
  intros h Hp. unfold alloc. simpl.
  assert (h !! fresh (dom h) = None) as Hf
    by (apply not_elem_of_dom, is_fresh).
  pose proof (preserved_fresh _ _ _ Hp Hf) as Hf0.
  split.
  - apply preserved_insert_fresh; assumption.
  - intros a [= <-]. eexists. split; [reflexivity|exact Hf0].
Qed.

Lemma triple_arr_new (h0 : gmap loc cell) (d : list float64) :
  triple h0 (arr_new d) (fresh_ref h0).
Proof. apply triple_alloc. Qed.

Lemma triple_np_array (h0 : gmap loc cell) (v : pyval) :
  triple h0 (np_array v) (fresh_ref h0).
Proof.
  intros h Hp. unfold np_array. cbn [run].
  destruct v as [|l|]; try apply (triple_alloc h0 _ h Hp).
  destruct (h !! l) as [[a|ob]|]; apply (triple_alloc h0 _ h Hp).
Qed.

Lemma triple_arr_take (h0 : gmap loc cell) (a : pyval) (idx : list Z) :
  triple h0 (arr_take a idx) (fresh_ref h0).
Proof.
  unfold arr_take.
  eapply triple_bind; [apply triple_read, arr_data_reads|]. intros d _.
  eapply triple_bind; [apply triple_read, lift_result_reads|]. intros r _.
  apply triple_arr_new.
Qed.

Lemma triple_arr_binop (h0 : gmap loc cell)
    (f : float64 -> float64 -> float64) (a b : pyval) :
  triple h0 (arr_binop f a b) (fresh_ref h0).
Proof.
  unfold arr_binop.
  eapply triple_bind; [apply triple_read, arr_data_reads|]. intros da _.
  eapply triple_bind; [apply triple_read, arr_data_reads|]. intros db _.
  eapply triple_bind; [apply triple_read, lift_result_reads|]. intros r _.
  apply triple_arr_new.
Qed.

Lemma triple_arr_map (h0 : gmap loc cell) (f : float64 -> float64)
    (a : pyval) :
  triple h0 (arr_map f a) (fresh_ref h0).
Proof.
  unfold arr_map.
  eapply triple_bind; [apply triple_read, arr_data_reads|]. intros d _.
  apply triple_arr_new.
Qed.

(** In-place updates are harmless on arrays allocated after [h0]. *)
Lemma triple_arr_sort (h0 : gmap loc cell) (a : pyval) :
  fresh_ref h0 a -> triple h0 (arr_sort a) (fun _ => True).
Proof.
  intros (l & -> & Hl) h Hp. unfold arr_sort. cbn [run].
  destruct (h !! l) as [[[d|]|ob]|]; simpl; split; try exact Hp;
    try (intros; exact I).
  apply preserved_insert_fresh; assumption.
Qed.

Lemma triple_arr_setitem (h0 : gmap loc cell) (a : pyval) (i : Z)
    (x : float64) :
  fresh_ref h0 a -> triple h0 (arr_setitem a i x) (fun _ => True).
Proof.
  intros (l & -> & Hl) h Hp. unfold arr_setitem. cbn [run].
  destruct (h !! l) as [[[d|]|ob]|]; simpl; try (split; [exact Hp|intros; exact I]).
  destruct (np_setitem d i x); simpl; split; try exact Hp;
    try (intros; exact I).
  apply preserved_insert_fresh; assumption.
Qed.

(** Attribute assignment is harmless on objects allocated after [h0], and
    on any object when the attribute is [_MSD] or [_MSD_error]. *)
Lemma triple_setattr (h0 : gmap loc cell) (o : pyval) (name : string)
    (v : pyval) :
  fresh_ref h0 o \/ name = "_MSD" \/ name = "_MSD_error" ->
  triple h0 (setattr o name v) (fun _ => True).
Proof.
  intros Hc h Hp. unfold setattr. cbn [run].
  destruct o as [|l|]; try (split; [exact Hp|intros; exact I]).
  destruct (h !! l) as [[a|ob]|] eqn:Hl;
    try (split; [exact Hp|intros; exact I]).
  simpl. split; [|intros; exact I].
  intros l0 c0 H0. destruct (decide (l = l0)) as [<-|Hne].
  - rewrite lookup_insert_eq.
    destruct Hc as [(l' & [= <-] & Hf)|Hname]; [congruence|].
    specialize (Hp l c0 H0). destruct c0 as [a0|o0]; [congruence|].
    destruct Hp as (o' & Ho' & Hcls & Hattrs).
    assert (o' = ob) as -> by congruence.
    eexists. split; [reflexivity|]. split; [exact Hcls|].
    intros k Hk1 Hk2. cbn [attrs]. rewrite lookup_insert_ne.
    + apply Hattrs; assumption.
    + destruct Hname; congruence.
  - rewrite lookup_insert_ne by exact Hne. apply Hp. exact H0.
Qed.

Lemma triple_for_each_h {A} (h0 : gmap loc cell) (l : list A)
    (body : A -> heapM unit) :
  (forall a, In a l -> triple h0 (body a) (fun _ => True)) ->
  triple h0 (for_each_h l body) (fun _ => True).
Proof.
  induction l as [|a l IH]; intros H; simpl.
  - apply triple_ret. exact I.
  - eapply triple_bind; [apply H; left; reflexivity|]. intros _ _.
    apply IH. intros; apply H; right; assumption.
Qed.

Lemma triple_squared_displacements (h0 : gmap loc cell) (pos_x pos_y : pyval)
    (idx_0 idx_t : list Z) :
  triple h0 (Heap.squared_displacements pos_x pos_y idx_0 idx_t)
         (fresh_ref h0).
Proof.
  unfold Heap.squared_displacements.
  eapply triple_bind; [apply triple_arr_take|]. intros xt _.
  eapply triple_bind; [apply triple_arr_take|]. intros x0 _.
  eapply triple_bind; [apply triple_arr_binop|]. intros dx _.
  eapply triple_bind; [apply triple_arr_map|]. intros dx2 _.
  eapply triple_bind; [apply triple_arr_take|]. intros yt _.
  eapply triple_bind; [apply triple_arr_take|]. intros y0 _.
  eapply triple_bind; [apply triple_arr_binop|]. intros dy _.
  eapply triple_bind; [apply triple_arr_map|]. intros dy2 _.
  apply triple_arr_binop.
Qed.

Lemma triple_SD (h0 : gmap loc cell) (self : pyval) (j : Z) :
  triple h0 (Heap.SD self j) (fun _ => True).
Proof.
  unfold Heap.SD.
  eapply triple_bind; [apply triple_read, getattr_reads|]. intros x _.
  eapply triple_bind; [apply triple_read, arr_size_reads|]. intros n _.
  eapply triple_bind; [apply triple_read, getattr_reads|]. intros x' _.
  eapply triple_bind; [apply triple_np_array|]. intros pos_x _.
  eapply triple_bind; [apply triple_read, getattr_reads|]. intros y _.
  eapply triple_bind; [apply triple_np_array|]. intros pos_y _.
  eapply triple_bind; [apply triple_squared_displacements|]. intros sd Hsd.
  eapply triple_bind; [apply triple_arr_sort; exact Hsd|]. intros _ _.
  apply triple_ret. exact I.
Qed.

Lemma triple_Track_init (h0 : gmap loc cell) (self x y t : pyval) :
  fresh_ref h0 self -> triple h0 (Heap.Track_init self x y t) (fun _ => True).
Proof.
  intros Hs. unfold Heap.Track_init.
  eapply triple_bind; [apply triple_np_array|]. intros a _.
  eapply triple_bind; [apply triple_setattr; left; exact Hs|]. intros _ _.
  eapply triple_bind; [apply triple_np_array|]. intros b _.
  eapply triple_bind; [apply triple_setattr; left; exact Hs|]. intros _ _.
  eapply triple_bind; [apply triple_np_array|]. intros c _.
  eapply triple_bind; [apply triple_setattr; left; exact Hs|]. intros _ _.
  eapply triple_bind; [apply triple_setattr; left; exact Hs|]. intros _ _.
  apply triple_setattr. left. exact Hs.
Qed.

Lemma triple_NormalizedTrack_new (h0 : gmap loc cell) (x y t : pyval)
    (xy_min xy_max tmin tmax : float64) :
  fresh_ref h0 x ->
  triple h0 (NormalizedTrack_new x y t xy_min xy_max tmin tmax)
         (fun _ => True).
Proof.
  intros Hx. unfold NormalizedTrack_new.
  eapply triple_bind; [apply triple_alloc|]. intros self Hs.
  eapply triple_bind; [apply triple_Track_init; exact Hx|]. intros _ _.
  eapply triple_bind; [apply triple_setattr; left; exact Hs|]. intros _ _.
  eapply triple_bind; [apply triple_setattr; left; exact Hs|]. intros _ _.
  eapply triple_bind; [apply triple_setattr; left; exact Hs|]. intros _ _.
  eapply triple_bind; [apply triple_setattr; left; exact Hs|]. intros _ _.
  apply triple_ret. exact I.
Qed.

Lemma triple_normalize (h0 : gmap loc cell) (self : pyval) :
  triple h0 (Heap.normalize self) (fun _ => True).
Proof.
  unfold Heap.normalize.
  eapply triple_bind; [apply triple_read, class_of_reads|]. intros _ _.
  eapply triple_bind; [apply triple_read, getattr_reads|]. intros x _.
  eapply triple_bind; [apply triple_read, getattr_reads|]. intros y _.
  eapply triple_bind; [apply triple_read, getattr_reads|]. intros t _.
  eapply triple_bind; [apply triple_read, reduce_reads|]. intros xmin _.
  eapply triple_bind; [apply triple_read, reduce_reads|]. intros xmax _.
  eapply triple_bind; [apply triple_read, reduce_reads|]. intros ymin _.
  eapply triple_bind; [apply triple_read, reduce_reads|]. intros ymax _.
  eapply triple_bind; [apply triple_read, reduce_reads|]. intros tmin _.
  eapply triple_bind; [apply triple_read, reduce_reads|]. intros tmax _.
  eapply triple_bind; [apply triple_arr_map|]. intros x1 _.
  eapply triple_bind; [apply triple_arr_map|]. intros x2 Hx2.
  eapply triple_bind; [apply triple_arr_map|]. intros y1 _.
  eapply triple_bind; [apply triple_arr_map|]. intros y2 _.
  eapply triple_bind; [apply triple_arr_map|]. intros t1 _.
  eapply triple_bind; [apply triple_arr_map|]. intros t2 _.
  eapply triple_bind; [apply triple_NormalizedTrack_new; exact Hx2|].
  intros _ _. apply triple_ret. exact I.
Qed.

Section MethodFrames.

Variable os_cpu_count : Z.
Variable pool_order : nat -> list nat.
Variable curve_fit :
  model -> list float64 -> list float64 -> option (list float64) ->
  list float64 -> option Z -> result (list float64).

Lemma triple_calculateMSD (h0 : gmap loc cell) (self : pyval)
    (N numWorkers : option Z) :
  triple h0 (Heap.calculateMSD os_cpu_count pool_order self N numWorkers)
         (fun _ => True).
Proof.
  unfold Heap.calculateMSD.
  eapply triple_bind.
  { instantiate (1 := fun _ => True). destruct N as [n|].
    - apply triple_ret. exact I.
    - eapply triple_bind; [apply triple_read, getattr_reads|]. intros x _.
      apply triple_read, arr_size_reads. }
  intros n _.
  eapply triple_bind; [apply triple_read, lift_result_reads|]. intros z _.
  eapply triple_bind; [apply triple_arr_new|]. intros MSD HMSD.
  eapply triple_bind; [apply triple_read, lift_result_reads|]. intros z' _.
  eapply triple_bind; [apply triple_arr_new|]. intros MSD_error HMSD_error.
  eapply triple_bind; [apply triple_read, getattr_reads|]. intros pos_x _.
  eapply triple_bind; [apply triple_read, getattr_reads|]. intros pos_y _.
  eapply triple_bind.
  { instantiate (1 := fun _ => True). destruct (1 <? _).
    - eapply triple_bind; [apply triple_read, deref_reads|]. intros ax _.
      eapply triple_bind; [apply triple_read, deref_reads|]. intros ay _.
      eapply triple_bind; [apply triple_read, lift_result_reads|].
      intros results _. apply triple_for_each_h.
      intros [i [MSD_i MSD_error_i]] _.
      eapply triple_bind; [apply triple_arr_setitem; exact HMSD|].
      intros _ _. apply triple_arr_setitem. exact HMSD_error.
    - apply triple_for_each_h. intros i _.
      eapply triple_bind; [apply triple_squared_displacements|].
      intros this_msd _.
      eapply triple_bind; [apply triple_read, arr_data_reads|]. intros d _.
      eapply triple_bind; [apply triple_arr_setitem; exact HMSD|].
      intros _ _. apply triple_arr_setitem. exact HMSD_error. }
  intros _ _.
  eapply triple_bind; [apply triple_setattr; right; left; reflexivity|].
  intros _ _. apply triple_setattr. right. right. reflexivity.
Qed.

Lemma triple_classicalMSDAnalysis (h0 : gmap loc cell) (self : pyval)
    (fractionFitPoints : float64) (nFitPoints : option Z)
    (linearPlot : bool) :
  triple h0 (Heap.classicalMSDAnalysis os_cpu_count pool_order curve_fit
               self fractionFitPoints nFitPoints linearPlot)
         (fun _ => True).
Proof.
  unfold Heap.classicalMSDAnalysis.
  eapply triple_bind; [apply triple_read, getattr_reads|]. intros m _.
  eapply triple_bind.
  { instantiate (1 := fun _ => True). destruct m.
    - apply triple_calculateMSD.
    - apply triple_ret. exact I.
    - apply triple_ret. exact I. }
  intros _ _.
  eapply triple_bind; [apply triple_read, getattr_reads|]. intros m' _.
  eapply triple_bind; [apply triple_read, arr_size_reads|]. intros n _.
  eapply triple_bind; [apply triple_read, lift_result_reads|].
  intros [n_points T] _.
  eapply triple_bind; [apply triple_read, arr_data_reads|]. intros d _.
  eapply triple_bind; [apply triple_read, getattr_reads|]. intros e _.
  eapply triple_bind; [apply triple_read, arr_data_reads|]. intros d' _.
  apply triple_read, lift_result_reads.
Qed.

Lemma preserved_coordinates (h h' : gmap loc cell) (self : loc)
    (o : pyobj) :
  h !! self = Some (CObj o) -> preserved h h' ->
  coordinates_unchanged self o h h'.
Proof.
  intros Hs Hp. split.
  - destruct (Hp self (CObj o) Hs) as (o' & Ho' & Hcls & Hattrs).
    exists o'. split; [exact Ho'|]. split; [exact Hcls|].
    repeat split; apply Hattrs; discriminate.
  - intros l a Hl. apply (Hp l (CArr a) Hl).
Qed.

(** C10.  [SD], [calculateMSD], [classicalMSDAnalysis] and [normalize],
    called on a track object of any store, with any arguments and whether
    they return or raise, leave the object in place with its class and its
    attributes [_x], [_y] and [_t], and leave every array of the store (the
    coordinate and time arrays among them) with its contents. *)
Theorem track_methods_leave_coordinates_unchanged
    (h : gmap loc cell) (self : loc) (o : pyobj) (j : Z)
    (N numWorkers nFitPoints : option Z) (fractionFitPoints : float64)
    (linearPlot : bool) :
  h !! self = Some (CObj o) ->
  coordinates_unchanged self o h (run (Heap.SD (VRef self) j) h).2
  /\ coordinates_unchanged self o h
       (run (Heap.calculateMSD os_cpu_count pool_order (VRef self) N
               numWorkers) h).2
  /\ coordinates_unchanged self o h
       (run (Heap.classicalMSDAnalysis os_cpu_count pool_order curve_fit
               (VRef self) fractionFitPoints nFitPoints linearPlot) h).2
  /\ coordinates_unchanged self o h (run (Heap.normalize (VRef self)) h).2.
Proof.
  intros Hs. split; [|split; [|split]]; apply preserved_coordinates;
    try exact Hs.
  - apply (triple_SD h _ _ h (preserved_refl h)).
  - apply (triple_calculateMSD h _ _ _ h (preserved_refl h)).
  - apply (triple_classicalMSDAnalysis h _ _ _ _ h (preserved_refl h)).
  - apply (triple_normalize h _ h (preserved_refl h)).
Qed.

End MethodFrames.

End HeapFacts.

Module HeapRefinement.
Import HeapSpec HeapFacts.

(** *** The object-level [SD] computes what [SD] computes *)

Lemma holds_weaken (h h' : gmap Heap.loc Heap.cell) (v : Heap.pyval) (d : list float64) :
  h ⊆ h' -> holds h v d -> holds h' v d.
Proof.
  intros Hs (l & -> & Hl). exists l. split; [reflexivity|].
  eapply lookup_weaken; eassumption.
Qed.

Lemma run_alloc_array (h : gmap Heap.loc Heap.cell) (d : list float64) :
  yields (Heap.arr_new d) h (Ok d).
Proof.
  assert (h !! fresh (dom h) = None) as Hf
    by (apply not_elem_of_dom, is_fresh).
  exists (<[fresh (dom h) := Heap.CArr (Heap.NdFloat d)]> h).
  split; [apply insert_subseteq; exact Hf|].
  eexists. split; [reflexivity|]. eexists. split; [reflexivity|].
  apply lookup_insert_eq.
Qed.

Lemma run_arr_data (h : gmap Heap.loc Heap.cell) (v : Heap.pyval) (d : list float64) :
  holds h v d -> Heap.run (Heap.arr_data v) h = (Ok d, h).
Proof.
  intros (l & -> & Hl). unfold Heap.arr_data. rewrite run_bind.
  unfold Heap.deref. cbn [Heap.run]. rewrite Hl. reflexivity.
Qed.

Lemma yields_np_array (h : gmap Heap.loc Heap.cell) (v : Heap.pyval) (d : list float64) :
  holds h v d -> yields (Heap.np_array v) h (Ok d).
Proof.
  intros (l & -> & Hl). destruct (run_alloc_array h d) as (h' & Hs & v & Hr & Hv).
  exists h'. split; [exact Hs|]. exists v. split; [|exact Hv].
  unfold Heap.np_array. cbn [Heap.run]. rewrite Hl. exact Hr.
Qed.

Lemma yields_arr_take (h : gmap Heap.loc Heap.cell) (a : Heap.pyval) (d : list float64)
    (idx : list Z) :
  holds h a d -> yields (Heap.arr_take a idx) h (np_take d idx).
Proof.
  intros Ha. unfold Heap.arr_take, yields.
  rewrite run_bind, (run_arr_data h a d Ha). rewrite run_bind. cbn [Heap.run Heap.lift_result].
  destruct (np_take d idx) as [r|e].
  - apply run_alloc_array.
  - exists h. split; reflexivity.
Qed.

Lemma yields_arr_binop (h : gmap Heap.loc Heap.cell)
    (f : float64 -> float64 -> float64) (a b : Heap.pyval) (da db : list float64) :
  holds h a da -> holds h b db ->
  yields (Heap.arr_binop f a b) h (np_broadcast f da db).
Proof.
  intros Ha Hb. unfold Heap.arr_binop, yields.
  rewrite run_bind, (run_arr_data h a da Ha).
  rewrite run_bind, (run_arr_data h b db Hb).
  rewrite run_bind. cbn [Heap.run Heap.lift_result].
  destruct (np_broadcast f da db) as [r|e].
  - apply run_alloc_array.
  - exists h. split; reflexivity.
Qed.

Lemma yields_arr_map (h : gmap Heap.loc Heap.cell) (f : float64 -> float64)
    (a : Heap.pyval) (d : list float64) :
  holds h a d -> yields (Heap.arr_map f a) h (Ok (map f d)).
Proof.
  intros Ha. unfold Heap.arr_map, yields.
  rewrite run_bind, (run_arr_data h a d Ha). apply run_alloc_array.
Qed.

Lemma yields_bind (m : Heap.heapM Heap.pyval) (f : Heap.pyval -> Heap.heapM Heap.pyval)
    (h : gmap Heap.loc Heap.cell) (r : result (list float64))
    (g : list float64 -> result (list float64)) :
  yields m h r ->
  (forall v h' d,
     r = Ok d -> h ⊆ h' -> holds h' v d -> yields (f v) h' (g d)) ->
  yields (m ≫= f) h (r ≫= g).
Proof.
  intros (h1 & Hs1 & Hm) Hf. destruct r as [d|e]; simpl.
  - destruct Hm as (v & Hrun & Hv).
    destruct (Hf v h1 d eq_refl Hs1 Hv) as (h2 & Hs2 & Hfv).
    exists h2. split; [etrans; eassumption|].
    rewrite run_bind, Hrun. exact Hfv.
  - exists h1. split; [exact Hs1|]. rewrite run_bind, Hm. reflexivity.
Qed.

Lemma yields_bind_ok (m : Heap.heapM Heap.pyval)
    (f : Heap.pyval -> Heap.heapM Heap.pyval) (h : gmap Heap.loc Heap.cell)
    (d : list float64) (r : result (list float64)) :
  yields m h (Ok d) ->
  (forall v h', h ⊆ h' -> holds h' v d -> yields (f v) h' r) ->
  yields (m ≫= f) h r.
Proof.
  intros Hm Hf.
  apply (yields_bind m f h (Ok d) (fun _ => r) Hm).
  intros v h' d' [= <-] Hs Hv. apply (Hf v h' Hs Hv).
Qed.

Lemma yields_squared_displacements (h : gmap Heap.loc Heap.cell) (pos_x pos_y : Heap.pyval)
    (xs ys : list float64) (idx_0 idx_t : list Z) :
  holds h pos_x xs -> holds h pos_y ys ->
  yields (Heap.squared_displacements pos_x pos_y idx_0 idx_t) h
         (squared_displacements xs ys idx_0 idx_t).
Proof.
  intros Hx Hy. unfold Heap.squared_displacements, squared_displacements.
  apply yields_bind; [apply yields_arr_take; exact Hx|].
  intros xt h1 dxt _ S1 Hxt.
  apply yields_bind;
    [apply yields_arr_take; eapply holds_weaken; eassumption|].
  intros x0 h2 dx0 _ S2 Hx0.
  apply yields_bind;
    [apply yields_arr_binop; [eapply holds_weaken; eassumption|exact Hx0]|].
  intros dx h3 ddx _ S3 Hdx.
  eapply yields_bind_ok; [apply yields_arr_map; exact Hdx|].
  intros dx2 h4 S4 Hdx2.
  assert (h ⊆ h4) as S04 by (repeat (etrans; [eassumption|]); reflexivity).
  apply yields_bind;
    [apply yields_arr_take; eapply holds_weaken; eassumption|].
  intros yt h5 dyt _ S5 Hyt.
  apply yields_bind;
    [apply yields_arr_take; eapply holds_weaken; [|exact Hy];
     etrans; eassumption|].
  intros y0 h6 dy0 _ S6 Hy0.
  apply yields_bind;
    [apply yields_arr_binop; [eapply holds_weaken; eassumption|exact Hy0]|].
  intros dy h7 ddy _ S7 Hdy.
  eapply yields_bind_ok; [apply yields_arr_map; exact Hdy|].
  intros dy2 h8 S8 Hdy2.
  apply yields_arr_binop; [|exact Hdy2].
  eapply holds_weaken; [|exact Hdx2].
  repeat (etrans; [eassumption|]); reflexivity.
Qed.

(** On a track object whose coordinate attributes refer to arrays holding
    [xs] and [ys], the object-level [SD] raises what [SD] raises on the
    track with these coordinates, or returns a reference to an array that
    holds what [SD] returns. *)
Lemma Heap_SD_computes_SD (h : gmap Heap.loc Heap.cell) (self : Heap.loc) (o : Heap.pyobj)
    (vx vy : Heap.pyval) (j : Z) (track : Track) :
  h !! self = Some (Heap.CObj o) ->
  Heap.attrs o !! "_x" = Some vx -> Heap.attrs o !! "_y" = Some vy ->
  holds h vx (_x track) -> holds h vy (_y track) ->
  match SD track j with
  | Ok sd =>
      exists l h', Heap.run (Heap.SD (Heap.VRef self) j) h = (Ok (Heap.VRef l), h') /\
                   h' !! l = Some (Heap.CArr (Heap.NdFloat sd))
  | Raise e => exists h', Heap.run (Heap.SD (Heap.VRef self) j) h = (Raise e, h')
  end.
Proof.
  intros Hs Ax Ay Hx Hy. unfold Heap.SD, SD.
  assert (Heap.run (Heap.getattr (Heap.VRef self) "_x") h = (Ok vx, h)) as Gx
    by (unfold Heap.getattr; cbn [Heap.run]; rewrite Hs, Ax; reflexivity).
  rewrite run_bind, Gx.
  assert (Heap.run (Heap.arr_size vx) h = (Ok (Z.of_nat (length (_x track))), h)) as Sx.
  { destruct Hx as (l & -> & Hl). unfold Heap.arr_size. cbn [Heap.run].
    rewrite Hl. reflexivity. }
  rewrite run_bind, Sx, run_bind, Gx, run_bind.
  destruct (yields_np_array h vx _ Hx) as (h1 & S1 & pos_x & -> & Hpx).
  assert (Heap.run (Heap.getattr (Heap.VRef self) "_y") h1 = (Ok vy, h1)) as Gy.
  { unfold Heap.getattr. cbn [Heap.run].
    rewrite (lookup_weaken _ _ _ _ Hs S1), Ay. reflexivity. }
  rewrite run_bind, Gy, run_bind.
  destruct (yields_np_array h1 vy (_y track)) as (h2 & S2 & pos_y & -> & Hpy);
    [eapply holds_weaken; eassumption|].
  rewrite run_bind.
  destruct (yields_squared_displacements h2 pos_x pos_y (_x track) (_y track)
              (np_arange 0 (Z.of_nat (length (_x track)) - j - 1))
              (map (fun i => i + j)
                   (np_arange 0 (Z.of_nat (length (_x track)) - j - 1))))
    as (h3 & S3 & Hsd); [eapply holds_weaken; eassumption|exact Hpy|].
  destruct (squared_displacements _ _ _ _) as [sd|e]; cbn [mbind result_bind].
  - destruct Hsd as (v & Hrun & l & -> & Hl). rewrite Hrun.
    rewrite HeapFacts.run_bind. unfold Heap.arr_sort. cbn [Heap.run].
    rewrite Hl. eexists. eexists. split; [reflexivity|].
    apply lookup_insert_eq.
  - rewrite Hsd. eexists. reflexivity.
Qed.

End HeapRefinement.

(** ** A run of [adc_analysis] that returns *)

Lemma BIC_same_length (pred target : list float64) (k : Z) :
  length pred = length target -> exists b, BIC pred target k 1 = Ok b.
Proof.
  intros H. rewrite BIC_n_1. unfold RSS. rewrite np_broadcast_same by exact H.
  eexists. reflexivity.
Qed.

Lemma py_slice_to_length {A} (a b : list A) (n : Z) :
  length a = length b -> length (py_slice_to a n) = length (py_slice_to b n).
Proof.
  intros H. unfold py_slice_to. rewrite H.
  destruct (n <? 0); rewrite !length_take, H; reflexivity.
Qed.

Lemma call_model_zero (m : model) (T : list float64) :
  call_model m T (replicate (arity m) (Fin 0))
  = Ok (map (eval m (replicate (arity m) (Fin 0))) T).
Proof.
  unfold call_model. rewrite length_replicate.
  destruct (decide (arity m = arity m)); [reflexivity|congruence].
Qed.

Lemma adc_select_zero_fit (R dt : float64) (maxfev : Z)
    (this_msd_error : list float64) (n_points : Z) (T Dapp : list float64) :
  length T = length Dapp ->
  0 <= n_points < Z.of_nat (length T) ->
  exists category,
    outcome (adc_select zero_fit R dt maxfev this_msd_error n_points T Dapp)
    = Ok category.
Proof.
  intros HL Hn. unfold adc_select, adc_fit, zero_fit.
  rewrite !bind_lift_Ok, !call_model_zero, !bind_lift_Ok.
  destruct (BIC_same_length
              (py_slice_to (map (eval (model_brownian R dt)
                                   (replicate 2 (Fin 0))) T) n_points)
              (py_slice_to Dapp n_points) (Z.of_nat 2)) as [bb Hbb];
    [apply py_slice_to_length; rewrite length_map; exact HL|].
  destruct (BIC_same_length
              (py_slice_to (map (eval (model_confined R dt)
                                   (replicate 3 (Fin 0))) T) n_points)
              (py_slice_to Dapp n_points) (Z.of_nat 3)) as [bc Hbc];
    [apply py_slice_to_length; rewrite length_map; exact HL|].
  destruct (BIC_same_length
              (py_slice_to (map (eval (model_hop R dt)
                                   (replicate 4 (Fin 0))) T) n_points)
              (py_slice_to Dapp n_points) (Z.of_nat 4)) as [bh Hbh];
    [apply py_slice_to_length; rewrite length_map; exact HL|].
  cbn [arity model_brownian model_confined model_hop].
  rewrite !length_replicate.
  rewrite Hbb, bind_lift_Ok, Hbc, bind_lift_Ok, Hbh, bind_lift_Ok.
  destruct (np_getitem_inrange T 0) as (t0 & Ht0 & _); [lia|].
  destruct (np_getitem_inrange T n_points) as (tn & Htn & _); [lia|].
  rewrite Ht0, Htn. eexists. rewrite !outcome_bind. reflexivity.
Qed.

Lemma adc_analysis_zero_fit_returns :
  exists msd_list D_app_list model_list,
    outcome (adc_analysis zero_fit (fun track => Ok track) flat_MSD
               [still_track] (Fin (1 / 6)) None false 1000)
    = Ok (msd_list, D_app_list, model_list)
    /\ msd_list = [(replicate 8 (Fin 0), replicate 8 (Fin 1),
                    F.sub (Fin 1) (Fin 0))].
Proof.
  unfold adc_analysis. rewrite outcome_bind. cbn [outcome lift traverse].
  unfold adc_msd_entry. cbn [mbind result_bind].
  rewrite still_track_x. cbn [mbind result_bind].
  rewrite still_track_y. cbn [mbind result_bind].
  unfold flat_MSD at 1. cbn [mbind result_bind].
  rewrite still_track_t. cbn [mbind result_bind].
  change (np_getitem [Fin 0; Fin 1] 1) with (Ok (Fin 1)).
  change (np_getitem [Fin 0; Fin 1] 0) with (Ok (Fin 0)).
  cbn [mbind result_bind].
  rewrite outcome_bind. cbn [io_for]. rewrite outcome_bind.
  unfold adc_classify.
  destruct (adc_fit_range_default_lengths (Fin (1 / 6)) (replicate 8 (Fin 0))
              (F.sub (Fin 1) (Fin 0))) as (T & Dapp & -> & HT & HD);
    [rewrite length_replicate; lia|].
  rewrite length_replicate in HT, HD.
  rewrite bind_lift_Ok, outcome_bind.
  destruct (adc_select_zero_fit (Fin (1 / 6)) (F.sub (Fin 1) (Fin 0)) 1000
              (replicate 8 (Fin 1))
              (Z.of_nat (length (replicate 8 (Fin 0))) / 4) T Dapp)
    as [c Hc]; [congruence| |].
  { rewrite length_replicate, HT. change (Z.of_nat 8 / 4) with 2. lia. }
  rewrite Hc. cbn [outcome mret io_ret]. rewrite outcome_bind.
  cbn [outcome mret io_ret map fst snd].
  do 3 eexists. split; reflexivity.
Qed.

(** ** Instances

    Each statement above that has premises is applied here to concrete
    data, which shows that the premises can be met. *)

Lemma reverse_order_runs_every_task (n : nat) :
  Permutation (reverse_order n) (seq 0 n).
Proof. apply Permutation_sym, Permutation_rev. Defined.


(** C3 on the six-point trajectory (lags 1 to 3), one worker against four
    workers that complete the lags in reverse order. *)
Lemma calculateMSD_sequential_parallel_witness :
  calculateMSD 8 reverse_order track_of_six None (Some 1)
  = calculateMSD 8 reverse_order track_of_six None (Some 4)
  /\ forall self',
       calculateMSD 8 reverse_order track_of_six None (Some 4) = Ok self' ->
       exists msd err,
         _MSD self' = Some msd /\ _MSD_error self' = Some err /\
         forall i, 1 <= i <= effective_N track_of_six None - 3 ->
           exists m e,
             MSD_loop i (_x track_of_six) (_y track_of_six)
                      (effective_N track_of_six None) = Ok (m, e) /\
             msd !! Z.to_nat (i - 1) = Some m /\
             err !! Z.to_nat (i - 1) = Some e.
Proof.
  apply (calculateMSD_sequential_parallel 8 reverse_order
           reverse_order_runs_every_task track_of_six None 1 4); lia.
Defined.



(** C7 on the six-point trajectory. *)
Lemma calculateMSD_curve_length_witness :
  exists self' msd err,
    calculateMSD 8 reverse_order track_of_six None None = Ok self' /\
    _MSD self' = Some msd /\ _MSD_error self' = Some err /\
    Z.of_nat (length msd) = 6 - 3 /\ Z.of_nat (length err) = 6 - 3.
Proof.
  apply (calculateMSD_curve_length 8 reverse_order
           reverse_order_runs_every_task track_of_six 6 None);
    [reflexivity|reflexivity|lia].
Defined.

(** C8 on the example trajectory at lag 1. *)
Lemma SD_sorted_ascending_length_witness :
  exists sd,
    SD track_0111 1 = Ok sd /\ _calculate_sd_at track_0111 1 = Ok sd /\
    Z.of_nat (length sd) = 4 - 1 - 1 /\ Sorted np_le sd /\
    Permutation (map (displacement (_x track_0111) (_y track_0111) 1)
                     (np_arange 0 (4 - 1 - 1))) sd.
Proof.
  apply (SD_sorted_ascending_length track_0111 4 1);
    [reflexivity|reflexivity|lia].
Defined.

(** C9 on a flat 40-point curve with fits that return zeros. *)
Lemma classicalMSDAnalysis_fraction_above_one_witness :
  let r := classicalMSDAnalysis 8 reverse_order zero_fit
             track_with_40_point_curve (Fin (11 / 10)) None false in
  (exists e, outcome r = Raise e)
  /\ In (Warn too_many_points) (events r)
  /\ exists T,
       np_linspace (F.of_Z 1) (F.of_Z 40) 40 = Ok T /\
       length T = 40%nat /\
       forall p1 p2,
         zero_fit model1 T (replicate 40 (Fin 1)) None (replicate 40 (Fin 1))
                  None = Ok p1 ->
         zero_fit model2 T (replicate 40 (Fin 1))
                  (Some (py_slice_to p1 2 ++ [Fin 1]))
                  (replicate 40 (Fin 1)) None = Ok p2 ->
         length p1 = 2%nat -> length p2 = 3%nat ->
         outcome r = Raise IndexError.
Proof.
  apply (classicalMSDAnalysis_fraction_above_one 8 reverse_order zero_fit
           track_with_40_point_curve (replicate 40 (Fin 1))
           (replicate 40 (Fin 1)) false);
    reflexivity.
Defined.

(** C10 on the store with one track. *)
Lemma track_methods_leave_coordinates_unchanged_witness :
  let h := HeapSpec.one_track_store in
  let o := HeapSpec.track_object in
  let self := Heap.VRef 1%positive in
  HeapSpec.coordinates_unchanged 1%positive o h
    (Heap.run (Heap.SD self 1) h).2
  /\ HeapSpec.coordinates_unchanged 1%positive o h
       (Heap.run (Heap.calculateMSD 8 reverse_order self None (Some 1)) h).2
  /\ HeapSpec.coordinates_unchanged 1%positive o h
       (Heap.run (Heap.classicalMSDAnalysis 8 reverse_order zero_fit self
                    (Fin (1 / 4)) None false) h).2
  /\ HeapSpec.coordinates_unchanged 1%positive o h
       (Heap.run (Heap.normalize self) h).2.
Proof.
  apply (HeapFacts.track_methods_leave_coordinates_unchanged 8 reverse_order
           zero_fit HeapSpec.one_track_store 1%positive HeapSpec.track_object
           1 None (Some 1) None (Fin (1 / 4)) false).
  unfold HeapSpec.one_track_store. apply lookup_insert_eq.
Defined.

(** * Further properties *)

(** ** Squared displacements at the edges *)

Lemma py_range_nil (a b : Z) : b <= a -> py_range a b = [].
Proof.
  intros H. unfold py_range. replace (Z.to_nat (b - a)) with 0%nat by lia.
  reflexivity.
Qed.

Lemma py_range_cons (a b : Z) :
  a < b -> py_range a b = a :: py_range (a + 1) b.
Proof.
  intros H. unfold py_range.
  replace (Z.to_nat (b - a)) with (S (Z.to_nat (b - (a + 1)))) by lia.
  cbn [seq map]. f_equal; [lia|].
  rewrite <- seq_shift, map_map. apply map_ext. intros k. lia.
Qed.

Lemma SD_empty_beyond (self : Track) (j : Z) :
  Z.of_nat (length (_x self)) - 1 <= j -> SD self j = Ok [].
Proof.
  intros H. unfold SD, np_arange. rewrite py_range_nil by lia. reflexivity.
Qed.

(** X1.  A lag at or beyond the last index is not rejected: for
    [j >= N - 1], whatever the arrays hold, [Track.SD] and
    [_calculate_sd_at] return the empty array. *)
Theorem SD_lag_beyond_last_index (self : Track) (j : Z) :
  Z.of_nat (length (_x self)) - 1 <= j ->
  SD self j = Ok [] /\ _calculate_sd_at self j = Ok [].
Proof.
  intros H. change (_calculate_sd_at self j) with (SD self j).
  split; apply SD_empty_beyond, H.
Qed.

Lemma at_index_app_l (a : list float64) (v : float64) (k : Z) :
  0 <= k < Z.of_nat (length a) -> at_index (a ++ [v]) k = at_index a k.
Proof.
  intros H. unfold at_index. apply app_nth1. lia.
Qed.

Lemma at_index_cons (a : list float64) (v : float64) (k : Z) :
  1 <= k -> at_index (v :: a) k = at_index a (k - 1).
Proof.
  intros H. unfold at_index.
  replace (Z.to_nat k) with (S (Z.to_nat (k - 1))) by lia. reflexivity.
Qed.

(** X2.  [Track.SD] never reads the last point of the trajectory: two
    trajectories that differ only in their last point have the same
    squared displacements at every lag [j >= 0]. *)
Theorem SD_ignores_last_point (x y t t' : list float64) (a a' b b' : float64)
    (M E M' E' : option (list float64)) (j : Z) :
  length y = length x -> 0 <= j ->
  SD (mkTrack (x ++ [a]) (y ++ [b]) t M E) j
  = SD (mkTrack (x ++ [a']) (y ++ [b']) t' M' E') j.
Proof.
  intros Hy Hj. rewrite !SD_inrange by (cbn [_x _y]; rewrite ?length_app; simpl; lia).
  cbn [_x _y]. rewrite !length_app. cbn [length]. do 2 f_equal.
  apply map_ext_in. intros i Hi. apply py_range_In in Hi.
  unfold displacement. rewrite !at_index_app_l by lia. reflexivity.
Qed.

Lemma SD_lag_beyond_last_index_witness :
  SD track_0111 3 = Ok [] /\ _calculate_sd_at track_0111 3 = Ok [].
Proof.
  apply (SD_lag_beyond_last_index track_0111 3).
  unfold track_0111, Track_init. cbn [_x length]. lia.
Defined.

Lemma SD_ignores_last_point_witness :
  SD (mkTrack ([Fin 0; Fin 1] ++ [Fin 2]) ([Fin 0; Fin 0] ++ [Fin 0])
              [] None None) 1
  = SD (mkTrack ([Fin 0; Fin 1] ++ [Fin 7]) ([Fin 0; Fin 0] ++ [Fin 9])
                [] None None) 1.
Proof.
  apply (SD_ignores_last_point [Fin 0; Fin 1] [Fin 0; Fin 0] [] []
           (Fin 2) (Fin 7) (Fin 0) (Fin 9) None None None None 1);
    [reflexivity|lia].
Defined.

(** ** The curve of [calculateMSD] *)

Lemma py_range_lookup (a b : Z) (k : nat) :
  Z.of_nat k < b - a -> py_range a b !! k = Some (a + Z.of_nat k).
Proof.
  intros H. unfold py_range. change (map ?g ?l) with (g <$> l).
  rewrite list_lookup_fmap, (lookup_seq_lt 0 _ k) by lia. reflexivity.
Qed.

Lemma np_getitem_Ok_inrange {A} (a : list A) (i : Z) (v : A) :
  np_getitem a i = Ok v ->
  - Z.of_nat (length a) <= i < Z.of_nat (length a).
Proof.
  unfold np_getitem. cbv zeta.
  destruct (andb _ _) eqn:E; [|discriminate]. intros _.
  apply andb_true_iff in E. destruct E as [E1 E2].
  apply Z.leb_le in E1. apply Z.ltb_lt in E2.
  destruct (Z.ltb_spec i 0); lia.
Qed.

Lemma np_take_Ok_inrange {A} (a : list A) (idx : list Z) (vs : list A) :
  np_take a idx = Ok vs ->
  forall i, In i idx -> - Z.of_nat (length a) <= i < Z.of_nat (length a).
Proof.
  unfold np_take. revert vs. induction idx as [|k idx IH]; intros vs H i Hi;
    [destruct Hi|].
  simpl in H. destruct (np_getitem a k) as [v|] eqn:Hk; [|discriminate].
  simpl in H. destruct (traverse (np_getitem a) idx) as [vs'|] eqn:Hr;
    [|discriminate].
  destruct Hi as [<-|Hi].
  - eapply np_getitem_Ok_inrange. exact Hk.
  - apply (IH vs' eq_refl i Hi).
Qed.

Lemma np_take_beyond {A} (a : list A) (idx : list Z) (i : Z) :
  In i idx -> Z.of_nat (length a) <= i -> np_take a idx = Raise IndexError.
Proof.
  intros Hi Hge. destruct (np_take_cases a idx) as [(vs & Hvs & _)|H];
    [|exact H].
  pose proof (np_take_Ok_inrange a idx vs Hvs i Hi). lia.
Qed.

Lemma lag_sample_inner (x y : list float64) (a b c d a' b' c' d' : float64)
    (i : Z) :
  length y = length x -> 1 <= i ->
  lag_sample (a :: x ++ [b]) (c :: y ++ [d]) (Z.of_nat (length x) + 2) i
  = lag_sample (a' :: x ++ [b']) (c' :: y ++ [d']) (Z.of_nat (length x) + 2) i.
Proof.
  intros Hy Hi. unfold lag_sample. apply map_ext_in. intros k Hk.
  apply py_range_In in Hk. unfold displacement.
  rewrite !at_index_cons by lia. rewrite !at_index_app_l by lia.
  reflexivity.
Qed.

Lemma MSD_loop_beyond (i : Z) (pos_x pos_y : list float64) (N : Z) :
  1 <= i <= N - 3 -> Z.of_nat (length pos_x) + 2 <= N ->
  MSD_loop i pos_x pos_y N = Raise IndexError.
Proof.
  intros Hi HN. unfold MSD_loop, squared_displacements. cbv zeta.
  rewrite (np_take_beyond pos_x
             (map (fun k => k + i) (np_arange 1 (N - i - 1))) (N - 2));
    [reflexivity| |lia].
  apply in_map_iff. exists (N - 2 - i). split; [lia|].
  apply py_range_In. lia.
Qed.

Section CurveFacts.

Variable os_cpu_count : Z.
Variable pool_order : nat -> list nat.
Hypothesis pool_runs_every_task :
  forall n, Permutation (pool_order n) (seq 0 n).

(** X3.  [calculateMSD] reads neither the first nor the last point of the
    trajectory: two trajectories that differ only in these two points get
    the same MSD and MSD_error arrays (or the same exception). *)
Theorem calculateMSD_ignores_first_and_last_point
    (x y t t' : list float64) (a a' b b' c c' d d' : float64)
    (numWorkers : option Z) :
  length y = length x ->
  curves_of (calculateMSD os_cpu_count pool_order
               (track_of (a :: x ++ [b]) (c :: y ++ [d]) t) None numWorkers)
  = curves_of (calculateMSD os_cpu_count pool_order
                 (track_of (a' :: x ++ [b']) (c' :: y ++ [d']) t') None
                 numWorkers).
Proof.
  intros Hy. rewrite !calculateMSD_closed_form by assumption.
  unfold calculateMSD_spec, effective_N, track_of, Track_init.
  cbn [_x _y _t length]. rewrite !length_app. cbn [length].
  replace (Z.of_nat (S (length x + 1))) with (Z.of_nat (length x) + 2) by lia.
  destruct (_ <? 0); [reflexivity|].
  rewrite (traverse_ext
             (fun i => MSD_loop i (a :: x ++ [b]) (c :: y ++ [d])
                                (Z.of_nat (length x) + 2))
             (fun i => MSD_loop i (a' :: x ++ [b']) (c' :: y ++ [d'])
                                (Z.of_nat (length x) + 2))).
  - destruct (traverse _ _); reflexivity.
  - intros i Hi. apply py_range_In in Hi.
    rewrite !MSD_loop_inrange
      by (cbn [length]; rewrite ?length_app; cbn [length]; lia).
    rewrite (lag_sample_inner x y a b c d a' b' c' d') by lia. reflexivity.
Qed.

(** X4.  What [SD] sorts at lag [i] is the squared displacement of the
    pair [(0, i)] together with the sample that [calculateMSD] averages
    into entry [i - 1] of its curve: the curve entry is the mean, and the
    error entry the standard error, of the squared displacements of the
    pairs [(k, k + i)] for [k = 1 .. N-i-2]. *)
Theorem SD_is_first_pair_and_MSD_sample (self : Track)
    (numWorkers : option Z) (i : Z) :
  length (_y self) = length (_x self) ->
  1 <= i <= Z.of_nat (length (_x self)) - 3 ->
  let N := Z.of_nat (length (_x self)) in
  let sample := lag_sample (_x self) (_y self) N i in
  exists sd self' msd err,
    SD self i = Ok sd /\
    calculateMSD os_cpu_count pool_order self None numWorkers = Ok self' /\
    _MSD self' = Some msd /\ _MSD_error self' = Some err /\
    Permutation sd (displacement (_x self) (_y self) i 0 :: sample) /\
    Z.of_nat (length sample) = N - i - 2 /\
    msd !! Z.to_nat (i - 1) = Some (np_mean sample) /\
    err !! Z.to_nat (i - 1) = Some (standard_error sample).
Proof.
  intros Hy Hi N sample. subst N sample.
  rewrite SD_inrange by lia. rewrite calculateMSD_default by (assumption || lia).
  do 4 eexists. split; [reflexivity|]. split; [reflexivity|].
  cbn [_MSD _MSD_error]. split; [reflexivity|]. split; [reflexivity|].
  split; [|split; [|split]].
  - rewrite <- np_sort_perm. unfold np_arange, lag_sample.
    rewrite (py_range_cons 0) by lia. reflexivity.
  - rewrite lag_sample_length. lia.
  - change (map ?g ?l) with (g <$> l).
    rewrite list_lookup_fmap, py_range_lookup by lia.
    cbn [fmap option_fmap option_map]. do 3 f_equal. lia.
  - change (map ?g ?l) with (g <$> l).
    rewrite list_lookup_fmap, py_range_lookup by lia.
    cbn [fmap option_fmap option_map]. do 3 f_equal. lia.
Qed.

(** X5.  A maximum lag [N] that exceeds the trajectory by two points or
    more is not clipped: for [N >= 4] and [N >= len(x) + 2] the call
    raises [IndexError], in the sequential and in the parallel branch. *)
Theorem calculateMSD_max_lag_beyond_track (self : Track) (N : Z)
    (numWorkers : option Z) :
  4 <= N -> Z.of_nat (length (_x self)) + 2 <= N ->
  calculateMSD os_cpu_count pool_order self (Some N) numWorkers
  = Raise IndexError.
Proof.
  intros H4 HN. rewrite calculateMSD_closed_form by assumption.
  unfold calculateMSD_spec, effective_N.
  destruct (Z.ltb_spec (N - 3) 0); [lia|].
  rewrite (py_range_cons 1) by lia. cbn [traverse].
  rewrite MSD_loop_beyond by lia. reflexivity.
Qed.

End CurveFacts.

Lemma executor_map_nil {A B} (pool_order : nat -> list nat)
    (f : A -> result B) :
  executor_map pool_order f [] = Ok [].
Proof.
  unfold executor_map. cbn [length replicate].
  generalize (pool_order 0%nat). intros l.
  induction l as [|k l IH]; [reflexivity|]. exact IH.
Qed.

(** X6.  Short trajectories: with fewer than three points [calculateMSD]
    raises [ValueError] (the array of negative size); with exactly three
    points it returns two empty arrays, whatever the number of workers and
    whatever the order in which the pool runs. *)
Theorem calculateMSD_short_trajectory (os_cpu_count : Z)
    (pool_order : nat -> list nat) (self : Track) (numWorkers : option Z) :
  ((length (_x self) < 3)%nat ->
   calculateMSD os_cpu_count pool_order self None numWorkers
   = Raise ValueError)
  /\ (length (_x self) = 3%nat ->
      calculateMSD os_cpu_count pool_order self None numWorkers
      = Ok {| _x := _x self; _y := _y self; _t := _t self;
              _MSD := Some []; _MSD_error := Some [] |}).
Proof.
  split; intros H; unfold calculateMSD, np_zeros.
  - destruct (Z.ltb_spec (Z.of_nat (length (_x self)) - 3) 0); [|lia].
    reflexivity.
  - rewrite H. change (Z.of_nat 3 - 3) with 0. change (Z.of_nat 3 - 2) with 1.
    change (py_range 1 1) with (@nil Z). rewrite executor_map_nil.
    cbn. destruct (1 <? _); reflexivity.
Qed.

Lemma calculateMSD_ignores_first_and_last_point_witness :
  curves_of (calculateMSD 8 reverse_order
               (track_of (Fin 0 :: [Fin 1; Fin 3] ++ [Fin 6])
                         (Fin 0 :: [Fin 0; Fin 0] ++ [Fin 0]) [])
               None None)
  = curves_of (calculateMSD 8 reverse_order
                 (track_of (Fin 5 :: [Fin 1; Fin 3] ++ [Fin 9])
                           (Fin 2 :: [Fin 0; Fin 0] ++ [Fin 4]) [])
                 None None).
Proof.
  apply (calculateMSD_ignores_first_and_last_point 8 reverse_order
           reverse_order_runs_every_task [Fin 1; Fin 3] [Fin 0; Fin 0] [] []
           (Fin 0) (Fin 5) (Fin 6) (Fin 9) (Fin 0) (Fin 2) (Fin 0) (Fin 4)
           None).
  reflexivity.
Defined.

Lemma SD_is_first_pair_and_MSD_sample_witness :
  exists sd self' msd err,
    SD track_of_six 2 = Ok sd /\
    calculateMSD 8 reverse_order track_of_six None None = Ok self' /\
    _MSD self' = Some msd /\ _MSD_error self' = Some err /\
    Permutation sd
      (displacement (_x track_of_six) (_y track_of_six) 2 0
       :: lag_sample (_x track_of_six) (_y track_of_six) 6 2) /\
    Z.of_nat (length (lag_sample (_x track_of_six) (_y track_of_six) 6 2))
    = 6 - 2 - 2 /\
    msd !! Z.to_nat (2 - 1)
    = Some (np_mean (lag_sample (_x track_of_six) (_y track_of_six) 6 2)) /\
    err !! Z.to_nat (2 - 1)
    = Some (standard_error
              (lag_sample (_x track_of_six) (_y track_of_six) 6 2)).
Proof.
  apply (SD_is_first_pair_and_MSD_sample 8 reverse_order
           reverse_order_runs_every_task track_of_six None 2);
    [reflexivity|].
  unfold track_of_six, Track_init. cbn [_x length]. lia.
Defined.

Lemma calculateMSD_max_lag_beyond_track_witness :
  calculateMSD 8 reverse_order track_0111 (Some 6) None = Raise IndexError.
Proof.
  apply (calculateMSD_max_lag_beyond_track 8 reverse_order
           reverse_order_runs_every_task track_0111 6 None); [lia|].
  unfold track_0111, Track_init. cbn [_x length]. lia.
Defined.

Lemma calculateMSD_short_trajectory_witness :
  calculateMSD 8 reverse_order (Track_init [Fin 0; Fin 1] [Fin 0; Fin 0] [])
               None None
  = Raise ValueError
  /\ calculateMSD 8 reverse_order
       (Track_init [Fin 0; Fin 1; Fin 2] [Fin 0; Fin 0; Fin 0] []) None None
     = Ok {| _x := [Fin 0; Fin 1; Fin 2]; _y := [Fin 0; Fin 0; Fin 0];
             _t := []; _MSD := Some []; _MSD_error := Some [] |}.
Proof.
  split.
  - apply (proj1 (calculateMSD_short_trajectory 8 reverse_order
                    (Track_init [Fin 0; Fin 1] [Fin 0; Fin 0] []) None)).
    cbn [Track_init _x length]. lia.
  - apply (proj2 (calculateMSD_short_trajectory 8 reverse_order
                    (Track_init [Fin 0; Fin 1; Fin 2]
                                [Fin 0; Fin 0; Fin 0] []) None)).
    reflexivity.
Defined.

(** ** Values of the curve on finite coordinates *)

Lemma nonneg_finite_intro (x : float64) :
  is_finite x -> sum_of_squares_value x -> nonneg_finite x.
Proof. destruct x; simpl; tauto. Qed.

Lemma nonneg_finite_is_finite (x : float64) : nonneg_finite x -> is_finite x.
Proof. destruct x; simpl; tauto. Qed.

Lemma displacement_value (pos_x pos_y : list float64) (j i : Z) :
  sum_of_squares_value (displacement pos_x pos_y j i).
Proof. unfold displacement. apply add_value; apply square_value. Qed.

Lemma np_sum_nonneg_finite (l : list float64) :
  Forall nonneg_finite l -> nonneg_finite (np_sum l).
Proof.
  unfold np_sum.
  assert (forall acc, nonneg_finite acc -> Forall nonneg_finite l ->
            nonneg_finite (fold_left F.add l acc)) as H.
  { induction l as [|x l IH]; intros acc Hacc Hl; simpl; [exact Hacc|].
    inversion Hl as [|? ? Hx Hl']; subst. apply IH; [|exact Hl'].
    destruct acc, x; simpl in *; try tauto. lra. }
  intros Hl. apply H; [simpl; lra|exact Hl].
Qed.

Lemma np_sum_finite (l : list float64) :
  Forall is_finite l -> is_finite (np_sum l).
Proof.
  unfold np_sum.
  assert (forall acc, is_finite acc -> Forall is_finite l ->
            is_finite (fold_left F.add l acc)) as H.
  { induction l as [|x l IH]; intros acc Hacc Hl; simpl; [exact Hacc|].
    inversion Hl as [|? ? Hx Hl']; subst. apply IH; [|exact Hl'].
    destruct acc, x; simpl in *; tauto. }
  intros Hl. apply H; [exact I|exact Hl].
Qed.

Lemma INR_length_pos {A} (l : list A) : l <> [] -> (0 < INR (length l))%R.
Proof.
  intros H. apply lt_0_INR. destruct l; [congruence|simpl; lia].
Qed.

Lemma np_mean_nonneg_finite (l : list float64) :
  l <> [] -> Forall nonneg_finite l -> nonneg_finite (np_mean l).
Proof.
  intros Hne Hl. unfold np_mean, F.of_nat.
  pose proof (np_sum_nonneg_finite l Hl) as Hs.
  pose proof (INR_length_pos l Hne) as Hn.
  destruct (np_sum l) as [s| | |]; simpl in Hs; try tauto.
  unfold F.div. destruct (Req_dec_T _ 0) as [E|_]; [lra|].
  simpl. apply Rmult_le_pos; [exact Hs|].
  apply Rlt_le, Rinv_0_lt_compat, Hn.
Qed.

Lemma np_mean_finite (l : list float64) :
  l <> [] -> Forall is_finite l -> is_finite (np_mean l).
Proof.
  intros Hne Hl. unfold np_mean, F.of_nat.
  pose proof (np_sum_finite l Hl) as Hs.
  pose proof (INR_length_pos l Hne) as Hn.
  destruct (np_sum l) as [s| | |]; simpl in Hs; try tauto.
  unfold F.div. destruct (Req_dec_T _ 0) as [E|_]; [lra|exact I].
Qed.

Lemma np_std_nonneg_finite (l : list float64) :
  l <> [] -> Forall is_finite l -> nonneg_finite (np_std l).
Proof.
  intros Hne Hl. unfold np_std. cbv zeta.
  pose proof (np_mean_finite l Hne Hl) as Hm.
  destruct (np_mean l) as [m| | |]; simpl in Hm; try tauto.
  assert (nonneg_finite
            (np_mean (map (fun x => F.square (F.sub x (Fin m))) l))) as Hv.
  { apply np_mean_nonneg_finite.
    - destruct l; [congruence|discriminate].
    - apply Forall_forall. intros d (x & <- & Hx)%list_elem_of_In%in_map_iff.
      rewrite Forall_forall in Hl. apply list_elem_of_In, Hl in Hx.
      destruct x; simpl in Hx; try tauto.
      unfold F.square. simpl.
      match goal with |- (0 <= ?a * ?a)%R => exact (Rle_0_sqr a) end. }
  destruct (np_mean (map _ l)) as [v| | |]; simpl in Hv; try tauto.
  unfold F.sqrt. destruct (Rlt_dec v 0) as [E|_]; [lra|].
  simpl. apply sqrt_pos.
Qed.

Lemma standard_error_nonneg_finite (l : list float64) :
  l <> [] -> Forall is_finite l -> nonneg_finite (standard_error l).
Proof.
  intros Hne Hl. unfold standard_error.
  pose proof (np_std_nonneg_finite l Hne Hl) as Hs.
  pose proof (INR_length_pos l Hne) as Hn.
  destruct (np_std l) as [s| | |]; simpl in Hs; try tauto.
  unfold F.of_nat, F.sqrt. destruct (Rlt_dec _ 0) as [E|_]; [lra|].
  unfold F.div.
  pose proof (sqrt_lt_R0 _ Hn) as Hq.
  destruct (Req_dec_T _ 0) as [E|_]; [lra|].
  simpl. apply Rmult_le_pos; [exact Hs|].
  apply Rlt_le, Rinv_0_lt_compat, Hq.
Qed.

Lemma lag_sample_nonneg_finite (pos_x pos_y : list float64) (N i : Z) :
  length pos_y = length pos_x ->
  Forall is_finite pos_x -> Forall is_finite pos_y ->
  1 <= i -> N <= Z.of_nat (length pos_x) + 1 ->
  Forall nonneg_finite (lag_sample pos_x pos_y N i).
Proof.
  intros Hy Fx Fy Hi HN. apply Forall_forall.
  intros d (k & <- & Hk)%list_elem_of_In%in_map_iff.
  apply py_range_In in Hk. apply nonneg_finite_intro.
  - apply displacement_finite; try assumption; lia.
  - apply displacement_value.
Qed.

Lemma lag_sample_nonempty (pos_x pos_y : list float64) (N i : Z) :
  i <= N - 3 -> lag_sample pos_x pos_y N i <> [].
Proof.
  intros Hi E. pose proof (lag_sample_length pos_x pos_y N i) as H.
  rewrite E in H. simpl in H. lia.
Qed.

Lemma calculateMSD_returns_length (os_cpu_count : Z)
    (pool_order : nat -> list nat) (self self' : Track)
    (numWorkers : option Z) :
  calculateMSD os_cpu_count pool_order self None numWorkers = Ok self' ->
  3 <= Z.of_nat (length (_x self)).
Proof.
  unfold calculateMSD, np_zeros.
  destruct (Z.ltb_spec (Z.of_nat (length (_x self)) - 3) 0); [|lia].
  discriminate.
Qed.

Lemma mean_singleton (r : R) : np_mean [Fin r] = Fin r.
Proof.
  unfold np_mean, np_sum, F.div, F.of_nat. simpl.
  destruct (Req_dec_T 1 0) as [H|_]; [lra|]. f_equal. field.
Qed.

Lemma standard_error_singleton (r : R) : standard_error [Fin r] = Fin 0.
Proof.
  unfold standard_error, np_std. rewrite mean_singleton.
  change (map _ [Fin r]) with [F.square (F.sub (Fin r) (Fin r))].
  replace (F.square (F.sub (Fin r) (Fin r))) with (Fin 0)
    by (unfold F.square; simpl; f_equal; ring).
  rewrite mean_singleton. unfold F.sqrt, F.of_nat. simpl.
  destruct (Rlt_dec 0 0) as [H|_]; [lra|].
  destruct (Rlt_dec 1 0) as [H|_]; [lra|].
  rewrite sqrt_0, sqrt_1. unfold F.div.
  destruct (Req_dec_T 1 0) as [H|_]; [lra|]. f_equal. field.
Qed.

Section CurveValues.

Variable os_cpu_count : Z.
Variable pool_order : nat -> list nat.
Hypothesis pool_runs_every_task :
  forall n, Permutation (pool_order n) (seq 0 n).



End CurveValues.

Lemma track_of_six_finite :
  Forall is_finite (_x track_of_six) /\ Forall is_finite (_y track_of_six).
Proof. split; repeat constructor. Qed.



(** ** Model selection *)

Lemma ltb_nan_r (x : float64) : F.ltb x NaN = false.
Proof. destruct x; reflexivity. Qed.

Lemma eqb_refl_not_nan (x : float64) : x <> NaN -> F.eqb x x = true.
Proof.
  destruct x as [r| | |]; simpl; try reflexivity; [|congruence].
  intros _. destruct (Req_dec_T r r) as [_|H]; [reflexivity|lra].
Qed.

Lemma ltb_not_nan (x y : float64) : F.ltb x y = true -> x <> NaN.
Proof. destruct x; simpl; congruence. Qed.

(** X9.  The category chain of [adc_analysis] answers "unknown" exactly
    when the BIC of the Brownian model is [nan]: a [nan] BIC of the
    confined or of the hop model is passed over silently, and a [nan] BIC
    of the Brownian model hides the two other models. *)
Theorem category_of_unknown_iff_brownian_nan
    (bic_brownian bic_confined bic_hop : float64) :
  category_of bic_brownian bic_confined bic_hop = "unknown"
  <-> bic_brownian = NaN.
Proof.
  unfold category_of, py_min. cbn [fold_left]. split.
  - intros H.
    assert (bic_brownian = NaN \/ bic_brownian <> NaN) as [E|E]
      by (destruct bic_brownian; (left; reflexivity) || (right; discriminate)).
    { exact E. }
    exfalso.
    destruct (F.ltb bic_confined bic_brownian) eqn:H1;
      [destruct (F.ltb bic_hop bic_confined) eqn:H2
      |destruct (F.ltb bic_hop bic_brownian) eqn:H2].
    + rewrite (eqb_refl_not_nan bic_hop) in H
        by (eapply ltb_not_nan; exact H2).
      repeat destruct (F.eqb _ _); discriminate.
    + rewrite (eqb_refl_not_nan bic_confined) in H
        by (eapply ltb_not_nan; exact H1).
      repeat destruct (F.eqb _ _); discriminate.
    + rewrite (eqb_refl_not_nan bic_hop) in H
        by (eapply ltb_not_nan; exact H2).
      repeat destruct (F.eqb _ _); discriminate.
    + rewrite (eqb_refl_not_nan bic_brownian) in H by exact E.
      discriminate.
  - intros ->. rewrite !ltb_nan_r. reflexivity.
Qed.

(** X10.  On finite BIC values the chain picks the smallest, and ties go
    to the model tested first: Brownian before confined before hop. *)
Theorem category_of_ties_go_to_first_model (b c h : R) :
  let category := category_of (Fin b) (Fin c) (Fin h) in
  (category = "brownian" <-> (b <= c /\ b <= h)%R) /\
  (category = "confined" <-> (c < b /\ c <= h)%R) /\
  (category = "hop" <-> (h < b /\ h < c)%R).
Proof.
  unfold category_of, py_min. cbn [fold_left]. unfold F.ltb.
  destruct (Rlt_dec c b) as [Hcb|Hcb].
  - destruct (Rlt_dec h c) as [Hhc|Hhc]; unfold F.eqb.
    + destruct (Req_dec_T h b) as [E|_]; [lra|].
      destruct (Req_dec_T h c) as [E|_]; [lra|].
      destruct (Req_dec_T h h) as [_|E]; [|lra].
      repeat split; try discriminate; try lra; intros; lra.
    + destruct (Req_dec_T c b) as [E|_]; [lra|].
      destruct (Req_dec_T c c) as [_|E]; [|lra].
      repeat split; try discriminate; try lra; intros; lra.
  - destruct (Rlt_dec h b) as [Hhb|Hhb]; unfold F.eqb.
    + destruct (Req_dec_T h b) as [E|_]; [lra|].
      destruct (Req_dec_T h c) as [E|_]; [lra|].
      destruct (Req_dec_T h h) as [_|E]; [|lra].
      repeat split; try discriminate; try lra; intros; lra.
    + destruct (Req_dec_T b b) as [_|E]; [|lra].
      repeat split; try discriminate; try lra; intros; lra.
Qed.

Lemma square_sub_swap (x y : float64) :
  F.square (F.sub x y) = F.square (F.sub y x).
Proof.
  destruct x as [a| | |], y as [b| | |]; try reflexivity.
  unfold F.square, F.sub. simpl. f_equal. ring.
Qed.

Lemma RSS_symmetric (pred target : list float64) :
  RSS pred target = RSS target pred.
Proof.
  unfold RSS, np_broadcast.
  destruct (decide (length pred = length target)) as [E|E];
    destruct (decide (length target = length pred)) as [E'|E'];
    try congruence.
  - cbn [mbind result_bind]. do 2 f_equal.
    revert target E E'. induction pred as [|p pred IH];
      intros [|t target] E E'; try discriminate; [reflexivity|].
    simpl. rewrite square_sub_swap. f_equal. apply IH; simpl in *; lia.
  - destruct pred as [|p [|p' pred]], target as [|t [|t' target]];
      simpl in E; try congruence; cbn [mbind result_bind];
      try reflexivity; do 2 f_equal; rewrite !map_map;
      try (apply map_ext; intros; apply square_sub_swap);
      simpl; rewrite ?square_sub_swap; try reflexivity.
    all: rewrite !map_map; do 2 f_equal;
      apply map_ext; intros; apply square_sub_swap.
Qed.

(** X11.  [BIC] does not tell the prediction from the target: exchanging
    its first two arguments changes neither its value nor its
    exception. *)
Theorem BIC_symmetric (pred target : list float64) (k n : Z) :
  BIC pred target k n = BIC target pred k n.
Proof. unfold BIC. rewrite RSS_symmetric. reflexivity. Qed.

(** X12.  [BIC] raises only for arrays that cannot be broadcast: it
    returns whenever the two arrays have the same length or one of them
    has length one (a single prediction is compared with every target
    value), and raises [ValueError] otherwise. *)
Theorem BIC_raises_iff_shapes_mismatch (pred target : list float64)
    (k n : Z) :
  (length pred = length target \/ length pred = 1%nat
   \/ length target = 1%nat ->
   exists b, BIC pred target k n = Ok b)
  /\ (length pred <> length target -> length pred <> 1%nat ->
      length target <> 1%nat ->
      BIC pred target k n = Raise ValueError).
Proof.
  unfold BIC, RSS, np_broadcast. split.
  - intros H.
    destruct (decide (length pred = length target)) as [E|E];
      [eexists; reflexivity|].
    destruct H as [H|[H|H]]; [congruence| |].
    + destruct pred as [|p [|p' pred]]; try discriminate.
      eexists; reflexivity.
    + destruct target as [|t [|t' target]]; try discriminate.
      destruct pred as [|p [|p' pred]]; eexists; reflexivity.
  - intros E H1 H2.
    destruct (decide (length pred = length target)) as [E'|_]; [congruence|].
    destruct pred as [|p [|p' pred]], target as [|t [|t' target]];
      simpl in *; try congruence; reflexivity.
Qed.

Lemma np_sum_zeros (l : list float64) :
  Forall (fun x => x = Fin 0) l -> np_sum l = Fin 0.
Proof.
  unfold np_sum. induction l as [|x l IH]; intros H; [reflexivity|].
  inversion H as [|? ? Hx Hl]; subst. simpl.
  replace (Fin (0 + 0)) with (Fin 0) by (f_equal; lra). apply IH, Hl.
Qed.

Lemma RSS_perfect_fit (pred : list float64) :
  Forall is_finite pred -> RSS pred pred = Ok (Fin 0).
Proof.
  intros H. unfold RSS. rewrite np_broadcast_same by reflexivity.
  cbn [mbind result_bind]. f_equal. apply np_sum_zeros.
  apply Forall_forall. intros d Hd.
  apply list_elem_of_In, in_map_iff in Hd. destruct Hd as (s & <- & Hs).
  assert (exists x, In x pred /\ s = F.sub x x) as (x & Hx & ->).
  { clear H. revert Hs. induction pred as [|p pred IH]; simpl; [tauto|].
    intros [<-|Hs]; [exists p; auto|].
    destruct (IH Hs) as (x & Hx & ->). exists x. auto. }
  rewrite Forall_forall in H. apply list_elem_of_In, H in Hx.
  destruct x; simpl in Hx; try tauto.
  unfold F.square, F.sub. simpl. f_equal. ring.
Qed.

Lemma py_min_ninf (rest : list float64) : py_min NInf rest = NInf.
Proof.
  unfold py_min. induction rest as [|x rest IH]; [reflexivity|].
  simpl. destruct x; simpl; exact IH.
Qed.

(** X13.  A perfect fit has no usable score: when the prediction equals
    the (finite) target, [BIC] is [-inf] for every number of parameters
    [k] and every [n >= 1], and the relative likelihood computed for this
    best model is [nan], whatever the scores of the other models. *)
Theorem BIC_perfect_fit (pred : list float64) (k n : Z)
    (others : list float64) :
  Forall is_finite pred -> 1 <= n ->
  BIC pred pred k n = Ok NInf
  /\ relative_likelihood NInf (py_min NInf others) = NaN.
Proof.
  intros H Hn. split; [|rewrite py_min_ninf; reflexivity].
  unfold BIC. rewrite RSS_perfect_fit by exact H.
  cbn [mbind result_bind]. f_equal.
  assert (0 < IZR n)%R as Hr by (apply IZR_lt; lia).
  unfold F.of_Z, F.div.
  destruct (Req_dec_T (IZR n) 0) as [E|_]; [lra|].
  replace (0 / IZR n)%R with 0%R by (field; lra).
  unfold F.log.
  destruct (Rlt_dec 0 0) as [E|_]; [lra|].
  destruct (Rlt_dec 0 (IZR n)) as [_|E]; [|lra].
  unfold F.mul, F.signed_inf, F.neg.
  destruct (Rlt_dec 0 (IZR n)) as [_|E]; [|lra]. reflexivity.
Qed.

Lemma BIC_raises_iff_shapes_mismatch_witness :
  (exists b, BIC [Fin 1] [Fin 1; Fin 2] 2 1 = Ok b)
  /\ BIC [Fin 1; Fin 2] [Fin 1; Fin 2; Fin 3] 2 1 = Raise ValueError.
Proof.
  split.
  - apply (proj1 (BIC_raises_iff_shapes_mismatch
                    [Fin 1] [Fin 1; Fin 2] 2 1)).
    right. left. reflexivity.
  - apply (proj2 (BIC_raises_iff_shapes_mismatch
                    [Fin 1; Fin 2] [Fin 1; Fin 2; Fin 3] 2 1));
      cbn [length]; lia.
Defined.

Lemma BIC_perfect_fit_witness :
  BIC [Fin 1; Fin 2] [Fin 1; Fin 2] 2 1 = Ok NInf
  /\ relative_likelihood NInf (py_min NInf [Fin 0]) = NaN.
Proof.
  apply (BIC_perfect_fit [Fin 1; Fin 2] 2 1 [Fin 0]);
    [repeat constructor|lia].
Defined.

(** ** The fit range and the time array *)

Lemma pow_one (x : float64) : Pow.pow x (Fin 1) = x.
Proof.
  unfold Pow.pow.
  destruct (Req_dec_T 1 0) as [E|_]; [lra|].
  assert (Int_part 1 = 1) as HI.
  { symmetry. apply Int_part_spec. simpl. lra. }
  assert (Pow.is_integer 1 = true) as Hint.
  { unfold Pow.is_integer. rewrite HI.
    destruct (Req_dec_T (IZR 1) 1) as [_|E]; [reflexivity|lra]. }
  destruct x as [a| | |]; try reflexivity.
  - destruct (Rlt_dec 0 a) as [Ha|Ha].
    + rewrite Rpower_1 by exact Ha. reflexivity.
    + destruct (Req_dec_T a 0) as [->|Hz].
      * destruct (Rlt_dec 0 1) as [_|E]; [reflexivity|lra].
      * rewrite Hint, HI. simpl.
        rewrite Rpower_1 by lra. f_equal. lra.
  - destruct (Rlt_dec 0 1) as [_|E]; [reflexivity|lra].
  - destruct (Rlt_dec 0 1) as [_|E]; [|lra].
    unfold Pow.is_odd_integer. rewrite Hint, HI. reflexivity.
Qed.

(** X14.  The second fit of [classicalMSDAnalysis] starts on the curve of
    the first: with the initial guess [[*reg1[0:2], 1.0]] the power-law
    model takes, at every time (also zero, negative, infinite or [nan]),
    the value of the linear model with the parameters [reg1]. *)
Theorem model2_initial_guess_is_model1 (T reg1 : list float64) :
  length reg1 = 2%nat ->
  call_model model2 T (py_slice_to reg1 2 ++ [Fin 1])
  = call_model model1 T reg1.
Proof.
  intros H. destruct reg1 as [|D [|delta2 [|? ?]]]; try discriminate.
  change (py_slice_to [D; delta2] 2 ++ [Fin 1]) with [D; delta2; Fin 1].
  unfold call_model. cbn [length arity model1 model2].
  destruct (decide (3%nat = 3%nat)) as [_|E]; [|congruence].
  destruct (decide (2%nat = 2%nat)) as [_|E]; [|congruence].
  f_equal. apply map_ext. intros t. cbn [eval model1 model2].
  rewrite pow_one. reflexivity.
Qed.

Lemma np_linspace_steps (dt : R) (N : Z) :
  0 <= N ->
  np_linspace (Fin dt) (F.mul (Fin dt) (F.of_Z N)) N
  = Ok (map (fun i => Fin (dt * IZR i)) (py_range 1 (N + 1))).
Proof.
  intros HN. unfold np_linspace.
  destruct (Z.ltb_spec N 0); [lia|]. cbv zeta. f_equal.
  assert (map (fun i : Z =>
                 if 0 <? N - 1
                 then F.add (F.mul (F.of_Z i)
                               (F.div (F.sub (F.mul (Fin dt) (F.of_Z N))
                                             (Fin dt))
                                      (F.of_Z (N - 1))))
                            (Fin dt)
                 else F.add (F.mul (F.of_Z i)
                               (F.sub (F.mul (Fin dt) (F.of_Z N)) (Fin dt)))
                            (Fin dt))
              (np_arange 0 N)
          = map (fun i => Fin (dt * IZR i)) (py_range 1 (N + 1))) as ->.
  { unfold np_arange, py_range. rewrite !map_map.
    replace (Z.to_nat (N + 1 - 1)) with (Z.to_nat (N - 0)) by lia.
    apply map_ext_in. intros k Hk. apply in_seq in Hk.
    destruct (Z.ltb_spec 0 (N - 1)) as [H1|H1].
    - unfold F.of_Z, F.sub, F.mul, F.div, F.neg, F.add.
      assert (IZR (N - 1) <> 0)%R as Hne.
      { apply not_0_IZR. lia. }
      destruct (Req_dec_T (IZR (N - 1)) 0) as [E|_]; [contradiction|].
      f_equal. rewrite !plus_IZR, minus_IZR in *. simpl. field.
      simpl in Hne. exact Hne.
    - assert (k = 0%nat) as -> by lia. assert (N = 1)%Z as -> by lia.
      unfold F.of_Z, F.sub, F.mul, F.neg, F.add. simpl. f_equal.
      change (IZR (0 + Z.of_nat 0)) with 0%R.
      change (IZR (1 + Z.of_nat 0)) with 1%R. lra. }
  destruct (Z.ltb_spec 1 N) as [H1|H1]; [|reflexivity].
  apply list_insert_id. change (map ?g ?l) with (g <$> l).
  rewrite list_lookup_fmap, py_range_lookup by lia.
  cbn [fmap option_fmap option_map]. unfold F.mul, F.of_Z.
  replace (1 + Z.of_nat (Z.to_nat (N - 1))) with N by lia. reflexivity.
Qed.

Lemma np_linspace_integers (N : Z) :
  0 <= N ->
  np_linspace (F.of_Z 1) (F.of_Z N) N = Ok (map F.of_Z (py_range 1 (N + 1))).
Proof.
  intros HN.
  replace (F.of_Z N) with (F.mul (Fin 1) (F.of_Z N))
    by (unfold F.mul, F.of_Z; f_equal; lra).
  change (F.of_Z 1) with (Fin 1). rewrite np_linspace_steps by exact HN.
  f_equal. apply map_ext. intros i. unfold F.of_Z. f_equal. lra.
Qed.

Lemma msd_fit_range_cases (fractionFitPoints : float64)
    (nFitPoints : option Z) (N n : Z) :
  0 <= N ->
  match nFitPoints with
  | None => py_int (F.mul fractionFitPoints (F.of_Z N))
  | Some m => Ok m
  end = Ok n ->
  msd_fit_range fractionFitPoints nFitPoints N
  = if n <? 2 then IO [] (Raise AssertionError)
    else IO (if N / 4 <? n then [Warn too_many_points] else [])
            (Ok (n, map F.of_Z (py_range 1 (N + 1)))).
Proof.
  intros HN Hn. unfold msd_fit_range. rewrite Hn, bind_lift_Ok.
  destruct (Z.ltb_spec n 2) as [H2|H2].
  - destruct (Z.leb_spec 2 n); [lia|]. reflexivity.
  - destruct (Z.leb_spec 2 n); [|lia]. cbn [py_assert].
    rewrite bind_ret_io, py_int_quarter, bind_lift_Ok by exact HN.
    rewrite np_linspace_integers by exact HN.
    destruct (N / 4 <? n).
    + rewrite bind_emit, bind_lift_Ok. reflexivity.
    + rewrite bind_ret_io, bind_lift_Ok. reflexivity.
Qed.


(** X15.  The fit range of [classicalMSDAnalysis] for a curve of [N]
    points and a number of fit points [n] (given, or the integer part of
    [fractionFitPoints * N]): the assertion fails exactly when [n < 2];
    otherwise the warning is issued exactly when [n] exceeds the integer
    part of [N / 4], and the time array is [1, 2, ..., N], whatever the
    time stamps of the track and the argument [dt]. *)
Theorem msd_fit_range_outcome (fractionFitPoints : float64)
    (nFitPoints : option Z) (N n : Z) :
  0 <= N ->
  match nFitPoints with
  | None => py_int (F.mul fractionFitPoints (F.of_Z N))
  | Some m => Ok m
  end = Ok n ->
  msd_fit_range fractionFitPoints nFitPoints N
  = if n <? 2 then IO [] (Raise AssertionError)
    else IO (if N / 4 <? n then [Warn too_many_points] else [])
            (Ok (n, map F.of_Z (py_range 1 (N + 1)))).
Proof. apply msd_fit_range_cases. Qed.

Section FitRange.

Variable os_cpu_count : Z.
Variable pool_order : nat -> list nat.
Hypothesis pool_runs_every_task :
  forall n, Permutation (pool_order n) (seq 0 n).
Variable curve_fit :
  model -> list float64 -> list float64 -> option (list float64) ->
  list float64 -> option Z -> result (list float64).

(** X16.  With its default arguments [classicalMSDAnalysis] needs a track
    of at least eleven points: on a track of three to ten points the MSD
    curve has fewer than eight entries, a quarter of them is fewer than
    two, and the call ends in [AssertionError] before any fit, warning or
    plot. *)
Theorem classicalMSDAnalysis_default_needs_eleven_points (self : Track)
    (linearPlot : bool) :
  length (_y self) = length (_x self) ->
  _MSD self = None ->
  (3 <= length (_x self) < 11)%nat ->
  classicalMSDAnalysis os_cpu_count pool_order curve_fit self
    (Fin (1 / 4)) None linearPlot
  = IO [] (Raise AssertionError).
Proof.
  intros Hy HM Hlen. unfold classicalMSDAnalysis. rewrite HM.
  rewrite calculateMSD_default by (assumption || lia).
  cbv zeta. rewrite bind_lift_Ok. cbn [_MSD]. rewrite bind_lift_Ok.
  rewrite length_map.
  set (N := Z.of_nat (length (_x self))).
  assert (Z.of_nat (length (py_range 1 (N - 2))) = N - 3) as ->
    by (rewrite py_range_length; lia).
  rewrite (msd_fit_range_cases _ None (N - 3) ((N - 3) / 4))
    by (try apply py_int_quarter; lia).
  assert ((N - 3) / 4 < 2) as Hq
    by (apply Z.div_lt_upper_bound; lia).
  destruct (Z.ltb_spec ((N - 3) / 4) 2); [reflexivity|lia].
Qed.

(** X17.  [classicalMSDAnalysis] cannot fit the whole curve: it returns
    only if the number of fit points [n] is at least 2 and smaller than
    the number [N] of points of the MSD curve, because the shaded span
    reads [T[n]].  In particular every call with [nFitPoints = N] or
    [fractionFitPoints >= 1] ends in an exception. *)
Theorem classicalMSDAnalysis_returns_only_inside_curve (self self' : Track)
    (fractionFitPoints : float64) (nFitPoints : option Z)
    (linearPlot : bool) :
  outcome (classicalMSDAnalysis os_cpu_count pool_order curve_fit self
             fractionFitPoints nFitPoints linearPlot) = Ok self' ->
  exists msd n,
    _MSD self' = Some msd /\
    match nFitPoints with
    | None => py_int (F.mul fractionFitPoints
                            (F.of_Z (Z.of_nat (length msd))))
    | Some m => Ok m
    end = Ok n /\
    2 <= n < Z.of_nat (length msd).
Proof.
  unfold classicalMSDAnalysis. rewrite outcome_bind.
  destruct (outcome (match _MSD self with
                     | Some _ => mret self
                     | None => _
                     end)) as [s|e] eqn:Hs; [|discriminate].
  rewrite outcome_bind.
  destruct (_MSD s) as [msd|] eqn:HM; [|discriminate].
  cbn [lift outcome]. rewrite outcome_bind.
  set (N := Z.of_nat (length msd)).
  destruct (outcome (msd_fit_range fractionFitPoints nFitPoints N))
    as [[n T]|e] eqn:HR; [|discriminate].
  rewrite outcome_bind.
  destruct (outcome (msd_fit_and_report _ _ _ _ _ _)) as [[]|e] eqn:HF;
    [|discriminate].
  intros [= <-]. exists msd.
  assert (exists n0,
            match nFitPoints with
            | None => py_int (F.mul fractionFitPoints (F.of_Z N))
            | Some m => Ok m
            end = Ok n0) as (n0 & Hn0).
  { unfold msd_fit_range in HR. rewrite outcome_bind in HR.
    cbn [lift outcome] in HR.
    destruct (match nFitPoints with
              | None => _
              | Some m => Ok m
              end) as [n0|]; [eauto|discriminate]. }
  rewrite (msd_fit_range_cases _ _ N n0) in HR by (assumption || lia).
  destruct (Z.ltb_spec n0 2) as [H2|H2]; [discriminate|].
  cbn [outcome] in HR. injection HR as <- <-.
  exists n0. split; [exact HM|]. split; [exact Hn0|]. split; [exact H2|].
  destruct (Z.lt_ge_cases n0 N) as [Hlt|Hge]; [exact Hlt|exfalso].
  unfold msd_fit_and_report in HF.
  repeat (rewrite outcome_bind in HF;
          match type of HF with
          | match outcome ?m with _ => _ end = _ =>
              destruct (outcome m) eqn:?; [|discriminate]
          end).
  match goal with
  | H : outcome (lift (np_getitem _ n0)) = Ok _ |- _ =>
      rewrite np_getitem_beyond in H; [discriminate|]
  end.
  rewrite length_map, py_range_length. lia.
Qed.

End FitRange.

Lemma msd_fit_and_report_zero_fit (MSD_ MSD_error T : list float64)
    (n_points : Z) (linearPlot : bool) :
  length T = length MSD_ ->
  0 <= n_points < Z.of_nat (length T) ->
  outcome (msd_fit_and_report zero_fit MSD_ (Some MSD_error) n_points T
             linearPlot) = Ok tt.
Proof.
  intros HL Hn. unfold msd_fit_and_report, zero_fit.
  rewrite !bind_lift_Ok, !call_model_zero, !bind_lift_Ok.
  destruct (BIC_same_length
              (py_slice_to (map (eval model1 (replicate (arity model1)
                                                        (Fin 0))) T)
                           n_points)
              (py_slice_to MSD_ n_points) 2) as [b1 Hb1];
    [apply py_slice_to_length; rewrite length_map; exact HL|].
  destruct (BIC_same_length
              (py_slice_to (map (eval model2 (replicate (arity model2)
                                                        (Fin 0))) T)
                           n_points)
              (py_slice_to MSD_ n_points) 2) as [b2 Hb2];
    [apply py_slice_to_length; rewrite length_map; exact HL|].
  rewrite Hb1, bind_lift_Ok, Hb2, bind_lift_Ok.
  destruct (np_getitem_inrange T 0) as (t0 & Ht0 & _); [lia|].
  destruct (np_getitem_inrange T n_points) as (tn & Htn & _); [lia|].
  rewrite Ht0, Htn. rewrite !outcome_bind. reflexivity.
Qed.

Lemma classicalMSDAnalysis_zero_fit_returns :
  outcome (classicalMSDAnalysis 8 reverse_order zero_fit
             track_with_40_point_curve (Fin (1 / 4)) (Some 5) false)
  = Ok track_with_40_point_curve.
Proof.
  unfold classicalMSDAnalysis.
  change (_MSD track_with_40_point_curve)
    with (Some (replicate 40 (Fin 1))).
  change (_MSD_error track_with_40_point_curve)
    with (Some (replicate 40 (Fin 1))).
  cbv iota. rewrite bind_ret_io.
  change (_MSD track_with_40_point_curve)
    with (Some (replicate 40 (Fin 1))).
  change (_MSD_error track_with_40_point_curve)
    with (Some (replicate 40 (Fin 1))).
  cbv iota. rewrite bind_lift_Ok.
  rewrite length_replicate.
  rewrite (msd_fit_range_cases (Fin (1 / 4)) (Some 5) (Z.of_nat 40) 5)
    by (reflexivity || lia).
  change (5 <? 2) with false. change (Z.of_nat 40 / 4 <? 5) with false.
  cbv iota. rewrite outcome_bind. cbn [outcome]. rewrite outcome_bind.
  rewrite msd_fit_and_report_zero_fit.
  - reflexivity.
  - rewrite length_map, length_replicate.
    apply Nat2Z.inj. rewrite py_range_length. lia.
  - rewrite length_map. rewrite py_range_length. lia.
Qed.

Lemma model2_initial_guess_is_model1_witness :
  call_model model2 [Fin 1; Fin 2] (py_slice_to [Fin 3; Fin 0] 2 ++ [Fin 1])
  = call_model model1 [Fin 1; Fin 2] [Fin 3; Fin 0].
Proof.
  apply (model2_initial_guess_is_model1 [Fin 1; Fin 2] [Fin 3; Fin 0]).
  reflexivity.
Defined.

Lemma msd_fit_range_outcome_witness :
  msd_fit_range (Fin (1 / 4)) (Some 12) 40
  = if 12 <? 2 then IO [] (Raise AssertionError)
    else IO (if 40 / 4 <? 12 then [Warn too_many_points] else [])
            (Ok (12, map F.of_Z (py_range 1 (40 + 1)))).
Proof.
  apply (msd_fit_range_outcome (Fin (1 / 4)) (Some 12) 40 12);
    [lia|reflexivity].
Defined.

Lemma classicalMSDAnalysis_default_needs_eleven_points_witness :
  classicalMSDAnalysis 8 reverse_order zero_fit track_of_six
    (Fin (1 / 4)) None false
  = IO [] (Raise AssertionError).
Proof.
  apply (classicalMSDAnalysis_default_needs_eleven_points 8 reverse_order
           reverse_order_runs_every_task zero_fit track_of_six false);
    [reflexivity|reflexivity|].
  unfold track_of_six, Track_init. cbn [_x length]. lia.
Defined.

Lemma classicalMSDAnalysis_returns_only_inside_curve_witness :
  exists msd n,
    _MSD track_with_40_point_curve = Some msd /\
    Ok 5 = Ok n /\ 2 <= n < Z.of_nat (length msd).
Proof.
  apply (classicalMSDAnalysis_returns_only_inside_curve 8 reverse_order
           zero_fit track_with_40_point_curve track_with_40_point_curve
           (Fin (1 / 4)) (Some 5) false).
  apply classicalMSDAnalysis_zero_fit_returns.
Defined.

(** ** Ensemble averages *)

Lemma for_each_Ok_inv {A S} (a : A) (l : list A) (s s' : S)
    (body : A -> S -> result S) :
  for_each (a :: l) s body = Ok s' ->
  exists s1, body a s = Ok s1 /\ for_each l s1 body = Ok s'.
Proof.
  cbn [for_each]. destruct (body a s) as [s1|e]; [|discriminate].
  intros H. exists s1. split; [reflexivity|exact H].
Qed.

Lemma for_each_checks {A} (l : list A) (check : A -> result unit) :
  for_each l tt (fun k _ => check k) = Ok tt ->
  forall k, In k l -> check k = Ok tt.
Proof.
  induction l as [|a l IH]; intros H k Hk; [destruct Hk|].
  apply for_each_Ok_inv in H. destruct H as ([] & Ha & Hl).
  destruct Hk as [<-|Hk]; [exact Ha|]. apply IH; assumption.
Qed.

Lemma py_range_0_seq (n : nat) :
  py_range 0 (Z.of_nat n) = map Z.of_nat (seq 0 n).
Proof.
  unfold py_range. replace (Z.to_nat (Z.of_nat n - 0)) with n by lia.
  apply map_ext. intros k. lia.
Qed.

Lemma np_getitem_nat {A} (a : list A) (k : nat) (v : A) :
  a !! k = Some v -> np_getitem a (Z.of_nat k) = Ok v.
Proof.
  intros H. pose proof (lookup_lt_Some _ _ _ H) as Hlt.
  destruct (np_getitem_inrange a (Z.of_nat k)) as (w & -> & Hw); [lia|].
  rewrite Nat2Z.id in Hw. congruence.
Qed.

Lemma np_getitem_nat_inv {A} (a : list A) (k : nat) (v : A) :
  np_getitem a (Z.of_nat k) = Ok v -> a !! k = Some v.
Proof.
  intros H. pose proof (np_getitem_Ok_inrange _ _ _ H) as Hr.
  destruct (np_getitem_inrange a (Z.of_nat k)) as (w & Hw1 & Hw2); [lia|].
  rewrite Nat2Z.id in Hw2. congruence.
Qed.

Lemma np_iadd_same (a b : list float64) :
  length b = length a -> np_iadd a b = Ok (zip_with F.add a b).
Proof.
  intros H. unfold np_iadd.
  destruct (decide (length b = length a)); [reflexivity|contradiction].
Qed.

Lemma of_Z_of_nat (n : nat) : F.of_Z (Z.of_nat n) = F.of_nat n.
Proof. unfold F.of_Z, F.of_nat. f_equal. symmetry. apply INR_IZR_INZ. Qed.

Lemma nth_zip_with_add (a b : list float64) (i : nat) :
  length b = length a -> (i < length a)%nat ->
  nth i (zip_with F.add a b) NaN = F.add (nth i a NaN) (nth i b NaN).
Proof.
  revert b i. induction a as [|x a IH]; intros [|y b] i Hl Hi;
    simpl in *; try lia.
  destruct i as [|i]; [reflexivity|]. apply IH; lia.
Qed.

Lemma list_eq_map_nth (l : list float64) :
  l = map (fun i => nth i l NaN) (seq 0 (length l)).
Proof.
  induction l as [|x l IH]; [reflexivity|].
  cbn [length seq map nth]. f_equal.
  rewrite <- seq_shift, map_map. exact IH.
Qed.

Lemma sum_curves_columns (L : nat) (curves : list (list float64)) :
  Forall (fun c => length c = L) curves ->
  forall acc, length acc = L ->
    fold_left (zip_with F.add) curves acc
    = map (fun i => fold_left F.add (column i curves) (nth i acc NaN))
          (seq 0 L).
Proof.
  induction 1 as [|c curves Hc Hcs IH]; intros acc Hacc.
  - cbn [fold_left column map]. subst L. apply list_eq_map_nth.
  - cbn [fold_left column map].
    rewrite IH by (rewrite length_zip_with; lia).
    apply map_ext_in. intros i Hi. apply in_seq in Hi.
    rewrite nth_zip_with_add by lia. reflexivity.
Qed.

Lemma nth_replicate_zero (L i : nat) :
  (i < L)%nat -> nth i (replicate L (Fin 0)) NaN = Fin 0.
Proof.
  revert i. induction L as [|L IH]; intros i Hi; [lia|].
  destruct i as [|i]; [reflexivity|]. apply IH. lia.
Qed.

Lemma mean_of_sum_curves (L : nat) (curves : list (list float64)) :
  Forall (fun c => length c = L) curves ->
  np_idiv (fold_left (zip_with F.add) curves (replicate L (Fin 0)))
          (Z.of_nat (length curves))
  = mean_curve L curves.
Proof.
  intros H. rewrite (sum_curves_columns L curves H)
    by apply length_replicate.
  unfold np_idiv, mean_curve. rewrite map_map.
  apply map_ext_in. intros i Hi. apply in_seq in Hi.
  rewrite nth_replicate_zero by lia.
  unfold np_mean, np_sum, column. rewrite length_map, of_Z_of_nat.
  reflexivity.
Qed.

Lemma curves_labelled_lengths (L : nat) (label : string)
    (models : list string) (curves : list (list float64)) :
  Forall (fun c => length c = L) curves ->
  Forall (fun c => length c = L) (curves_labelled label models curves).
Proof.
  intros H. revert models. induction H as [|c curves Hc Hcs IH];
    intros [|m models]; cbn [curves_labelled]; try constructor.
  destruct (String.eqb m label); [constructor; [exact Hc|]|]; apply IH.
Qed.

Lemma curves_labelled_count (label : string) (models : list string)
    (c1 c2 : list (list float64)) :
  length c1 = length c2 ->
  length (curves_labelled label models c1)
  = length (curves_labelled label models c2).
Proof.
  revert c1 c2. induction models as [|m models IH];
    intros [|x c1] [|y c2] H; try discriminate; try reflexivity.
  cbn [curves_labelled]. injection H as H.
  destruct (String.eqb m label); cbn [length]; rewrite (IH c1 c2 H);
    reflexivity.
Qed.

Lemma accumulate_step (L : nat)
    (MSD : list (list float64 * list float64 * float64))
    (D_app : list (list float64)) (models : list string) (j : nat)
    (v : string) (d : list float64)
    (e : list float64 * list float64 * float64) (a a1 : Averages) :
  models !! j = Some v -> D_app !! j = Some d -> MSD !! j = Some e ->
  length d = L -> length (e.1.1) = L -> averages_have_length L a ->
  accumulate MSD D_app models (Z.of_nat j) a = Ok a1 ->
  averages_have_length L a1 /\
  (average_D_app_brownian a1
   = if String.eqb v "brownian"
     then zip_with F.add (average_D_app_brownian a) d
     else average_D_app_brownian a) /\
  (average_D_app_confined a1
   = if String.eqb v "confined"
     then zip_with F.add (average_D_app_confined a) d
     else average_D_app_confined a) /\
  (average_D_app_hop a1
   = if String.eqb v "hop"
     then zip_with F.add (average_D_app_hop a) d
     else average_D_app_hop a) /\
  (average_MSD_brownian a1
   = if String.eqb v "brownian"
     then zip_with F.add (average_MSD_brownian a) (e.1.1)
     else average_MSD_brownian a) /\
  (average_MSD_confined a1
   = if String.eqb v "confined"
     then zip_with F.add (average_MSD_confined a) (e.1.1)
     else average_MSD_confined a) /\
  (average_MSD_hop a1
   = if String.eqb v "hop"
     then zip_with F.add (average_MSD_hop a) (e.1.1)
     else average_MSD_hop a) /\
  (counter_brownian a1
   = counter_brownian a + if String.eqb v "brownian" then 1 else 0) /\
  (counter_confined a1
   = counter_confined a + if String.eqb v "confined" then 1 else 0) /\
  (counter_hop a1
   = counter_hop a + if String.eqb v "hop" then 1 else 0) /\
  In v ["brownian"; "confined"; "hop"; "unknown"].
Proof.
  intros Hv Hd He Ld Le (L1 & L2 & L3 & L4 & L5 & L6).
  unfold accumulate.
  rewrite (np_getitem_nat _ _ _ Hv), (np_getitem_nat _ _ _ Hd),
    (np_getitem_nat _ _ _ He).
  cbn [mbind result_bind].
  rewrite !np_iadd_same by congruence. cbn [mbind result_bind].
  destruct (String.eqb v "brownian") eqn:E1;
    [|destruct (String.eqb v "confined") eqn:E2;
      [|destruct (String.eqb v "hop") eqn:E3;
        [|destruct (String.eqb v "unknown") eqn:E4]]];
    try discriminate; intros [= <-];
    try (apply String.eqb_eq in E1; subst v);
    try (apply String.eqb_eq in E2; subst v);
    try (apply String.eqb_eq in E3; subst v);
    try (apply String.eqb_eq in E4; subst v);
    cbn [average_D_app_brownian average_D_app_confined average_D_app_hop
         average_MSD_brownian average_MSD_confined average_MSD_hop
         counter_brownian counter_confined counter_hop];
    (split; [unfold averages_have_length;
             cbn [average_D_app_brownian average_D_app_confined
                  average_D_app_hop average_MSD_brownian
                  average_MSD_confined average_MSD_hop];
             rewrite ?length_zip_with; repeat split; lia|]);
    repeat (split; [reflexivity || (simpl; lia)|]);
    cbn [In]; auto 10.
Qed.

Lemma accumulate_loop (L : nat)
    (MSD : list (list float64 * list float64 * float64))
    (D_app : list (list float64)) (models : list string) :
  Forall (fun d => length d = L) D_app ->
  Forall (fun c => length c = L) (msd_curves MSD) ->
  length MSD = length models -> length D_app = length models ->
  forall (m j : nat) (a a' : Averages),
    (j + m = length models)%nat -> averages_have_length L a ->
    for_each (map Z.of_nat (seq j m)) a (accumulate MSD D_app models)
    = Ok a' ->
    let labelled label curves :=
      curves_labelled label (drop j models) (drop j curves) in
    let total acc label curves :=
      fold_left (zip_with F.add) (labelled label curves) acc in
    let count label := Z.of_nat (length (labelled label D_app)) in
    averages_have_length L a' /\
    average_D_app_brownian a'
    = total (average_D_app_brownian a) "brownian" D_app /\
    average_D_app_confined a'
    = total (average_D_app_confined a) "confined" D_app /\
    average_D_app_hop a' = total (average_D_app_hop a) "hop" D_app /\
    average_MSD_brownian a'
    = total (average_MSD_brownian a) "brownian" (msd_curves MSD) /\
    average_MSD_confined a'
    = total (average_MSD_confined a) "confined" (msd_curves MSD) /\
    average_MSD_hop a'
    = total (average_MSD_hop a) "hop" (msd_curves MSD) /\
    counter_brownian a' = counter_brownian a + count "brownian" /\
    counter_confined a' = counter_confined a + count "confined" /\
    counter_hop a' = counter_hop a + count "hop" /\
    Forall (fun v => In v ["brownian"; "confined"; "hop"; "unknown"])
           (drop j models).
Proof.
  intros HD HM HlM HlD. induction m as [|m IH]; intros j a a' Hj Ha H;
    cbv zeta.
  - cbn in H. injection H as <-.
    rewrite (drop_ge models) by lia. cbn [curves_labelled fold_left length].
    repeat (split; [reflexivity || lia || assumption|]). constructor.
  - cbn [seq map] in H. apply for_each_Ok_inv in H.
    destruct H as (a1 & Hstep & Hrest).
    destruct (lookup_lt_is_Some_2 models j) as [v Hv]; [lia|].
    destruct (lookup_lt_is_Some_2 D_app j) as [d Hd]; [lia|].
    destruct (lookup_lt_is_Some_2 MSD j) as [e He]; [lia|].
    assert (msd_curves MSD !! j = Some (e.1.1)) as He'
      by (unfold msd_curves; change (map ?g ?l) with (g <$> l);
          rewrite list_lookup_fmap, He; reflexivity).
    assert (length d = L) as Ld
      by (rewrite Forall_lookup in HD; exact (HD _ _ Hd)).
    assert (length (e.1.1) = L) as Le
      by (rewrite Forall_lookup in HM; exact (HM _ _ He')).
    destruct (accumulate_step L MSD D_app models j v d e a a1
                Hv Hd He Ld Le Ha Hstep)
      as (Ha1 & S1 & S2 & S3 & S4 & S5 & S6 & S7 & S8 & S9 & Sv).
    destruct (IH (S j) a1 a' ltac:(lia) Ha1 Hrest)
      as (Ha' & R1 & R2 & R3 & R4 & R5 & R6 & R7 & R8 & R9 & Rv).
    rewrite (drop_S _ _ _ Hv), (drop_S _ _ _ Hd), (drop_S _ _ _ He').
    cbn [curves_labelled].
    rewrite R1, R2, R3, R4, R5, R6, R7, R8, R9,
      S1, S2, S3, S4, S5, S6, S7, S8, S9.
    split; [exact Ha'|].
    destruct (String.eqb v "brownian"), (String.eqb v "confined"),
      (String.eqb v "hop"); cbn [fold_left length];
      repeat (split; [reflexivity || lia|]);
      (constructor; [exact Sv|exact Rv]).
Qed.

Lemma check_lengths_Ok
    (tracks : list (gmap string (list float64)))
    (MSD : list (list float64 * list float64 * float64))
    (D_app : list (list float64)) (track_length : Z) (k : nat) :
  check_lengths tracks MSD D_app track_length (Z.of_nat k) = Ok tt ->
  exists track x e d,
    tracks !! k = Some track /\ track !! "x" = Some x /\
    Z.of_nat (length x) = track_length /\
    MSD !! k = Some e /\ Z.of_nat (length (e.1.1)) = track_length - 3 /\
    D_app !! k = Some d /\ Z.of_nat (length d) = track_length - 3.
Proof.
  unfold check_lengths.
  destruct (np_getitem tracks (Z.of_nat k)) as [track|] eqn:Ht;
    [|discriminate].
  cbn [mbind result_bind]. unfold dict_getitem.
  destruct (track !! "x") as [x|] eqn:Hx; [|discriminate].
  cbn [mbind result_bind].
  destruct (Z.eqb_spec (Z.of_nat (length x)) track_length) as [E1|];
    [|discriminate].
  cbn [negb].
  destruct (np_getitem MSD (Z.of_nat k)) as [e|] eqn:He; [|discriminate].
  cbn [mbind result_bind].
  destruct (Z.eqb_spec (Z.of_nat (length (e.1.1))) (track_length - 3))
    as [E2|]; [|discriminate].
  cbn [negb].
  destruct (np_getitem D_app (Z.of_nat k)) as [d|] eqn:Hd; [|discriminate].
  cbn [mbind result_bind].
  destruct (Z.eqb_spec (Z.of_nat (length d)) (track_length - 3))
    as [E3|]; [|discriminate].
  intros _. exists track, x, e, d.
  apply np_getitem_nat_inv in Ht, He, Hd. auto 10.
Qed.

Lemma check_lengths_pass
    (tracks : list (gmap string (list float64)))
    (MSD : list (list float64 * list float64 * float64))
    (D_app : list (list float64)) (track_length : Z) (k : nat)
    (track : gmap string (list float64)) (x d : list float64)
    (e : list float64 * list float64 * float64) :
  tracks !! k = Some track -> track !! "x" = Some x ->
  Z.of_nat (length x) = track_length ->
  MSD !! k = Some e -> Z.of_nat (length (e.1.1)) = track_length - 3 ->
  D_app !! k = Some d -> Z.of_nat (length d) = track_length - 3 ->
  check_lengths tracks MSD D_app track_length (Z.of_nat k) = Ok tt.
Proof.
  intros Ht Hx E1 He E2 Hd E3. unfold check_lengths.
  rewrite (np_getitem_nat _ _ _ Ht), (np_getitem_nat _ _ _ He),
    (np_getitem_nat _ _ _ Hd).
  cbn [mbind result_bind]. unfold dict_getitem. rewrite Hx.
  cbn [mbind result_bind].
  rewrite (proj2 (Z.eqb_eq _ _) E1), (proj2 (Z.eqb_eq _ _) E2),
    (proj2 (Z.eqb_eq _ _) E3). reflexivity.
Qed.

Lemma smartAveraging_Ok_inv
    (tracks : list (gmap string (list float64)))
    (MSD : list (list float64 * list float64 * float64))
    (D_app : list (list float64)) (models : list string) (s : Summary) :
  smartAveraging tracks MSD D_app models = Ok s ->
  exists (L : nat) track0 x0 a,
    tracks !! 0%nat = Some track0 /\ track0 !! "x" = Some x0 /\
    length x0 = (L + 3)%nat /\
    length models = length tracks /\ length MSD = length tracks /\
    length D_app = length tracks /\
    (forall k, (k < length tracks)%nat ->
       check_lengths tracks MSD D_app (Z.of_nat (L + 3)) (Z.of_nat k)
       = Ok tt) /\
    for_each (map Z.of_nat (seq 0 (length tracks)))
      (mkAverages (replicate L (Fin 0)) (replicate L (Fin 0))
         (replicate L (Fin 0)) (replicate L (Fin 0))
         (replicate L (Fin 0)) (replicate L (Fin 0)) 0 0 0)
      (accumulate MSD D_app models) = Ok a /\
    counter_brownian a + counter_confined a + counter_hop a <> 0 /\
    let total := counter_brownian a + counter_confined a + counter_hop a in
    s = mkSummary
          (mkAverages
             (np_idiv (average_D_app_brownian a) (counter_brownian a))
             (np_idiv (average_D_app_confined a) (counter_confined a))
             (np_idiv (average_D_app_hop a) (counter_hop a))
             (np_idiv (average_MSD_brownian a) (counter_brownian a))
             (np_idiv (average_MSD_confined a) (counter_confined a))
             (np_idiv (average_MSD_hop a) (counter_hop a))
             (counter_brownian a) (counter_confined a) (counter_hop a))
          (Fin (IZR (counter_brownian a) / IZR total))
          (Fin (IZR (counter_confined a) / IZR total))
          (Fin (IZR (counter_hop a) / IZR total)).
Proof.
  unfold smartAveraging.
  destruct (np_getitem tracks 0) as [track0|] eqn:Ht; [|discriminate].
  cbn [mbind result_bind]. unfold dict_getitem at 1.
  destruct (track0 !! "x") as [x0|] eqn:Hx; [|discriminate].
  cbn [mbind result_bind]. unfold np_zeros.
  destruct (Z.ltb_spec (Z.of_nat (length x0) - 3) 0) as [|H3];
    [discriminate|].
  cbn [mbind result_bind].
  destruct (Nat.eqb_spec (length tracks) (length models)) as [E1|];
    [|discriminate].
  destruct (Nat.eqb_spec (length tracks) (length MSD)) as [E2|];
    [|discriminate].
  destruct (Nat.eqb_spec (length tracks) (length D_app)) as [E3|];
    [|discriminate].
  cbn [negb]. rewrite py_range_0_seq.
  destruct (for_each _ tt _) as [[]|] eqn:Hc; [|discriminate].
  cbn [mbind result_bind].
  destruct (for_each _ _ (accumulate MSD D_app models)) as [a|] eqn:Ha;
    [|discriminate].
  cbn [mbind result_bind].
  cbn [counter_brownian counter_confined counter_hop].
  unfold py_truediv.
  destruct (Z.eqb_spec
              (counter_brownian a + counter_confined a + counter_hop a) 0)
    as [|Hs]; [discriminate|].
  cbn [mbind result_bind]. intros [= <-].
  exists (Z.to_nat (Z.of_nat (length x0) - 3)), track0, x0, a.
  change 0 with (Z.of_nat 0) in Ht. apply np_getitem_nat_inv in Ht.
  replace (Z.of_nat (Z.to_nat (Z.of_nat (length x0) - 3) + 3))
    with (Z.of_nat (length x0)) by lia.
  split; [exact Ht|]. split; [exact Hx|]. split; [lia|].
  split; [lia|]. split; [lia|]. split; [lia|].
  split.
  { intros k Hk.
    apply (for_each_checks _ _ Hc (Z.of_nat k)).
    apply in_map, in_seq. lia. }
  split; [exact Ha|]. split; [exact Hs|]. reflexivity.
Qed.

Lemma smartAveraging_lengths_checked
    (tracks : list (gmap string (list float64)))
    (MSD : list (list float64 * list float64 * float64))
    (D_app : list (list float64)) (L : nat) :
  length MSD = length tracks -> length D_app = length tracks ->
  (forall k, (k < length tracks)%nat ->
     check_lengths tracks MSD D_app (Z.of_nat (L + 3)) (Z.of_nat k)
     = Ok tt) ->
  Forall (fun d => length d = L) D_app /\
  Forall (fun c => length c = L) (msd_curves MSD) /\
  Forall (fun track => exists x, track !! "x" = Some x
                                 /\ length x = (L + 3)%nat) tracks.
Proof.
  intros HM HD Hc. split; [|split]; apply Forall_lookup; intros k v Hv;
    pose proof (lookup_lt_Some _ _ _ Hv) as Hk.
  - destruct (check_lengths_Ok _ _ _ _ k (Hc k ltac:(lia)))
      as (track & x & e & d & _ & _ & _ & _ & _ & Hd & Ed).
    assert (v = d) as -> by congruence. lia.
  - unfold msd_curves in Hv, Hk. rewrite length_map in Hk.
    change (map ?g ?l) with (g <$> l) in Hv.
    rewrite list_lookup_fmap in Hv.
    destruct (check_lengths_Ok _ _ _ _ k (Hc k ltac:(lia)))
      as (track & x & e & d & _ & _ & _ & He & Ee & _ & _).
    rewrite He in Hv. injection Hv as <-. lia.
  - destruct (check_lengths_Ok _ _ _ _ k (Hc k Hk))
      as (track & x & e & d & Ht & Hx & Ex & _).
    assert (v = track) as -> by congruence. exists x. split; [exact Hx|lia].
Qed.

(** X18.  When [smartAveraging] returns, each of its six average curves
    is the elementwise arithmetic mean of the curves of the tracks that
    carry the label of the category, in track order, and each counter is
    the number of these tracks; tracks labelled "unknown" enter no
    average.  (For a category without tracks the mean is that of an empty
    sample, [0/0] at every lag.) *)
Theorem smartAveraging_averages_are_category_means
    (tracks : list (gmap string (list float64)))
    (MSD : list (list float64 * list float64 * float64))
    (D_app : list (list float64)) (models : list string) (s : Summary) :
  smartAveraging tracks MSD D_app models = Ok s ->
  exists (L : nat) track0 x0,
    tracks !! 0%nat = Some track0 /\ track0 !! "x" = Some x0 /\
    length x0 = (L + 3)%nat /\
    let a := averages s in
    let mean_of label curves :=
      mean_curve L (curves_labelled label models curves) in
    let count label :=
      Z.of_nat (length (curves_labelled label models D_app)) in
    average_D_app_brownian a = mean_of "brownian" D_app /\
    average_D_app_confined a = mean_of "confined" D_app /\
    average_D_app_hop a = mean_of "hop" D_app /\
    average_MSD_brownian a = mean_of "brownian" (msd_curves MSD) /\
    average_MSD_confined a = mean_of "confined" (msd_curves MSD) /\
    average_MSD_hop a = mean_of "hop" (msd_curves MSD) /\
    counter_brownian a = count "brownian" /\
    counter_confined a = count "confined" /\
    counter_hop a = count "hop".
Proof.
  intros H. apply smartAveraging_Ok_inv in H.
  destruct H as (L & track0 & x0 & a & Ht & Hx & HL & E1 & E2 & E3 & Hc
                 & Ha & Hs & ->).
  exists L, track0, x0. split; [exact Ht|]. split; [exact Hx|].
  split; [exact HL|].
  destruct (smartAveraging_lengths_checked _ _ _ L E2 E3 Hc)
    as (HD & HM & _).
  assert (averages_have_length L
            (mkAverages (replicate L (Fin 0)) (replicate L (Fin 0))
               (replicate L (Fin 0)) (replicate L (Fin 0))
               (replicate L (Fin 0)) (replicate L (Fin 0)) 0 0 0)) as H0
    by (unfold averages_have_length; simpl; rewrite !length_replicate;
        auto 10).
  rewrite <- E1 in Ha.
  destruct (accumulate_loop L MSD D_app models HD HM ltac:(lia) ltac:(lia)
              (length models) 0%nat _ a ltac:(lia) H0 Ha)
    as (_ & R1 & R2 & R3 & R4 & R5 & R6 & R7 & R8 & R9 & _).
  rewrite !drop_0 in R1, R2, R3, R4, R5, R6, R7, R8, R9.
  cbn [average_D_app_brownian average_D_app_confined average_D_app_hop
       average_MSD_brownian average_MSD_confined average_MSD_hop
       counter_brownian counter_confined counter_hop] in *.
  cbv zeta. cbn [averages average_D_app_brownian average_D_app_confined
                 average_D_app_hop average_MSD_brownian
                 average_MSD_confined average_MSD_hop
                 counter_brownian counter_confined counter_hop].
  assert (forall label,
            length (curves_labelled label models (msd_curves MSD))
            = length (curves_labelled label models D_app)) as Hcount.
  { intros label. apply curves_labelled_count.
    unfold msd_curves. rewrite length_map. lia. }
  rewrite R1, R2, R3, R4, R5, R6, R7, R8, R9, !Z.add_0_l.
  rewrite <- !(Hcount "brownian"), <- !(Hcount "confined"),
    <- !(Hcount "hop").
  rewrite !mean_of_sum_curves by (apply curves_labelled_lengths; assumption).
  rewrite !(Hcount "brownian"), !(Hcount "confined"), !(Hcount "hop").
  rewrite !mean_of_sum_curves by (apply curves_labelled_lengths; assumption).
  auto 10.
Qed.

Lemma for_each_checks_pass {A} (l : list A) (check : A -> result unit) :
  (forall k, In k l -> check k = Ok tt) ->
  for_each l tt (fun k _ => check k) = Ok tt.
Proof.
  induction l as [|a l IH]; intros H; [reflexivity|].
  cbn [for_each]. rewrite (H a) by (left; reflexivity).
  cbn [mbind result_bind]. apply IH. intros k Hk. apply H. right. exact Hk.
Qed.

Lemma accumulate_progress (L : nat)
    (MSD : list (list float64 * list float64 * float64))
    (D_app : list (list float64)) (models : list string) (j : nat)
    (v : string) (d : list float64)
    (e : list float64 * list float64 * float64) (a : Averages) :
  models !! j = Some v -> D_app !! j = Some d -> MSD !! j = Some e ->
  length d = L -> length (e.1.1) = L -> averages_have_length L a ->
  valid_label v ->
  exists a1, accumulate MSD D_app models (Z.of_nat j) a = Ok a1.
Proof.
  intros Hv Hd He Ld Le (L1 & L2 & L3 & L4 & L5 & L6) Hval.
  unfold accumulate.
  rewrite (np_getitem_nat _ _ _ Hv), (np_getitem_nat _ _ _ Hd),
    (np_getitem_nat _ _ _ He).
  cbn [mbind result_bind].
  rewrite !np_iadd_same by congruence. cbn [mbind result_bind].
  destruct Hval as [<-|[<-|[<-|[<-|[]]]]]; eexists; reflexivity.
Qed.

Lemma accumulate_loop_progress (L : nat)
    (MSD : list (list float64 * list float64 * float64))
    (D_app : list (list float64)) (models : list string) :
  Forall (fun d => length d = L) D_app ->
  Forall (fun c => length c = L) (msd_curves MSD) ->
  length MSD = length models -> length D_app = length models ->
  Forall valid_label models ->
  forall (m j : nat) (a : Averages),
    (j + m = length models)%nat -> averages_have_length L a ->
    exists a',
      for_each (map Z.of_nat (seq j m)) a (accumulate MSD D_app models)
      = Ok a'.
Proof.
  intros HD HM HlM HlD Hval. induction m as [|m IH]; intros j a Hj Ha.
  - exists a. reflexivity.
  - destruct (lookup_lt_is_Some_2 models j) as [v Hv]; [lia|].
    destruct (lookup_lt_is_Some_2 D_app j) as [d Hd]; [lia|].
    destruct (lookup_lt_is_Some_2 MSD j) as [e He]; [lia|].
    assert (msd_curves MSD !! j = Some (e.1.1)) as He'
      by (unfold msd_curves; change (map ?g ?l) with (g <$> l);
          rewrite list_lookup_fmap, He; reflexivity).
    assert (length d = L) as Ld
      by (rewrite Forall_lookup in HD; exact (HD _ _ Hd)).
    assert (length (e.1.1) = L) as Le
      by (rewrite Forall_lookup in HM; exact (HM _ _ He')).
    assert (valid_label v) as Hvv
      by (rewrite Forall_lookup in Hval; exact (Hval _ _ Hv)).
    destruct (accumulate_progress L MSD D_app models j v d e a
                Hv Hd He Ld Le Ha Hvv) as (a1 & Ha1).
    destruct (accumulate_step L MSD D_app models j v d e a a1
                Hv Hd He Ld Le Ha Ha1) as (Hl1 & _).
    destruct (IH (S j) a1 ltac:(lia) Hl1) as (a' & Ha').
    exists a'. cbn [seq map for_each]. rewrite Ha1.
    cbn [mbind result_bind]. exact Ha'.
Qed.

Lemma labelled_count_positive (models : list string) :
  Forall valid_label models ->
  forall curves : list (list float64),
    length curves = length models ->
    (Exists (fun v => v <> "unknown") models <->
     (0 < length (curves_labelled "brownian" models curves)
          + length (curves_labelled "confined" models curves)
          + length (curves_labelled "hop" models curves))%nat).
Proof.
  induction 1 as [|v models Hv Hvs IH]; intros [|c curves] Hl;
    try discriminate.
  - cbn. split; [intros H; inversion H|lia].
  - injection Hl as Hl. specialize (IH curves Hl).
    cbn [curves_labelled]. rewrite Exists_cons.
    destruct Hv as [<-|[<-|[<-|[<-|[]]]]]; cbn [String.eqb Ascii.eqb Bool.eqb];
      cbn [length]; split; intros H; try lia;
      try (left; discriminate).
    + destruct H as [H|H]; [congruence|]. apply IH, H.
    + right. apply IH, H.
Qed.

Lemma smartAveraging_counters
    (tracks : list (gmap string (list float64)))
    (MSD : list (list float64 * list float64 * float64))
    (D_app : list (list float64)) (models : list string) (L : nat)
    (a : Averages) :
  length models = length tracks -> length MSD = length tracks ->
  length D_app = length tracks ->
  (forall k, (k < length tracks)%nat ->
     check_lengths tracks MSD D_app (Z.of_nat (L + 3)) (Z.of_nat k)
     = Ok tt) ->
  for_each (map Z.of_nat (seq 0 (length tracks)))
    (mkAverages (replicate L (Fin 0)) (replicate L (Fin 0))
       (replicate L (Fin 0)) (replicate L (Fin 0))
       (replicate L (Fin 0)) (replicate L (Fin 0)) 0 0 0)
    (accumulate MSD D_app models) = Ok a ->
  counter_brownian a
  = Z.of_nat (length (curves_labelled "brownian" models D_app)) /\
  counter_confined a
  = Z.of_nat (length (curves_labelled "confined" models D_app)) /\
  counter_hop a
  = Z.of_nat (length (curves_labelled "hop" models D_app)) /\
  Forall valid_label models.
Proof.
  intros E1 E2 E3 Hc Ha.
  destruct (smartAveraging_lengths_checked _ _ _ L E2 E3 Hc)
    as (HD & HM & _).
  assert (averages_have_length L
            (mkAverages (replicate L (Fin 0)) (replicate L (Fin 0))
               (replicate L (Fin 0)) (replicate L (Fin 0))
               (replicate L (Fin 0)) (replicate L (Fin 0)) 0 0 0)) as H0
    by (unfold averages_have_length; simpl; rewrite !length_replicate;
        auto 10).
  rewrite <- E1 in Ha.
  destruct (accumulate_loop L MSD D_app models HD HM ltac:(lia) ltac:(lia)
              (length models) 0%nat _ a ltac:(lia) H0 Ha)
    as (_ & _ & _ & _ & _ & _ & _ & R7 & R8 & R9 & Rv).
  rewrite !drop_0 in R7, R8, R9, Rv.
  cbn [counter_brownian counter_confined counter_hop] in R7, R8, R9.
  rewrite Z.add_0_l in R7, R8, R9. auto.
Qed.


Lemma smartAveraging_Ok_conditions
    (tracks : list (gmap string (list float64)))
    (MSD : list (list float64 * list float64 * float64))
    (D_app : list (list float64)) (models : list string) (s : Summary) :
  smartAveraging tracks MSD D_app models = Ok s ->
  exists L : nat,
    length models = length tracks /\ length MSD = length tracks /\
    length D_app = length tracks /\
    Forall (fun track => exists x, track !! "x" = Some x
                                   /\ length x = (L + 3)%nat) tracks /\
    Forall (fun d => length d = L) D_app /\
    Forall (fun c => length c = L) (msd_curves MSD) /\
    Forall valid_label models /\
    Exists (fun v => v <> "unknown") models.
Proof.
  intros H. apply smartAveraging_Ok_inv in H.
  destruct H as (L & track0 & x0 & a & Ht & Hx & HL & E1 & E2 & E3 & Hc
                 & Ha & Hs & _).
  destruct (smartAveraging_lengths_checked _ _ _ L E2 E3 Hc)
    as (HD & HM & HT).
  destruct (smartAveraging_counters _ _ _ _ _ _ E1 E2 E3 Hc Ha)
    as (R7 & R8 & R9 & Hval).
  exists L. repeat (split; [assumption|]).
  apply (labelled_count_positive models Hval D_app ltac:(lia)). lia.
Qed.

Lemma smartAveraging_accepts
    (tracks : list (gmap string (list float64)))
    (MSD : list (list float64 * list float64 * float64))
    (D_app : list (list float64)) (models : list string) (L : nat) :
  length models = length tracks -> length MSD = length tracks ->
  length D_app = length tracks ->
  Forall (fun track => exists x, track !! "x" = Some x
                                 /\ length x = (L + 3)%nat) tracks ->
  Forall (fun d => length d = L) D_app ->
  Forall (fun c => length c = L) (msd_curves MSD) ->
  Forall valid_label models ->
  Exists (fun v => v <> "unknown") models ->
  exists s, smartAveraging tracks MSD D_app models = Ok s.
Proof.
  intros E1 E2 E3 HT HD HM Hval Hex.
  assert (forall k, (k < length tracks)%nat ->
            check_lengths tracks MSD D_app (Z.of_nat (L + 3))
                          (Z.of_nat k) = Ok tt) as Hc.
  { intros k Hk.
    destruct (lookup_lt_is_Some_2 tracks k) as [track Htr]; [lia|].
    destruct (lookup_lt_is_Some_2 D_app k) as [d Hd]; [lia|].
    destruct (lookup_lt_is_Some_2 MSD k) as [e He]; [lia|].
    assert (msd_curves MSD !! k = Some (e.1.1)) as He'
      by (unfold msd_curves; change (map ?g ?l) with (g <$> l);
          rewrite list_lookup_fmap, He; reflexivity).
    destruct (proj1 (Forall_lookup _ _) HT _ _ Htr) as (x & Hx & Lx).
    pose proof (proj1 (Forall_lookup _ _) HD _ _ Hd) as Ld.
    pose proof (proj1 (Forall_lookup _ _) HM _ _ He') as Le.
    cbv beta in Ld, Le.
    eapply check_lengths_pass; eauto; lia. }
  assert (averages_have_length L
            (mkAverages (replicate L (Fin 0)) (replicate L (Fin 0))
               (replicate L (Fin 0)) (replicate L (Fin 0))
               (replicate L (Fin 0)) (replicate L (Fin 0)) 0 0 0)) as H0
    by (unfold averages_have_length; simpl; rewrite !length_replicate;
        auto 10).
  destruct (accumulate_loop_progress L MSD D_app models HD HM
              ltac:(lia) ltac:(lia) Hval (length models) 0%nat _
              ltac:(lia) H0) as (a & Ha).
  rewrite E1 in Ha.
  destruct (smartAveraging_counters _ _ _ _ _ _ E1 E2 E3 Hc Ha)
    as (R7 & R8 & R9 & _).
  apply (labelled_count_positive models Hval D_app ltac:(lia)) in Hex.
  destruct tracks as [|track0 tracks'].
  { destruct models; [inversion Hex; lia|discriminate]. }
  pose proof HT as HT0. apply Forall_cons in HT0.
  destruct HT0 as ((x0 & Hx0 & Lx0) & _).
  eexists. unfold smartAveraging.
  change (np_getitem (track0 :: tracks') 0) with (Ok track0).
  cbn [mbind result_bind]. unfold dict_getitem at 1. rewrite Hx0.
  cbn [mbind result_bind]. unfold np_zeros.
  destruct (Z.ltb_spec (Z.of_nat (length x0) - 3) 0) as [|_]; [lia|].
  cbn [mbind result_bind].
  rewrite <- E1, E2, E3 at 1.
  rewrite !Nat.eqb_refl. cbn [negb]. rewrite py_range_0_seq.
  replace (Z.of_nat (length x0)) with (Z.of_nat (L + 3)) by lia.
  rewrite for_each_checks_pass.
  2:{ intros k Hk. apply in_map_iff in Hk. destruct Hk as (n & <- & Hn).
      apply in_seq in Hn. apply Hc. lia. }
  cbn [mbind result_bind].
  replace (Z.to_nat (Z.of_nat (L + 3) - 3)) with L by lia.
  rewrite Ha. cbn [mbind result_bind].
  cbn [counter_brownian counter_confined counter_hop].
  unfold py_truediv.
  destruct (Z.eqb_spec
              (counter_brownian a + counter_confined a + counter_hop a) 0)
    as [Hz|_]; [lia|].
  cbn [mbind result_bind]. reflexivity.
Qed.

(** X20.  The inputs [smartAveraging] accepts: it returns exactly when
    the four lists have the same length, every track has an ["x"] array
    of the same length [L + 3], every curve of [MSD] and of [D_app] has
    [L] entries, every label is one of "brownian", "confined", "hop" and
    "unknown", and at least one label is not "unknown"; on every other
    input it raises. *)
Theorem smartAveraging_returns_iff
    (tracks : list (gmap string (list float64)))
    (MSD : list (list float64 * list float64 * float64))
    (D_app : list (list float64)) (models : list string) :
  (exists s, smartAveraging tracks MSD D_app models = Ok s)
  <-> exists L : nat,
        length models = length tracks /\ length MSD = length tracks /\
        length D_app = length tracks /\
        Forall (fun track => exists x, track !! "x" = Some x
                                       /\ length x = (L + 3)%nat) tracks /\
        Forall (fun d => length d = L) D_app /\
        Forall (fun c => length c = L) (msd_curves MSD) /\
        Forall valid_label models /\
        Exists (fun v => v <> "unknown") models.
Proof.
  split.
  - intros (s & H). eapply smartAveraging_Ok_conditions, H.
  - intros (L & E1 & E2 & E3 & HT & HD & HM & Hval & Hex).
    eapply smartAveraging_accepts; eassumption.
Qed.

Lemma smartAveraging_one_track_returns :
  exists s, smartAveraging one_track one_MSD one_D_app ["brownian"] = Ok s.
Proof.
  apply (smartAveraging_accepts one_track one_MSD one_D_app ["brownian"] 1);
    try reflexivity.
  - constructor; [|constructor]. eexists.
    split; [apply lookup_singleton_eq|reflexivity].
  - repeat constructor.
  - repeat constructor.
  - constructor; [|constructor]. left. reflexivity.
  - constructor. discriminate.
Qed.

Lemma smartAveraging_averages_are_category_means_witness :
  exists s,
    smartAveraging one_track one_MSD one_D_app ["brownian"] = Ok s /\
    exists (L : nat) track0 x0,
      one_track !! 0%nat = Some track0 /\ track0 !! "x" = Some x0 /\
      length x0 = (L + 3)%nat /\
      let a := averages s in
      let mean_of label curves :=
        mean_curve L (curves_labelled label ["brownian"] curves) in
      let count label :=
        Z.of_nat (length (curves_labelled label ["brownian"] one_D_app)) in
      average_D_app_brownian a = mean_of "brownian" one_D_app /\
      average_D_app_confined a = mean_of "confined" one_D_app /\
      average_D_app_hop a = mean_of "hop" one_D_app /\
      average_MSD_brownian a = mean_of "brownian" (msd_curves one_MSD) /\
      average_MSD_confined a = mean_of "confined" (msd_curves one_MSD) /\
      average_MSD_hop a = mean_of "hop" (msd_curves one_MSD) /\
      counter_brownian a = count "brownian" /\
      counter_confined a = count "confined" /\
      counter_hop a = count "hop".
Proof.
  destruct smartAveraging_one_track_returns as (s & Hs).
  exists s. split; [exact Hs|].
  exact (smartAveraging_averages_are_category_means one_track one_MSD
           one_D_app ["brownian"] s Hs).
Defined.


(** ** The apparent diffusion coefficient *)

Lemma adc_denominator (r dt : R) (i : Z) :
  dt <> 0%R -> 1 <= i ->
  F.mul (F.mul four (Fin (dt * IZR i)))
        (F.sub one (F.div (F.mul (F.mul two (Fin r)) (Fin dt))
                          (Fin (dt * IZR i))))
  = Fin (4 * dt * (IZR i - 2 * r)).
Proof.
  intros Hdt Hi.
  assert (1 <= IZR i)%R as Hi' by (apply IZR_le; exact Hi).
  assert (dt * IZR i <> 0)%R as Hne by nra.
  unfold four, two, one, F.mul, F.sub, F.div, F.neg, F.add.
  destruct (Req_dec_T (dt * IZR i) 0) as [E|_]; [contradiction|].
  f_equal. field. split; lra.
Qed.

(** X21.  The fit range of [adc_analysis] for a curve of [N] points and a
    finite time step [dt <> 0]: [nFitPoints] is a fraction of [N] here
    (not a number of points); the assertion fails exactly when the
    resulting number [n] is below 2, the warning is issued exactly when
    [n] exceeds the integer part of [N / 4], the time array is
    [dt, 2 dt, ..., N dt], and entry [i] (counted from 1) of the apparent
    diffusion coefficient is [MSD_i / (4 dt (i - 2 R))]. *)
Theorem adc_fit_range_outcome (r dt : R) (nFitPoints : option float64)
    (this_msd : list float64) (n : Z) :
  dt <> 0%R ->
  let N := Z.of_nat (length this_msd) in
  py_int (F.mul (match nFitPoints with
                 | None => Fin (1 / 4)
                 | Some f => f
                 end) (F.of_Z N)) = Ok n ->
  adc_fit_range (Fin r) nFitPoints this_msd (Fin dt)
  = if n <? 2 then IO [] (Raise AssertionError)
    else IO (if N / 4 <? n then [Warn too_many_points] else [])
            (Ok (n,
                 map (fun i => Fin (dt * IZR i)) (py_range 1 (N + 1)),
                 zip_with (fun m i =>
                             F.div m (Fin (4 * dt * (IZR i - 2 * r))))
                          this_msd (py_range 1 (N + 1)))).
Proof.
  intros Hdt N Hn. unfold adc_fit_range. fold N.
  assert (match nFitPoints with
          | None => py_int (F.mul (Fin (1 / 4)) (F.of_Z N))
          | Some f => py_int (F.mul f (F.of_Z N))
          end = Ok n) as -> by (destruct nFitPoints; exact Hn).
  rewrite bind_lift_Ok.
  destruct (Z.ltb_spec n 2) as [H2|H2].
  - destruct (Z.leb_spec 2 n); [lia|]. reflexivity.
  - destruct (Z.leb_spec 2 n); [|lia]. cbn [py_assert].
    rewrite bind_ret_io, py_int_quarter, bind_lift_Ok by lia.
    rewrite np_linspace_steps by lia.
    assert (np_broadcast F.div this_msd
              (map (fun t =>
                      F.mul (F.mul four t)
                            (F.sub one
                               (F.div (F.mul (F.mul two (Fin r)) (Fin dt))
                                      t)))
                   (map (fun i => Fin (dt * IZR i)) (py_range 1 (N + 1))))
            = Ok (zip_with (fun m i =>
                              F.div m (Fin (4 * dt * (IZR i - 2 * r))))
                           this_msd (py_range 1 (N + 1)))) as Hb.
    { rewrite np_broadcast_same
        by (rewrite !length_map, <- Nat2Z.inj_iff, py_range_length; lia).
      f_equal. rewrite map_map.
      assert (forall i, In i (py_range 1 (N + 1)) -> 1 <= i) as Hr
        by (intros i Hi; apply py_range_In in Hi; lia).
      revert Hr. generalize (py_range 1 (N + 1)). clear - Hdt.
      intros l. revert l.
      induction this_msd as [|m ms IH]; intros [|i l] Hr; try reflexivity.
      cbn [map zip_with]. rewrite adc_denominator
        by (assumption || (apply Hr; left; reflexivity)).
      f_equal. apply IH. intros k Hk. apply Hr. right. exact Hk. }
    destruct (N / 4 <? n).
    + rewrite bind_emit, bind_lift_Ok, Hb, bind_lift_Ok. reflexivity.
    + rewrite bind_ret_io, bind_lift_Ok, Hb, bind_lift_Ok. reflexivity.
Qed.

Lemma adc_fit_range_outcome_witness :
  adc_fit_range (Fin (1 / 6)) None (replicate 8 (Fin 0)) (Fin 1)
  = IO [] (Ok (2,
               map (fun i => Fin (1 * IZR i)) (py_range 1 (8 + 1)),
               zip_with (fun m i =>
                           F.div m (Fin (4 * 1 * (IZR i - 2 * (1 / 6)))))
                        (replicate 8 (Fin 0)) (py_range 1 (8 + 1)))).
Proof.
  apply (adc_fit_range_outcome (1 / 6) 1 None (replicate 8 (Fin 0)) 2).
  - lra.
  - apply (py_int_quarter 8). lia.
Defined.

(** ** Further properties of the object-level methods *)

Module HeapBehaviour.
Import Heap HeapSpec HeapFacts.

Lemma run_bind_Ok {A B} (m : heapM A) (f : A -> heapM B)
    (h h2 : gmap loc cell) (b : B) :
  run (m ≫= f) h = (Ok b, h2) ->
  exists a h1, run m h = (Ok a, h1) /\ run (f a) h1 = (Ok b, h2).
Proof.
  rewrite run_bind. destruct (run m h) as [[a|e] h1]; [|discriminate].
  intros H. exists a, h1. split; [reflexivity|exact H].
Qed.

Lemma fresh_unused (h : gmap loc cell) : h !! fresh (dom h) = None.
Proof. apply not_elem_of_dom, is_fresh. Qed.

Lemma alloc_extends (h : gmap loc cell) (c : cell) :
  h ⊆ <[fresh (dom h) := c]> h.
Proof. apply insert_subseteq, fresh_unused. Qed.

Lemma refers_to_array_weaken (h h' : gmap loc cell) (v : pyval) :
  h ⊆ h' -> refers_to_array h v -> refers_to_array h' v.
Proof.
  intros Hs (l & a & -> & Hl). exists l, a. split; [reflexivity|].
  eapply lookup_weaken; eassumption.
Qed.

Lemma arr_map_Ok (f : float64 -> float64) (v w : pyval)
    (h h' : gmap loc cell) :
  run (arr_map f v) h = (Ok w, h') -> h ⊆ h' /\ refers_to_array h' w.
Proof.
  unfold arr_map. intros H. apply run_bind_Ok in H.
  destruct H as (d & h1 & Hd & H).
  pose proof (arr_data_reads v h) as Hr. rewrite Hd in Hr. cbn in Hr.
  subst h1. unfold arr_new, alloc in H. cbn [run] in H.
  injection H as <- <-. split; [apply alloc_extends|].
  eexists _, _. split; [reflexivity|]. apply lookup_insert_eq.
Qed.

Lemma np_array_extends (v : pyval) (h : gmap loc cell) :
  exists w h', run (np_array v) h = (Ok w, h') /\ h ⊆ h'.
Proof.
  unfold np_array. cbn [run].
  destruct v as [|l|x]; [| destruct (h !! l) as [[a|o]|] |];
    unfold alloc; cbn [run]; eexists _, _;
    (split; [reflexivity|apply alloc_extends]).
Qed.

Lemma setattr_on_array (h : gmap loc cell) (v x : pyval) (name : string) :
  refers_to_array h v ->
  run (setattr v name x) h = (Raise AttributeError, h).
Proof.
  intros (l & a & -> & Hl). unfold setattr. cbn [run]. rewrite Hl.
  reflexivity.
Qed.

Lemma Track_init_on_array (h : gmap loc cell) (self x y t : pyval) :
  refers_to_array h self ->
  exists h', run (Track_init self x y t) h = (Raise AttributeError, h').
Proof.
  intros Hs. unfold Track_init. rewrite run_bind.
  destruct (np_array_extends x h) as (w & h1 & -> & Hsub).
  rewrite run_bind, setattr_on_array
    by (eapply refers_to_array_weaken; eassumption).
  eexists. reflexivity.
Qed.

Lemma NormalizedTrack_new_raises (h : gmap loc cell) (x y t : pyval)
    (xy_min xy_max tmin tmax : float64) :
  refers_to_array h x ->
  exists h',
    run (NormalizedTrack_new x y t xy_min xy_max tmin tmax) h
    = (Raise AttributeError, h').
Proof.
  intros Hx. unfold NormalizedTrack_new. rewrite run_bind.
  unfold alloc at 1. cbn [run]. rewrite run_bind.
  destruct (Track_init_on_array
              (<[fresh (dom h) := CObj (mkObj ClsNormalizedTrack ∅)]> h)
              x y t VNone) as (h' & ->).
  - eapply refers_to_array_weaken; [apply alloc_extends|exact Hx].
  - eexists. reflexivity.
Qed.

Lemma reduce_nonempty (f : float64 -> float64 -> float64) (v : pyval)
    (h : gmap loc cell) (x : float64) (r : list float64) :
  holds h v (x :: r) -> run (reduce f v) h = (Ok (fold_left f r x), h).
Proof.
  intros (l & -> & Hl). unfold reduce. rewrite run_bind.
  unfold deref. cbn [run]. rewrite Hl. reflexivity.
Qed.

(** X22.  [Track.normalize] never returns: whatever the object and the
    store, the call ends in an exception, because the constructor of
    [NormalizedTrack] calls [Track.__init__(x, y, t)] without [self] and
    thereby assigns an attribute to the array [x].  On a track whose three
    coordinate arrays are not empty the exception is [AttributeError]. *)
Theorem normalize_never_returns (self : pyval) (h : gmap loc cell) :
  (exists e h', run (normalize self) h = (Raise e, h'))
  /\ forall l o vx vy vt x xs y ys t ts,
       self = VRef l -> h !! l = Some (CObj o) ->
       attrs o !! "_x" = Some vx -> attrs o !! "_y" = Some vy ->
       attrs o !! "_t" = Some vt ->
       holds h vx (x :: xs) -> holds h vy (y :: ys) ->
       holds h vt (t :: ts) ->
       exists h', run (normalize self) h = (Raise AttributeError, h').
Proof.
  split.
  - destruct (run (normalize self) h) as [[u|e] h'] eqn:H; [|eauto].
    exfalso. unfold normalize in H.
    do 11 (apply run_bind_Ok in H; destruct H as (? & ? & _ & H)).
    apply run_bind_Ok in H. destruct H as (nx & g2 & Hnx & H).
    apply arr_map_Ok in Hnx. destruct Hnx as (_ & Hnx).
    apply run_bind_Ok in H. destruct H as (ny1 & g3 & Hy1 & H).
    apply arr_map_Ok in Hy1. destruct Hy1 as (S3 & _).
    apply run_bind_Ok in H. destruct H as (ny & g4 & Hy2 & H).
    apply arr_map_Ok in Hy2. destruct Hy2 as (S4 & _).
    apply run_bind_Ok in H. destruct H as (nt1 & g5 & Ht1 & H).
    apply arr_map_Ok in Ht1. destruct Ht1 as (S5 & _).
    apply run_bind_Ok in H. destruct H as (nt & g6 & Ht2 & H).
    apply arr_map_Ok in Ht2. destruct Ht2 as (S6 & _).
    apply run_bind_Ok in H. destruct H as (n & g7 & Hn & _).
    assert (refers_to_array g6 nx) as Hx6.
    { eapply refers_to_array_weaken; [exact S6|].
      eapply refers_to_array_weaken; [exact S5|].
      eapply refers_to_array_weaken; [exact S4|].
      eapply refers_to_array_weaken; [exact S3|]. exact Hnx. }
    match type of Hn with
    | run (NormalizedTrack_new ?a ?b ?c ?d ?e ?f ?g) _ = _ =>
        destruct (NormalizedTrack_new_raises g6 a b c d e f g Hx6)
          as (g8 & Hr)
    end.
    congruence.
  - intros l o vx vy vt x xs y ys t ts -> Hl Ax Ay At Hx Hy Ht.
    unfold normalize.
    assert (forall name v, attrs o !! name = Some v ->
              run (getattr (VRef l) name) h = (Ok v, h)) as Hget
      by (intros name v Hv; unfold getattr; cbn [run]; rewrite Hl, Hv;
          reflexivity).
    rewrite run_bind. unfold class_of at 1. cbn [run]. rewrite Hl.
    rewrite run_bind, (Hget _ _ Ax), run_bind, (Hget _ _ Ay),
      run_bind, (Hget _ _ At).
    rewrite run_bind, (reduce_nonempty _ _ _ _ _ Hx),
      run_bind, (reduce_nonempty _ _ _ _ _ Hx),
      run_bind, (reduce_nonempty _ _ _ _ _ Hy),
      run_bind, (reduce_nonempty _ _ _ _ _ Hy),
      run_bind, (reduce_nonempty _ _ _ _ _ Ht),
      run_bind, (reduce_nonempty _ _ _ _ _ Ht).
    rewrite run_bind.
    destruct (HeapRefinement.yields_arr_map h
                (fun v => F.sub v (py_min (fold_left fmin xs x)
                                          [fold_left fmin ys y]))
                vx _ Hx) as (h1 & S1 & x1 & -> & Hx1).
    rewrite run_bind.
    destruct (HeapRefinement.yields_arr_map h1
                (fun v => F.div v (F.sub (py_min (fold_left fmax xs x)
                                                 [fold_left fmax ys y])
                                         (py_min (fold_left fmin xs x)
                                                 [fold_left fmin ys y])))
                x1 _ Hx1) as (h2 & S2 & x2 & -> & Hx2).
    rewrite run_bind.
    destruct (HeapRefinement.yields_arr_map h2
                (fun v => F.sub v (py_min (fold_left fmin xs x)
                                          [fold_left fmin ys y]))
                vy (y :: ys)) as (h3 & S3 & y1 & -> & Hy1).
    { eapply HeapRefinement.holds_weaken; [|exact Hy].
      etransitivity; eassumption. }
    rewrite run_bind.
    destruct (HeapRefinement.yields_arr_map h3
                (fun v => F.div v (F.sub (py_min (fold_left fmax xs x)
                                                 [fold_left fmax ys y])
                                         (py_min (fold_left fmin xs x)
                                                 [fold_left fmin ys y])))
                y1 _ Hy1) as (h4 & S4 & y2 & -> & Hy2).
    rewrite run_bind.
    destruct (HeapRefinement.yields_arr_map h4
                (fun v => F.sub v (fold_left fmin ts t))
                vt (t :: ts)) as (h5 & S5 & t1 & -> & Ht1).
    { eapply HeapRefinement.holds_weaken; [|exact Ht].
      repeat (etransitivity; [eassumption|]). reflexivity. }
    rewrite run_bind.
    destruct (HeapRefinement.yields_arr_map h5
                (fun v => F.div v (F.sub (fold_left fmax ts t)
                                         (fold_left fmin ts t)))
                t1 _ Ht1) as (h6 & S6 & t2 & -> & Ht2).
    rewrite run_bind.
    assert (refers_to_array h6 x2) as Hx6.
    { destruct Hx2 as (lx & -> & Hlx). eexists _, _.
      split; [reflexivity|].
      eapply lookup_weaken; [exact Hlx|].
      repeat (etransitivity; [eassumption|]). reflexivity. }
    match goal with
    | |- context [run (NormalizedTrack_new ?a ?b ?c ?d ?e ?f ?g) h6] =>
        destruct (NormalizedTrack_new_raises h6 a b c d e f g Hx6)
          as (h8 & ->)
    end.
    eexists. reflexivity.
Qed.

Lemma run_np_array_holds (h : gmap loc cell) (v : pyval)
    (d : list float64) :
  holds h v d ->
  run (np_array v) h
  = (Ok (VRef (fresh (dom h))), <[fresh (dom h) := CArr (NdFloat d)]> h).
Proof.
  intros (l & -> & Hl). unfold np_array. cbn [run]. rewrite Hl. reflexivity.
Qed.

Lemma run_setattr_object (h : gmap loc cell) (self : loc) (o : pyobj)
    (name : string) (v : pyval) :
  h !! self = Some (CObj o) ->
  run (setattr (VRef self) name v) h
  = (Ok tt, <[self := CObj (mkObj (cls o) (<[name := v]> (attrs o)))]> h).
Proof. intros Hs. unfold setattr. cbn [run]. rewrite Hs. reflexivity. Qed.

(** One assignment [self.name = np.array(v)] of the constructor. *)
Lemma init_attribute (h : gmap loc cell) (self : loc) (o : pyobj)
    (name : string) (v : pyval) (d : list float64) :
  h !! self = Some (CObj o) -> holds h v d ->
  exists l h',
    run (np_array v) h = (Ok (VRef l), <[l := CArr (NdFloat d)]> h) /\
    run (setattr (VRef self) name (VRef l)) (<[l := CArr (NdFloat d)]> h)
    = (Ok tt, h') /\
    h !! l = None /\ l <> self /\
    h' !! l = Some (CArr (NdFloat d)) /\
    h' !! self
    = Some (CObj (mkObj (cls o) (<[name := VRef l]> (attrs o)))) /\
    (forall k, k <> self -> k <> l -> h' !! k = h !! k).
Proof.
  intros Hs Hv. pose proof (fresh_unused h) as Hf.
  set (l := fresh (dom h)) in *.
  assert (l <> self) as Hne by (intros ->; congruence).
  exists l. eexists. split; [apply run_np_array_holds, Hv|].
  split.
  { apply run_setattr_object. rewrite lookup_insert_ne by exact Hne.
    exact Hs. }
  split; [exact Hf|]. split; [exact Hne|]. split.
  { rewrite lookup_insert_ne by congruence. apply lookup_insert_eq. }
  split; [apply lookup_insert_eq|].
  intros k Hk1 Hk2. rewrite !lookup_insert_ne by congruence. reflexivity.
Qed.

(** X23.  [Track.__init__] copies its arguments: called on an object with
    three arrays, it returns with [_x], [_y] and [_t] referring to three
    new, distinct arrays that hold the elements of the arguments, and with
    [_MSD] and [_MSD_error] set to [None]; nothing else in the store
    changes, so the track shares no array with its caller. *)
Theorem Track_init_copies_its_arguments (h : gmap loc cell) (self : loc)
    (o : pyobj) (x y t : pyval) (dx dy dt : list float64) :
  h !! self = Some (CObj o) ->
  holds h x dx -> holds h y dy -> holds h t dt ->
  exists h' o' lx ly lt,
    run (Track_init (VRef self) x y t) h = (Ok tt, h') /\
    h' !! self = Some (CObj o') /\ cls o' = cls o /\
    (attrs o' !! "_x" = Some (VRef lx)) /\
    (attrs o' !! "_y" = Some (VRef ly)) /\
    (attrs o' !! "_t" = Some (VRef lt)) /\
    (attrs o' !! "_MSD" = Some VNone) /\
    (attrs o' !! "_MSD_error" = Some VNone) /\
    (h !! lx = None) /\ (h !! ly = None) /\ (h !! lt = None) /\
    lx <> ly /\ lx <> lt /\ ly <> lt /\
    (h' !! lx = Some (CArr (NdFloat dx))) /\
    (h' !! ly = Some (CArr (NdFloat dy))) /\
    (h' !! lt = Some (CArr (NdFloat dt))) /\
    forall k, k <> self -> k <> lx -> k <> ly -> k <> lt ->
      h' !! k = h !! k.
Proof.
  intros Hs Hx Hy Ht.
  assert (forall (g : gmap loc cell) v d,
            holds h v d ->
            (forall k, h !! k <> None -> k <> self -> g !! k = h !! k) ->
            holds g v d) as Hkeep.
  { intros g v d (l & -> & Hl) Hg. exists l. split; [reflexivity|].
    rewrite Hg by congruence. exact Hl. }
  destruct (init_attribute h self o "_x" x dx Hs Hx)
    as (lx & h1 & R1 & W1 & F1 & N1 & A1 & O1 & K1).
  assert (holds h1 y dy) as Hy1.
  { apply Hkeep; [exact Hy|]. intros k Hk Hk'. apply K1; congruence. }
  assert (forall k, h !! k <> None -> k <> self -> h1 !! k = h !! k) as K1'
    by (intros k Hk Hk'; apply K1; congruence).
  destruct (init_attribute h1 self _ "_y" y dy O1 Hy1)
    as (ly & h2 & R2 & W2 & F2 & N2 & A2 & O2 & K2).
  assert (ly <> lx) as Nyx by (intros ->; congruence).
  assert (holds h2 t dt) as Ht2.
  { apply Hkeep; [exact Ht|]. intros k Hk Hk'.
    pose proof (K1' k Hk Hk') as E1.
    rewrite K2; [exact E1|exact Hk'|]. intros ->. congruence. }
  destruct (init_attribute h2 self _ "_t" t dt O2 Ht2)
    as (lt & h3 & R3 & W3 & F3 & N3 & A3 & O3 & K3).
  assert (lt <> ly) as Nty by (intros ->; congruence).
  assert (lt <> lx) as Ntx.
  { intros ->. rewrite K2 in F3 by congruence. congruence. }
  cbn [cls attrs] in *.
  eexists _, _, lx, ly, lt. split.
  { unfold Track_init.
    rewrite run_bind, R1, run_bind, W1, run_bind, R2, run_bind, W2,
      run_bind, R3, run_bind, W3.
    rewrite run_bind, (run_setattr_object _ _ _ _ _ O3).
    apply run_setattr_object. apply lookup_insert_eq. }
  cbn [cls attrs].
  split; [apply lookup_insert_eq|]. cbn [cls attrs].
  split; [reflexivity|].
  do 5 (split; [rewrite ?lookup_insert_ne by discriminate;
                apply lookup_insert_eq|]).
  split; [exact F1|].
  split; [rewrite <- (K1 ly) by congruence; exact F2|].
  split; [rewrite <- (K1 lt), <- (K2 lt) by congruence; exact F3|].
  split; [congruence|]. split; [congruence|]. split; [congruence|].
  split; [rewrite !lookup_insert_ne, K3, K2 by congruence; exact A1|].
  split; [rewrite !lookup_insert_ne, K3 by congruence; exact A2|].
  split; [rewrite !lookup_insert_ne by congruence; exact A3|].
  intros k Hk1 Hk2 Hk3 Hk4.
  rewrite !lookup_insert_ne, K3, K2, K1 by congruence. reflexivity.
Qed.

Lemma one_track_store_arrays :
  one_track_store !! 1%positive = Some (CObj track_object) /\
  holds one_track_store (VRef 2%positive) [Fin 0; Fin 1; Fin 1; Fin 1] /\
  holds one_track_store (VRef 3%positive) [Fin 0; Fin 0; Fin 0; Fin 0] /\
  holds one_track_store (VRef 4%positive) [Fin 0; Fin 1; Fin 2; Fin 3].
Proof.
  unfold one_track_store, holds. split; [apply lookup_insert_eq|].
  split; [|split]; eexists; (split; [reflexivity|]).
  - rewrite lookup_insert_ne by discriminate. apply lookup_insert_eq.
  - rewrite !lookup_insert_ne by discriminate. apply lookup_insert_eq.
  - rewrite !lookup_insert_ne by discriminate. apply lookup_singleton_eq.
Qed.

Lemma normalize_never_returns_witness :
  exists h',
    run (normalize (VRef 1%positive)) one_track_store
    = (Raise AttributeError, h').
Proof.
  destruct one_track_store_arrays as (H1 & H2 & H3 & H4).
  apply (proj2 (normalize_never_returns (VRef 1%positive) one_track_store)
           1%positive track_object (VRef 2%positive) (VRef 3%positive)
           (VRef 4%positive) (Fin 0) [Fin 1; Fin 1; Fin 1]
           (Fin 0) [Fin 0; Fin 0; Fin 0] (Fin 0) [Fin 1; Fin 2; Fin 3]
           eq_refl H1 eq_refl eq_refl eq_refl H2 H3 H4).
Defined.

Lemma Track_init_copies_its_arguments_witness :
  exists h' o' lx,
    run (Track_init (VRef 1%positive) (VRef 2%positive) (VRef 3%positive)
           (VRef 4%positive)) one_track_store = (Ok tt, h') /\
    h' !! 1%positive = Some (CObj o') /\
    (attrs o' !! "_x" = Some (VRef lx)) /\
    (one_track_store !! lx = None) /\
    (h' !! lx = Some (CArr (NdFloat [Fin 0; Fin 1; Fin 1; Fin 1]))).
Proof.
  destruct one_track_store_arrays as (H1 & H2 & H3 & H4).
  destruct (Track_init_copies_its_arguments one_track_store 1%positive
              track_object (VRef 2%positive) (VRef 3%positive)
              (VRef 4%positive) _ _ _ H1 H2 H3 H4)
    as (h' & o' & lx & ly & lt & R & O & _ & Ax & _ & _ & _ & _ & Fx & _ & _
        & _ & _ & _ & Hx & _).
  exists h', o', lx. auto.
Defined.

End HeapBehaviour.

(** ** The model classes *)

Lemma F_add_assoc (x y z : float64) :
  F.add (F.add x y) z = F.add x (F.add y z).
Proof.
  destruct x, y, z; try reflexivity. simpl. f_equal. ring.
Qed.

Lemma localization_term_unconfigured (delta : float64) (t : R) :
  t <> 0%R ->
  localization_term (Fin 0) (Fin 0) delta (Fin t)
  = F.div (F.square delta) (Fin (2 * t)).
Proof.
  intros Ht. unfold localization_term, two, one, F.mul, F.sub, F.div at 2,
    F.neg, F.add.
  destruct (Req_dec_T t 0) as [E|_]; [contradiction|].
  do 2 f_equal. field. exact Ht.
Qed.

(** X24.  A model instance as its constructor leaves it ([R = dt = 0])
    applies no scanning correction: at every finite time [t <> 0] the
    localization term of [ModelBrownian], [ModelConfined], [ModelHop] and
    [ModelImmobile] is [delta**2 / (2 t)]. *)
Theorem unconfigured_models_have_no_correction (t : R)
    (D D_micro D_macro delta tau : float64) :
  t <> 0%R ->
  let plain := F.div (F.square delta) (Fin (2 * t)) in
  Models.ModelImmobile Models.init (Fin t) delta = plain /\
  Models.ModelBrownian Models.init (Fin t) D delta = F.add D plain /\
  Models.ModelConfined Models.init (Fin t) D_micro delta tau
  = F.add (Models.confinement D_micro tau (Fin t)) plain /\
  Models.ModelHop Models.init (Fin t) D_macro D_micro delta tau
  = F.add (F.add D_macro (Models.confinement D_micro tau (Fin t))) plain.
Proof.
  intros Ht. cbv zeta.
  unfold Models.ModelImmobile, Models.ModelBrownian, Models.ModelConfined,
    Models.ModelHop, Models.init. cbn [Models.R Models.dt].
  rewrite localization_term_unconfigured by exact Ht. auto.
Qed.

(** X25.  The model classes are nested (in exact arithmetic): the hop
    model is the confined model shifted by [D_macro], and the power-law
    model at [alpha = 1] is the linear model, at every time (also zero,
    negative, infinite or [nan]). *)
Theorem model_classes_are_nested (self : Models.instance)
    (t D_macro D_micro delta tau D delta2 : float64) :
  Models.ModelHop self t D_macro D_micro delta tau
  = F.add D_macro (Models.ModelConfined self t D_micro delta tau)
  /\ Models.ModelPower t D delta2 (Fin 1) = Models.ModelLinear t D delta2.
Proof.
  split.
  - unfold Models.ModelHop, Models.ModelConfined. apply F_add_assoc.
  - unfold Models.ModelPower, Models.ModelLinear. rewrite pow_one.
    reflexivity.
Qed.


Lemma unconfigured_models_have_no_correction_witness :
  Models.ModelImmobile Models.init (Fin 1) (Fin 2)
  = F.div (F.square (Fin 2)) (Fin (2 * 1)).
Proof.
  apply (proj1 (unconfigured_models_have_no_correction 1 (Fin 0) (Fin 0)
                  (Fin 0) (Fin 2) (Fin 1) ltac:(lra))).
Defined.


(** ** The squared-displacement analysis *)

Lemma traverse_Ok_inv {A B} (f : A -> result B) (l : list A) (bs : list B) :
  traverse f l = Ok bs -> forall a, In a l -> exists b, f a = Ok b.
Proof.
  revert bs. induction l as [|x l IH]; intros bs H a Ha; [destruct Ha|].
  cbn [traverse] in H. destruct (f x) as [b|] eqn:Hx; [|discriminate].
  cbn [mbind result_bind] in H.
  destruct (traverse f l) as [bs'|] eqn:Hl; [|discriminate].
  destruct Ha as [<-|Ha]; [eauto|]. eapply IH; [reflexivity|exact Ha].
Qed.

Lemma square_neg (x : float64) : F.square (F.neg x) = F.square x.
Proof.
  destruct x as [r| | |]; try reflexivity.
  unfold F.square, F.neg, F.mul. f_equal. ring.
Qed.

(** X27.  The Rayleigh density depends on [sigma] only through
    [sigma**2]: a fit cannot tell [sigma] from [-sigma], and the apparent
    diffusion coefficient [sigma**2 / (2 t)] that [sd_analysis] derives
    from the fitted [sigma] is the same for both. *)
Theorem rayleighPDF_even_in_sigma (x sigma t_lag : float64) :
  rayleighPDF x (F.neg sigma) = rayleighPDF x sigma
  /\ F.div (F.square (F.neg sigma)) (F.mul two t_lag)
     = F.div (F.square sigma) (F.mul two t_lag).
Proof. unfold rayleighPDF. rewrite !square_neg. split; reflexivity. Qed.

Section SdFacts.

Variable results_t : Type.
Variable options : Type.
Variable np_histogram :
  list float64 -> Z -> result (list float64 * list float64).
Variable curve_fit :
  (float64 -> float64 -> float64) -> list float64 -> list float64 ->
  float64 -> result (list float64 * list (list float64)).
Variable _categorize :
  Track -> list float64 -> list Z -> list float64 -> options ->
  result (string * results_t).

Lemma sd_point_Ok (self : Track) (binsize dt : float64) (j : Z)
    (p : float64 * float64) :
  Sd.sd_point np_histogram curve_fit self binsize dt j = Ok p ->
  j + 2 <= Z.of_nat (length (_x self)).
Proof.
  unfold Sd.sd_point. change (_calculate_sd_at self j) with (SD self j).
  destruct (Z.le_gt_cases (Z.of_nat (length (_x self)) - 1) j) as [Hj|Hj];
    [|lia].
  rewrite SD_empty_beyond by exact Hj. cbn [mbind result_bind map].
  change (np_getitem (@nil float64) (-1)) with (@Raise float64 IndexError).
  discriminate.
Qed.

(** X28.  [sd_analysis] returns only if the track has at least two time
    stamps and every lag [j] of [J] leaves at least one pair of points
    ([j <= N - 2]); a longer lag gives an empty array of displacements,
    whose last element is read.  With the default [J], which goes up to
    100, the analysis never returns on a track of fewer than 102
    points. *)
Theorem sd_analysis_returns_only_if_lags_fit (self : Sd.track)
    (binsize_nm : float64) (J : list Z) (opts : options)
    (h : gmap Sd.ref (gmap string (Sd.value results_t))) (r : Sd.ref) :
  (Sd.sd_analysis results_t options np_histogram curve_fit _categorize
     self binsize_nm J opts h).1 = Ok r ->
  let N := Z.of_nat (length (_x (Sd.coords self))) in
  (2 <= length (_t (Sd.coords self)))%nat
  /\ (forall j, In j J -> j <= N - 2)
  /\ (J = default_J -> 102 <= N).
Proof.
  unfold Sd.sd_analysis.
  destruct (np_getitem (_t (Sd.coords self)) 1) as [t1|] eqn:H1;
    [|discriminate].
  cbn [mbind result_bind].
  destruct (np_getitem (_t (Sd.coords self)) 0) as [t0|] eqn:H0;
    [|discriminate].
  cbn [mbind result_bind].
  destruct (traverse _ J) as [points|] eqn:HJ; [|discriminate].
  intros _. cbv zeta.
  assert (forall j, In j J ->
            j <= Z.of_nat (length (_x (Sd.coords self))) - 2) as Hlags.
  { intros j Hj.
    destruct (traverse_Ok_inv _ _ _ HJ j Hj) as (p & Hp).
    apply sd_point_Ok in Hp. lia. }
  split; [|split].
  - apply np_getitem_Ok_inrange in H1. lia.
  - exact Hlags.
  - intros ->. specialize (Hlags 100). cbn [default_J In] in Hlags.
    assert (100 <= Z.of_nat (length (_x (Sd.coords self))) - 2)
      by (apply Hlags; auto 30).
    lia.
Qed.

Lemma dict_setitem_Ok (r : Sd.ref) (key : string)
    (v : Sd.value results_t)
    (h : gmap Sd.ref (gmap string (Sd.value results_t)))
    (d : gmap string (Sd.value results_t)) :
  h !! r = Some d ->
  Sd.dict_setitem results_t r key v h = Ok (<[r := <[key := v]> d]> h).
Proof. intros H. unfold Sd.dict_setitem. rewrite H. reflexivity. Qed.

Lemma dict_setitem_again (r : Sd.ref) (key : string)
    (v : Sd.value results_t)
    (h : gmap Sd.ref (gmap string (Sd.value results_t)))
    (d : gmap string (Sd.value results_t)) :
  Sd.dict_setitem results_t r key v (<[r := d]> h)
  = Ok (<[r := <[key := v]> d]> (<[r := d]> h)).
Proof. apply dict_setitem_Ok, lookup_insert_eq. Qed.

(** X29.  [sd_analysis] writes its results into the dictionary that
    [get_sd_analysis_results] hands out, in place: a reference obtained
    before the analysis sees, after it, [analyzed = True], one apparent
    diffusion coefficient per lag, the lags, the model and the results,
    with every other key and every other dictionary unchanged; and when
    the analysis raises, the store is as it was before the call. *)
Theorem sd_analysis_updates_results_in_place (self : Sd.track)
    (binsize_nm : float64) (J : list Z) (opts : options)
    (h : gmap Sd.ref (gmap string (Sd.value results_t))) (r : Sd.ref)
    (d : gmap string (Sd.value results_t)) :
  Sd.get_sd_analysis_results self = Ok r -> h !! r = Some d ->
  let run := Sd.sd_analysis results_t options np_histogram curve_fit
               _categorize self binsize_nm J opts h in
  (forall e, run.1 = Raise e -> run.2 = h)
  /\ forall r1, run.1 = Ok r1 ->
       r1 = r /\
       exists d1 dapp model results,
         run.2 !! r = Some d1 /\
         (d1 !! "analyzed" = Some (Sd.SBool results_t true)) /\
         (d1 !! "Dapp" = Some (Sd.SFloats results_t dapp)) /\
         length dapp = length J /\
         (d1 !! "J" = Some (Sd.SInts results_t J)) /\
         (d1 !! "model" = Some (Sd.SStr results_t model)) /\
         (d1 !! "results" = Some (Sd.SResults results_t results)) /\
         (forall k, ~ In k ["analyzed"; "Dapp"; "J"; "model"; "results"] ->
            d1 !! k = d !! k) /\
         (forall r2, r2 <> r -> run.2 !! r2 = h !! r2).
Proof.
  intros Hr Hd. cbv zeta. unfold Sd.sd_analysis.
  unfold Sd.get_sd_analysis_results in Hr.
  destruct (np_getitem (_t (Sd.coords self)) 1) as [t1|] eqn:H1;
    [|split; [reflexivity|discriminate]].
  cbn [mbind result_bind].
  destruct (np_getitem (_t (Sd.coords self)) 0) as [t0|] eqn:H0;
    [|split; [reflexivity|discriminate]].
  cbn [mbind result_bind].
  destruct (traverse _ J) as [points|] eqn:HJ;
    [|split; [reflexivity|discriminate]].
  cbn [mbind result_bind].
  destruct (_categorize _ _ _ _ _) as [[model results]|] eqn:HC;
    [|split; [reflexivity|discriminate]].
  cbn [mbind result_bind]. rewrite Hr.
  rewrite (dict_setitem_Ok _ _ _ _ _ Hd). cbn [mbind result_bind].
  rewrite dict_setitem_again.
  cbn [mbind result_bind].
  rewrite dict_setitem_again.
  cbn [mbind result_bind].
  rewrite dict_setitem_again.
  cbn [mbind result_bind].
  rewrite dict_setitem_again.
  cbn [fst snd]. split; [discriminate|].
  intros r1 [= <-]. split; [reflexivity|].
  eexists _, (map fst points), model, results.
  split; [apply lookup_insert_eq|].
  split; [rewrite !lookup_insert_ne by discriminate; apply lookup_insert_eq|].
  split; [rewrite !lookup_insert_ne by discriminate; apply lookup_insert_eq|].
  split; [rewrite length_map; apply (traverse_length _ _ _ HJ)|].
  split; [rewrite !lookup_insert_ne by discriminate; apply lookup_insert_eq|].
  split; [rewrite !lookup_insert_ne by discriminate; apply lookup_insert_eq|].
  split; [apply lookup_insert_eq|].
  split.
  - intros k Hk. cbn [In] in Hk.
    rewrite !lookup_insert_ne by (intros <-; apply Hk; auto 10).
    reflexivity.
  - intros r2 Hr2. rewrite !lookup_insert_ne by congruence. reflexivity.
Qed.

(** X30.  [delete_sd_analysis_results] binds the attribute to a new
    dictionary and leaves the old one alone: results obtained through
    [get_sd_analysis_results] before the deletion keep their contents,
    and the track then reports [analyzed = False], the model "unknown"
    and no [Dapp] and [results]. *)
Theorem delete_sd_analysis_results_rebinds (self : Sd.track)
    (h : gmap Sd.ref (gmap string (Sd.value results_t))) :
  let self' := (Sd.delete_sd_analysis_results results_t self h).1 in
  let h' := (Sd.delete_sd_analysis_results results_t self h).2 in
  Sd.coords self' = Sd.coords self
  /\ (forall r d, h !! r = Some d -> h' !! r = Some d)
  /\ exists r' d',
       Sd.get_sd_analysis_results self' = Ok r' /\
       h !! r' = None /\ h' !! r' = Some d' /\
       (d' !! "analyzed" = Some (Sd.SBool results_t false)) /\
       (d' !! "model" = Some (Sd.SStr results_t "unknown")) /\
       (d' !! "Dapp" = Some (Sd.SNone results_t)) /\
       (d' !! "results" = Some (Sd.SNone results_t)).
Proof.
  cbv zeta. unfold Sd.delete_sd_analysis_results. cbn [fst snd Sd.coords].
  assert (h !! fresh (dom h) = None) as Hf
    by apply not_elem_of_dom, is_fresh.
  split; [reflexivity|]. split.
  - intros r d Hr. rewrite lookup_insert_ne by congruence. exact Hr.
  - eexists _, _. split; [reflexivity|]. split; [exact Hf|].
    split; [apply lookup_insert_eq|].
    split; [apply lookup_insert_eq|].
    split; [rewrite !lookup_insert_ne by discriminate;
            apply lookup_insert_eq|].
    split; [rewrite !lookup_insert_ne by discriminate;
            apply lookup_insert_eq|].
    rewrite !lookup_insert_ne by discriminate. apply lookup_singleton_eq.
Qed.

End SdFacts.

Lemma SD_nonneg_finite (self : Track) (j : Z) (sd : list float64) :
  length (_y self) = length (_x self) -> 0 <= j ->
  Forall is_finite (_x self) -> Forall is_finite (_y self) ->
  SD self j = Ok sd -> Forall nonneg_finite sd.
Proof.
  intros Hy Hj Fx Fy. rewrite SD_inrange by assumption. intros [= <-].
  rewrite <- np_sort_perm. apply Forall_forall.
  intros d (i & <- & Hi)%list_elem_of_In%in_map_iff.
  apply py_range_In in Hi. apply nonneg_finite_intro.
  - apply displacement_finite; try assumption; lia.
  - apply displacement_value.
Qed.

Lemma sqrt_nonneg_finite (x : float64) :
  nonneg_finite x -> is_finite (F.sqrt x).
Proof.
  destruct x as [a| | |]; simpl; try tauto. intros Ha.
  destruct (Rlt_dec a 0) as [E|_]; [lra|exact I].
Qed.

Lemma np_getitem_last {A} (a : list A) :
  a <> [] -> exists v, np_getitem a (-1) = Ok v /\ In v a.
Proof.
  intros Hne. unfold np_getitem. cbv zeta.
  change (-1 <? 0) with true. cbv iota.
  assert (0 < length a)%nat as Hl by (destruct a; [congruence|simpl; lia]).
  destruct (Z.leb_spec 0 (Z.of_nat (length a) + -1)); [|lia].
  destruct (Z.ltb_spec (Z.of_nat (length a) + -1) (Z.of_nat (length a)));
    [|lia].
  cbn [andb].
  destruct (lookup_lt_is_Some_2 a (Z.to_nat (Z.of_nat (length a) + -1)))
    as [v Hv]; [lia|].
  rewrite Hv. exists v. split; [reflexivity|].
  apply list_elem_of_In. eapply list_elem_of_lookup_2. exact Hv.
Qed.

Lemma sd_point_with_unit_collaborators (self : Track) (b : R)
    (dt : float64) (j : Z) :
  length (_y self) = length (_x self) ->
  Forall is_finite (_x self) -> Forall is_finite (_y self) ->
  0 <= j <= Z.of_nat (length (_x self)) - 2 -> b <> 0%R ->
  exists p,
    Sd.sd_point one_bin_histogram unit_sigma_fit self (Fin b) dt j = Ok p.
Proof.
  intros Hy Fx Fy Hj Hb. unfold Sd.sd_point.
  change (_calculate_sd_at self j) with (SD self j).
  destruct (SD self j) as [sd|e] eqn:Hsd;
    [|rewrite SD_inrange in Hsd by (assumption || lia); discriminate].
  pose proof (SD_nonneg_finite self j sd Hy ltac:(lia) Fx Fy Hsd) as Hnn.
  assert (length sd <> 0%nat) as Hlen.
  { rewrite SD_inrange in Hsd by (assumption || lia).
    injection Hsd as <-.
    rewrite np_sort_length, length_map. unfold np_arange.
    pose proof (py_range_length 0 (Z.of_nat (length (_x self)) - j - 1)).
    lia. }
  cbn [mbind result_bind].
  assert (Forall is_finite (map F.sqrt sd)) as Hfin.
  { apply Forall_forall. intros v (x & <- & Hx)%list_elem_of_In%in_map_iff.
    apply sqrt_nonneg_finite. rewrite Forall_forall in Hnn.
    apply Hnn, list_elem_of_In, Hx. }
  destruct (np_getitem_last (map F.sqrt sd)) as (mx & -> & Hmx).
  { destruct sd; [contradiction|discriminate]. }
  cbn [mbind result_bind].
  destruct (np_getitem_inrange (map F.sqrt sd) 0) as (mn & -> & Hmn).
  { rewrite length_map. lia. }
  cbn [mbind result_bind].
  rewrite Forall_forall in Hfin.
  pose proof (Hfin mx (proj2 (list_elem_of_In _ _) Hmx)) as Fmx.
  assert (is_finite mn) as Fmn.
  { apply Hfin. eapply list_elem_of_lookup_2. exact Hmn. }
  destruct mx as [vx| | |], mn as [vn| | |]; simpl in Fmx, Fmn; try tauto.
  unfold F.sub, F.neg, F.add, F.div.
  destruct (Req_dec_T b 0) as [E|_]; [contradiction|].
  unfold np_ceil, py_int. cbn [mbind result_bind].
  unfold one_bin_histogram. cbn [mbind result_bind].
  change (np_broadcast F.add (drop 1 [Fin 0; Fin 1])
            (py_slice_to [Fin 0; Fin 1] (-1)))
    with (Ok [F.add (Fin 1) (Fin 0)]).
  cbn [mbind result_bind]. unfold unit_sigma_fit. cbn [mbind result_bind].
  change (np_getitem [Fin 1] 0) with (Ok (Fin 1)).
  cbn [mbind result_bind].
  change (np_getitem (map F.sqrt (np_diag [[Fin 0]])) 0)
    with (Ok (F.sqrt (Fin 0))).
  cbn [mbind result_bind]. eexists. reflexivity.
Qed.

Lemma sd_analysis_of_six_returns :
  exists h',
    Sd.sd_analysis unit unit one_bin_histogram unit_sigma_fit
      always_brownian sd_track_of_six (Fin 10) [1; 2] tt sd_store
    = (Ok 1%positive, h').
Proof.
  unfold Sd.sd_analysis.
  change (Sd.coords sd_track_of_six) with track_of_six.
  change (np_getitem (_t track_of_six) 1) with (Ok (Fin 1)).
  change (np_getitem (_t track_of_six) 0) with (Ok (Fin 0)).
  cbn [mbind result_bind].
  assert (10 * (1 / 1000000000) <> 0)%R as Hb by lra.
  destruct track_of_six_finite as (Fx & Fy).
  cbn [traverse]. unfold F.mul at 1 2.
  destruct (sd_point_with_unit_collaborators track_of_six
              (10 * (1 / 1000000000)) (F.sub (Fin 1) (Fin 0)) 1
              eq_refl Fx Fy) as (p1 & ->); [|exact Hb|].
  { unfold track_of_six, Track_init. cbn [_x length]. lia. }
  destruct (sd_point_with_unit_collaborators track_of_six
              (10 * (1 / 1000000000)) (F.sub (Fin 1) (Fin 0)) 2
              eq_refl Fx Fy) as (p2 & ->); [|exact Hb|].
  { unfold track_of_six, Track_init. cbn [_x length]. lia. }
  cbn [mbind result_bind]. unfold always_brownian.
  cbn [mbind result_bind].
  unfold Sd.results_attr, sd_track_of_six. cbn [Sd._sd_analysis_results].
  assert (sd_store !! 1%positive
          = Some {["analyzed" := Sd.SBool unit false]}) as Hs
    by apply lookup_singleton_eq.
  rewrite (dict_setitem_Ok unit _ _ _ _ _ Hs). cbn [mbind result_bind].
  rewrite !dict_setitem_again. cbn [mbind result_bind].
  eexists. reflexivity.
Qed.

Lemma sd_analysis_returns_only_if_lags_fit_witness :
  (2 <= length (_t (Sd.coords sd_track_of_six)))%nat
  /\ (forall j, In j [1; 2] ->
        j <= Z.of_nat (length (_x (Sd.coords sd_track_of_six))) - 2)
  /\ ([1; 2] = default_J ->
      102 <= Z.of_nat (length (_x (Sd.coords sd_track_of_six)))).
Proof.
  destruct sd_analysis_of_six_returns as (h' & H).
  apply (sd_analysis_returns_only_if_lags_fit unit unit one_bin_histogram
           unit_sigma_fit always_brownian sd_track_of_six (Fin 10) [1; 2]
           tt sd_store 1%positive).
  rewrite H. reflexivity.
Defined.

Lemma sd_store_lookup :
  sd_store !! 1%positive = Some {["analyzed" := Sd.SBool unit false]}.
Proof. apply lookup_singleton_eq. Qed.

Lemma sd_analysis_updates_results_in_place_witness :
  let run := Sd.sd_analysis unit unit one_bin_histogram unit_sigma_fit
               always_brownian sd_track_of_six (Fin 10) [1; 2] tt sd_store in
  exists d1,
    run.2 !! 1%positive = Some d1 /\
    (d1 !! "analyzed" = Some (Sd.SBool unit true)) /\
    (d1 !! "J" = Some (Sd.SInts unit [1; 2])).
Proof.
  cbv zeta. destruct sd_analysis_of_six_returns as (h' & H).
  destruct (proj2 (sd_analysis_updates_results_in_place unit unit
                     one_bin_histogram unit_sigma_fit always_brownian
                     sd_track_of_six (Fin 10) [1; 2] tt sd_store 1%positive
                     {["analyzed" := Sd.SBool unit false]} eq_refl
                     sd_store_lookup)
                  1%positive ltac:(rewrite H; reflexivity))
    as (_ & d1 & dapp & model & results & H1 & H2 & _ & _ & H5 & _).
  exists d1. auto.
Defined.
